(** * EventHub: the input event hub of frameworks/base/libs/ui/EventHub.cpp

    A shallow embedding of the device registry of the event hub: the
    identity table ([mDevicesById]), the poll set ([mFDs], [mDevices],
    [mFDCount]), the switch table ([mSwitches]), the first-keyboard
    designation, device discovery ([open_device]), removal
    ([close_device]), lookup ([getDevice]), the pull-mode accessors and one
    pass of the event pump ([getEvent]).

    Conventions.
    - C integers are [Z]; where an operation can leave the range of its C
      type the wrap-around is written out.
    - A [device_t*] is modelled by the record it points to ([None] is the
      null pointer).  After [open_device] returns, the only field of a
      record that is ever written again is [next].  The two pending lists
      threaded through [next] are modelled as lists; a record has one link
      only, so [close_device] on a record that is still on the opening list
      redirects that list ([relink]).
    - Pointers to freed memory are recorded in the ghost field [mDangling]
      of the registry.
    - Everything the kernel, the allocator and the file system answer during
      one call of [open_device] is gathered in a [Fixture]; the system calls
      a function issues that matter outside the hub ([close], [property_set])
      are returned as a trace.
    - Built with HAVE_INOTIFY and EV_SW defined and HAVE_TSLIB undefined.
      Logging and the wake lock are left out. *)

From Stdlib Require Import ZArith String List Bool Lia.
From stdpp Require Import base option list strings.

Local Open Scope Z_scope.

(** ** Constants *)

(** The masks of the composite identifier (EventHub.cpp, lines 57-60). *)
Definition ID_MASK : Z := 0x0000ffff.
Definition SEQ_MASK : Z := 0x7fff0000.
Definition SEQ_SHIFT : Z := 16.
Definition id_to_index (id : Z) : Z := Z.land id ID_MASK + 1.

Definition ABS_MT_TOUCH_MAJOR : Z := 0x30.
Definition ABS_MT_POSITION_X : Z := 0x35.
Definition ABS_MT_POSITION_Y : Z := 0x36.

(** Event codes of <linux/input.h> (kernel 2.6.29, the header the file is
    compiled against; the header is not part of the sources). *)
Definition EV_KEY : Z := 0x01.
Definition EV_SW : Z := 0x05.
Definition KEY_MAX : Z := 0x1ff.
Definition BTN_MISC : Z := 0x100.
Definition BTN_MOUSE : Z := 0x110.
Definition BTN_LEFT : Z := 0x110.
Definition BTN_RIGHT : Z := 0x111.
Definition BTN_TOUCH : Z := 0x14a.
Definition BTN_GAMEPAD : Z := 0x130.
Definition REL_X : Z := 0x00.
Definition REL_Y : Z := 0x01.
Definition REL_MAX : Z := 0x0f.
Definition ABS_X : Z := 0x00.
Definition ABS_Y : Z := 0x01.
Definition ABS_MAX : Z := 0x3f.
Definition SW_HEADPHONE_INSERT : Z := 0x02.
Definition SW_MAX : Z := 0x0f.
Definition POLLIN : Z := 0x0001.

(** Device classes and synthetic event types of ui/EventHub.h, key codes of
    ui/KeycodeLabels.h and status codes of utils/Errors.h.  The headers are
    not part of the sources; the classes are distinct single bits. *)
Definition CLASS_KEYBOARD : Z := 0x00000001.
Definition CLASS_ALPHAKEY : Z := 0x00000002.
Definition CLASS_TOUCHSCREEN : Z := 0x00000004.
Definition CLASS_TRACKBALL : Z := 0x00000008.
Definition CLASS_TOUCHSCREEN_MT : Z := 0x00000010.
Definition CLASS_DPAD : Z := 0x00000020.
Definition CLASS_MOUSE : Z := 0x00000040.
Definition CLASS_HEADSET : Z := 0x00000080.

Definition DEVICE_ADDED : Z := 0x10000000.
Definition DEVICE_REMOVED : Z := 0x20000000.

Definition kKeyCodeDpadUp : Z := 19.
Definition kKeyCodeDpadDown : Z := 20.
Definition kKeyCodeDpadLeft : Z := 21.
Definition kKeyCodeDpadRight : Z := 22.
Definition kKeyCodeDpadCenter : Z := 23.
Definition kKeyCodeQ : Z := 45.

Definition NO_ERROR : Z := 0.
Definition NAME_NOT_FOUND : Z := -2.
Definition NO_INIT : Z := -19.
Definition UNKNOWN_ERROR : Z := -2147483648.

(** ** Bitmask utilities *)

(** [(MAX+7)/8], the size the source gives its capability buffers. *)
Definition bitmask_size (max_code : Z) : nat := Z.to_nat ((max_code + 7) / 8).

(** The cast of a value stored into a [uint8_t] cell. *)
Definition uint8 (b : Z) : Z := Z.land b 0xff.

(** [test_bit(bit, array)]: [array[bit/8] & (1<<(bit%8))].  [None] is a read
    outside the array (or a negative shift), which C leaves undefined. *)
Definition test_bit (bit : Z) (array : list Z) : option Z :=
  if bit <? 0 then None
  else b ← array !! Z.to_nat (Z.quot bit 8);
       Some (Z.land b (Z.shiftl 1 (Z.rem bit 8))).

(** The truth value of [test_bit] in a condition.  Every use below tests a
    constant inside the buffer it is applied to (see [bit_set_in_range]). *)
Definition bit_set (bit : Z) (array : list Z) : bool :=
  match test_bit bit array with
  | Some v => negb (v =? 0)
  | None => false
  end.

(** A capability buffer after [memset(buf, 0, sizeof(buf))] and an
    [EVIOCGBIT]-style ioctl: [None] is a failed call, which leaves the
    zeroes; a driver that answers fewer bytes leaves the tail zero. *)
Definition ioctl_buffer (size : nat) (answer : option (list Z)) : list Z :=
  match answer with
  | Some bytes => resize size 0 (uint8 <$> bytes)
  | None => replicate size 0
  end.

(** ** The key layout map (KeyLayoutMap.h) *)

(** Modelled from the spec: the class [KeyLayoutMap] (KeyLayoutMap.cpp is not
    part of the sources).  Section 4.2 gives its contract: [map(scancode)]
    answers a key code and flags or fails; [find_scancodes(keycode)] is the
    reverse lookup; a map that holds no entries is still usable.  The
    signatures are those of the calls in EventHub.cpp: both return a
    [status_t], [map] writes two out-parameters and [findScancodes] fills
    the vector it is handed.  A map that was never loaded holds no entries,
    so a reverse lookup on it finds no scan code: a vector that is handed
    in empty comes back empty.  Whether that call reports success, and what
    any call does to a vector that already holds scan codes, is said
    nowhere and is left open. *)
Class KeyLayoutMapOps := {
  KeyLayoutMap : Type;
  klm_new : KeyLayoutMap;
  klm_map : KeyLayoutMap -> Z -> Z * (Z * Z);
  klm_findScancodes : KeyLayoutMap -> Z -> list Z -> Z * list Z;
  klm_new_findScancodes : forall keycode,
    (klm_findScancodes klm_new keycode []).2 = []
}.

(** Modelled from the spec: a layout map as the list of entries
    scancode -> (keycode, flags) read from the file, in file order. *)
Record ListLayoutMap := { entries : list (Z * (Z * Z)) }.

Definition list_map (m : ListLayoutMap) (scancode : Z) : Z * (Z * Z) :=
  match List.find (fun e => e.1 =? scancode) (entries m) with
  | Some e => (NO_ERROR, e.2)
  | None => (NAME_NOT_FOUND, (0, 0))
  end.

Definition list_findScancodes (m : ListLayoutMap) (keycode : Z) (out : list Z)
  : Z * list Z :=
  (NO_ERROR, fst <$> List.filter (fun e => e.2.1 =? keycode) (entries m)).

#[export] Instance list_layout_map : KeyLayoutMapOps := {|
  KeyLayoutMap := ListLayoutMap;
  klm_new := {| entries := [] |};
  klm_map := list_map;
  klm_findScancodes := list_findScancodes;
  klm_new_findScancodes := fun _ => eq_refl
|}.

(** ** The registry *)

Section Registry.
Context `{KeyLayoutMapOps}.

(** [EventHub::device_t] without its [next] link. *)
Record device_t := {
  id : Z;
  path : string;
  name : string;
  classes : Z;
  keyBitmask : option (list Z);
  layoutMap : KeyLayoutMap
}.

(** [EventHub::device_ent]: a slot of the identity table.  [seq] is kept
    shifted into the bits of [SEQ_MASK], as the source keeps it. *)
Record device_ent := { device : option device_t; seq : Z }.

(** [struct pollfd]; [revents] is what [poll] answers and is part of the
    answer of the kernel, not of the registry. *)
Record pollfd := { fd : Z; events : Z }.

(** The keys of the property store the hub writes:
    hw.keyboards.0.devname and hw.keyboards.<id>.devname. *)
Inductive PropName := Keyboard0 | KeyboardId (device_id : Z).

(** The system calls whose effect outlives the call of the hub function. *)
Inductive SysCall :=
| sys_close (fd : Z)
| sys_property_set (prop : PropName) (value : option string).

(** The members of [EventHub].  [mDevicesById] holds [mNumDevicesById]
    entries.  [mFDs] is the allocated array, which may hold one cell more
    than [mFDCount]; [mDevices] is cut at [mFDCount] (no code reads it
    beyond).

    [mDangling] is ghost state, not a member: it is set once the hub holds
    a pointer to freed memory, which happens in two places.  When one of
    the two [realloc]s of lines 664-665 fails and the other has moved its
    block, [mFDs] or [mDevices] is left pointing to the block [realloc]
    freed (lines 666-671 assign neither).  When [getEvent] deletes a record
    (line 350) that is still linked on the opening list, that list leads to
    the deleted record.  What the code does with such a hub is undefined:
    from then on the other fields say what the memory held last, not what
    the code computes. *)
Record EventHub := {
  mError : Z;
  mHaveFirstKeyboard : bool;
  mFirstKeyboardId : Z;
  mDevicesById : list device_ent;
  mOpeningDevices : list device_t;
  mClosingDevices : list device_t;
  mDevices : list (option device_t);
  mFDs : list pollfd;
  mFDCount : Z;
  mOpened : bool;
  mSwitches : list Z;
  mExcludedDevices : list string;
  mDangling : bool
}.

Definition mNumDevicesById (hub : EventHub) : Z :=
  Z.of_nat (length (mDevicesById hub)).

(** [EventHub::EventHub()]: [mSwitches] has [SW_MAX+1] cells, all zero. *)
Definition EventHub_new : EventHub := {|
  mError := NO_INIT;
  mHaveFirstKeyboard := false;
  mFirstKeyboardId := 0;
  mDevicesById := [];
  mOpeningDevices := [];
  mClosingDevices := [];
  mDevices := [];
  mFDs := [];
  mFDCount := 0;
  mOpened := false;
  mSwitches := replicate (Z.to_nat (SW_MAX + 1)) 0;
  mExcludedDevices := [];
  mDangling := false
|}.

(** Assignments to single members. *)
Definition set_mError (v : Z) (hub : EventHub) : EventHub :=
  {| mError := v;
     mHaveFirstKeyboard := mHaveFirstKeyboard hub;
     mFirstKeyboardId := mFirstKeyboardId hub;
     mDevicesById := mDevicesById hub;
     mOpeningDevices := mOpeningDevices hub;
     mClosingDevices := mClosingDevices hub;
     mDevices := mDevices hub;
     mFDs := mFDs hub;
     mFDCount := mFDCount hub;
     mOpened := mOpened hub;
     mSwitches := mSwitches hub;
     mExcludedDevices := mExcludedDevices hub;
     mDangling := mDangling hub |}.

Definition set_mFirstKeyboard (have : bool) (v : Z) (hub : EventHub) : EventHub :=
  {| mError := mError hub;
     mHaveFirstKeyboard := have;
     mFirstKeyboardId := v;
     mDevicesById := mDevicesById hub;
     mOpeningDevices := mOpeningDevices hub;
     mClosingDevices := mClosingDevices hub;
     mDevices := mDevices hub;
     mFDs := mFDs hub;
     mFDCount := mFDCount hub;
     mOpened := mOpened hub;
     mSwitches := mSwitches hub;
     mExcludedDevices := mExcludedDevices hub;
     mDangling := mDangling hub |}.

Definition set_mDevicesById (v : list device_ent) (hub : EventHub) : EventHub :=
  {| mError := mError hub;
     mHaveFirstKeyboard := mHaveFirstKeyboard hub;
     mFirstKeyboardId := mFirstKeyboardId hub;
     mDevicesById := v;
     mOpeningDevices := mOpeningDevices hub;
     mClosingDevices := mClosingDevices hub;
     mDevices := mDevices hub;
     mFDs := mFDs hub;
     mFDCount := mFDCount hub;
     mOpened := mOpened hub;
     mSwitches := mSwitches hub;
     mExcludedDevices := mExcludedDevices hub;
     mDangling := mDangling hub |}.

Definition set_mOpeningDevices (v : list device_t) (hub : EventHub) : EventHub :=
  {| mError := mError hub;
     mHaveFirstKeyboard := mHaveFirstKeyboard hub;
     mFirstKeyboardId := mFirstKeyboardId hub;
     mDevicesById := mDevicesById hub;
     mOpeningDevices := v;
     mClosingDevices := mClosingDevices hub;
     mDevices := mDevices hub;
     mFDs := mFDs hub;
     mFDCount := mFDCount hub;
     mOpened := mOpened hub;
     mSwitches := mSwitches hub;
     mExcludedDevices := mExcludedDevices hub;
     mDangling := mDangling hub |}.

Definition set_mClosingDevices (v : list device_t) (hub : EventHub) : EventHub :=
  {| mError := mError hub;
     mHaveFirstKeyboard := mHaveFirstKeyboard hub;
     mFirstKeyboardId := mFirstKeyboardId hub;
     mDevicesById := mDevicesById hub;
     mOpeningDevices := mOpeningDevices hub;
     mClosingDevices := v;
     mDevices := mDevices hub;
     mFDs := mFDs hub;
     mFDCount := mFDCount hub;
     mOpened := mOpened hub;
     mSwitches := mSwitches hub;
     mExcludedDevices := mExcludedDevices hub;
     mDangling := mDangling hub |}.

Definition set_mDevices (v : list (option device_t)) (hub : EventHub) : EventHub :=
  {| mError := mError hub;
     mHaveFirstKeyboard := mHaveFirstKeyboard hub;
     mFirstKeyboardId := mFirstKeyboardId hub;
     mDevicesById := mDevicesById hub;
     mOpeningDevices := mOpeningDevices hub;
     mClosingDevices := mClosingDevices hub;
     mDevices := v;
     mFDs := mFDs hub;
     mFDCount := mFDCount hub;
     mOpened := mOpened hub;
     mSwitches := mSwitches hub;
     mExcludedDevices := mExcludedDevices hub;
     mDangling := mDangling hub |}.

Definition set_mFDs (v : list pollfd) (hub : EventHub) : EventHub :=
  {| mError := mError hub;
     mHaveFirstKeyboard := mHaveFirstKeyboard hub;
     mFirstKeyboardId := mFirstKeyboardId hub;
     mDevicesById := mDevicesById hub;
     mOpeningDevices := mOpeningDevices hub;
     mClosingDevices := mClosingDevices hub;
     mDevices := mDevices hub;
     mFDs := v;
     mFDCount := mFDCount hub;
     mOpened := mOpened hub;
     mSwitches := mSwitches hub;
     mExcludedDevices := mExcludedDevices hub;
     mDangling := mDangling hub |}.

Definition set_mFDCount (v : Z) (hub : EventHub) : EventHub :=
  {| mError := mError hub;
     mHaveFirstKeyboard := mHaveFirstKeyboard hub;
     mFirstKeyboardId := mFirstKeyboardId hub;
     mDevicesById := mDevicesById hub;
     mOpeningDevices := mOpeningDevices hub;
     mClosingDevices := mClosingDevices hub;
     mDevices := mDevices hub;
     mFDs := mFDs hub;
     mFDCount := v;
     mOpened := mOpened hub;
     mSwitches := mSwitches hub;
     mExcludedDevices := mExcludedDevices hub;
     mDangling := mDangling hub |}.

Definition set_mOpened (v : bool) (hub : EventHub) : EventHub :=
  {| mError := mError hub;
     mHaveFirstKeyboard := mHaveFirstKeyboard hub;
     mFirstKeyboardId := mFirstKeyboardId hub;
     mDevicesById := mDevicesById hub;
     mOpeningDevices := mOpeningDevices hub;
     mClosingDevices := mClosingDevices hub;
     mDevices := mDevices hub;
     mFDs := mFDs hub;
     mFDCount := mFDCount hub;
     mOpened := v;
     mSwitches := mSwitches hub;
     mExcludedDevices := mExcludedDevices hub;
     mDangling := mDangling hub |}.

Definition set_mSwitches (v : list Z) (hub : EventHub) : EventHub :=
  {| mError := mError hub;
     mHaveFirstKeyboard := mHaveFirstKeyboard hub;
     mFirstKeyboardId := mFirstKeyboardId hub;
     mDevicesById := mDevicesById hub;
     mOpeningDevices := mOpeningDevices hub;
     mClosingDevices := mClosingDevices hub;
     mDevices := mDevices hub;
     mFDs := mFDs hub;
     mFDCount := mFDCount hub;
     mOpened := mOpened hub;
     mSwitches := v;
     mExcludedDevices := mExcludedDevices hub;
     mDangling := mDangling hub |}.

Definition set_mExcludedDevices (v : list string) (hub : EventHub) : EventHub :=
  {| mError := mError hub;
     mHaveFirstKeyboard := mHaveFirstKeyboard hub;
     mFirstKeyboardId := mFirstKeyboardId hub;
     mDevicesById := mDevicesById hub;
     mOpeningDevices := mOpeningDevices hub;
     mClosingDevices := mClosingDevices hub;
     mDevices := mDevices hub;
     mFDs := mFDs hub;
     mFDCount := mFDCount hub;
     mOpened := mOpened hub;
     mSwitches := mSwitches hub;
     mExcludedDevices := v;
     mDangling := mDangling hub |}.

Definition set_mDangling (v : bool) (hub : EventHub) : EventHub :=
  {| mError := mError hub;
     mHaveFirstKeyboard := mHaveFirstKeyboard hub;
     mFirstKeyboardId := mFirstKeyboardId hub;
     mDevicesById := mDevicesById hub;
     mOpeningDevices := mOpeningDevices hub;
     mClosingDevices := mClosingDevices hub;
     mDevices := mDevices hub;
     mFDs := mFDs hub;
     mFDCount := mFDCount hub;
     mOpened := mOpened hub;
     mSwitches := mSwitches hub;
     mExcludedDevices := mExcludedDevices hub;
     mDangling := v |}.

(** [EventHub::addExcludedDevice]. *)
Definition addExcludedDevice (deviceName : string) (hub : EventHub) : EventHub :=
  set_mExcludedDevices (mExcludedDevices hub ++ [deviceName]) hub.

(** [EventHub::getDevice] (lines 293-304). *)
Definition getDevice (hub : EventHub) (deviceId : Z) : option device_t :=
  let deviceId := if deviceId =? 0 then mFirstKeyboardId hub else deviceId in
  let id' := Z.land deviceId ID_MASK in
  if (id' >=? mNumDevicesById hub) || (id' <? 0) then None
  else
    match mDevicesById hub !! Z.to_nat id' with
    | Some {| device := Some dev |} =>
        if id dev =? deviceId then Some dev else None
    | _ => None
    end.

(** [EventHub::device_t::device_t] (lines 90-93). *)
Definition device_t_new (_id : Z) (_path name : string) : device_t :=
  {| id := _id; path := _path; name := name; classes := 0;
     keyBitmask := None; layoutMap := klm_new |}.

(** ** Discovery: [open_device] *)

(** What the kernel, the allocator and the file system answer during one
    call of [open_device], in the order the function asks. *)
Record Fixture := {
  open_O_RDWR : Z;                         (* open(deviceName, O_RDWR) *)
  ioctl_EVIOCGVERSION : bool;              (* true: the ioctl returned 0 *)
  ioctl_EVIOCGID : bool;                   (* true: the ioctl returned 0 *)
  ioctl_EVIOCGNAME : option string;        (* None: the ioctl returned < 1 *)
  realloc_mDevicesById : bool;             (* false: realloc returned NULL *)
  realloc_mFDs : bool;
  realloc_mFDs_moved : bool;               (* true: the block was moved and
                                              the old one freed; read only
                                              when the call succeeded *)
  realloc_mDevices : bool;
  realloc_mDevices_moved : bool;
  new_device_t : bool;                     (* false: new returned NULL *)
  ioctl_EVIOCGBIT_KEY : option (list Z);   (* None: the ioctl returned < 0 *)
  new_keyBitmask : bool;
  ioctl_EVIOCGBIT_REL : option (list Z);
  ioctl_EVIOCGBIT_ABS : option (list Z);
  ioctl_EVIOCGBIT_SW : option (list Z);
  access_keylayout : bool;                 (* true: <name>.kl is readable *)
  loaded_layout : KeyLayoutMap             (* the map after load(keylayoutFilename) *)
}.

(** [strstr(haystack, needle) != NULL]. *)
Fixpoint strstr (haystack needle : string) : bool :=
  String.prefix needle haystack ||
  match haystack with
  | EmptyString => false
  | String _ rest => strstr rest needle
  end.

(** Lines 639-645: the lowest slot whose [device] is null, or
    [mNumDevicesById]. *)
Fixpoint first_free_slot (ents : list device_ent) (devid : Z) : Z :=
  match ents with
  | [] => devid
  | e :: rest =>
      match device e with
      | None => devid
      | Some _ => first_free_slot rest (devid + 1)
      end
  end.

(** Lines 646-657: the table grown by one cleared slot when [devid] is past
    its end; [None] when [realloc] fails. *)
Definition grow_table (fx : Fixture) (devid : Z) (hub : EventHub)
  : option (list device_ent) :=
  if devid >=? mNumDevicesById hub then
    if realloc_mDevicesById fx
    then Some (mDevicesById hub ++ [{| device := None; seq := 0 |}])
    else None
  else Some (mDevicesById hub).

(** Lines 659-662 on a [uint32_t]. *)
Definition next_seq (seq : Z) : Z :=
  let s := Z.land ((seq + Z.shiftl 1 SEQ_SHIFT) mod 2 ^ 32) SEQ_MASK in
  if s =? 0 then Z.shiftl 1 SEQ_SHIFT else s.

Definition slot_seq (devid : Z) (ents : list device_ent) : Z :=
  match ents !! Z.to_nat devid with
  | Some e => seq e
  | None => 0
  end.

Definition bump_seq (devid : Z) (ents : list device_ent) : list device_ent :=
  match ents !! Z.to_nat devid with
  | Some e => <[Z.to_nat devid := {| device := device e; seq := next_seq (seq e) |}]> ents
  | None => ents
  end.

(** Lines 705-715: the first [(BTN_MISC+7)/8] bytes of the key bitmask. *)
Definition classify_keyboard (answer : option (list Z)) (key_bitmask : list Z) : Z :=
  match answer with
  | Some _ =>
      if existsb (fun b => negb (b =? 0))
                 (take (Z.to_nat ((BTN_MISC + 7) / 8)) key_bitmask)
      then CLASS_KEYBOARD else 0
  | None => 0
  end.

(** Lines 728-742. *)
Definition classify_pointer (key_bitmask : list Z) (answer : option (list Z)) : Z :=
  if bit_set BTN_MOUSE key_bitmask then
    match answer with
    | Some _ =>
        let rel_bitmask := ioctl_buffer (bitmask_size REL_MAX) answer in
        if bit_set REL_X rel_bitmask && bit_set REL_Y rel_bitmask then
          if bit_set BTN_LEFT key_bitmask && bit_set BTN_RIGHT key_bitmask
          then CLASS_MOUSE else CLASS_TRACKBALL
        else 0
    | None => 0
    end
  else 0.

(** Lines 744-769. *)
Definition classify_touch (key_bitmask abs_bitmask : list Z) : Z :=
  if bit_set ABS_MT_TOUCH_MAJOR abs_bitmask
     && bit_set ABS_MT_POSITION_X abs_bitmask
     && bit_set ABS_MT_POSITION_Y abs_bitmask
  then Z.lor CLASS_TOUCHSCREEN CLASS_TOUCHSCREEN_MT
  else if bit_set BTN_TOUCH key_bitmask
          && bit_set ABS_X abs_bitmask && bit_set ABS_Y abs_bitmask
  then CLASS_TOUCHSCREEN
  else 0.

(** Lines 776-784: one turn of the loop over the switches. *)
Definition claim_switch (sw_bitmask : list Z) (device_id : Z)
    (switches : list Z) (i : Z) : list Z :=
  if bit_set i sw_bitmask then
    match switches !! Z.to_nat i with
    | Some 0 => <[Z.to_nat i := device_id]> switches
    | _ => switches
    end
  else switches.

(** Lines 773-785: [for (int i=0; i<SW_MAX; i++)]. *)
Definition claim_switches (answer : option (list Z)) (device_id : Z)
    (switches : list Z) : list Z :=
  match answer with
  | Some _ =>
      foldl (claim_switch (ioctl_buffer (bitmask_size SW_MAX) answer) device_id)
            switches (seqZ 0 SW_MAX)
  | None => switches
  end.

Definition switch_cell (switches : list Z) (sw : Z) : Z :=
  default 0 (switches !! Z.to_nat sw).

(** [EventHub::hasKeycode] (lines 873-890). *)
Definition hasKeycode (dev : device_t) (keycode : Z) : bool :=
  match keyBitmask dev with
  | None => false
  | Some bitmask =>
      let scanCodes := (klm_findScancodes (layoutMap dev) keycode []).2 in
      existsb (fun sc => (sc >=? 0) && (sc <=? KEY_MAX) && bit_set sc bitmask)
              (take (Z.to_nat (KEY_MAX + 1)) scanCodes)
  end.

Definition add_class (c : Z) (dev : device_t) : device_t :=
  {| id := id dev; path := path dev; name := name dev;
     classes := Z.lor (classes dev) c;
     keyBitmask := keyBitmask dev; layoutMap := layoutMap dev |}.

Definition is_keyboard (dev : device_t) : bool :=
  negb (Z.land (classes dev) CLASS_KEYBOARD =? 0).

(** Lines 816-827: the first-keyboard designation. *)
Definition designate_first_keyboard (defaultKeymap : bool) (dev : device_t)
    (hub : EventHub) : EventHub * list SysCall :=
  if negb (mHaveFirstKeyboard hub) && negb defaultKeymap
     && strstr (name dev) "-keypad"
  then (set_mFirstKeyboard true (id dev) hub,
        [sys_property_set Keyboard0 (Some (name dev))])
  else if mFirstKeyboardId hub =? 0
  then (set_mFirstKeyboard (mHaveFirstKeyboard hub) (id dev) hub, [])
  else (hub, []).

(** Lines 833-844. *)
Definition classify_keys (dev : device_t) : device_t :=
  let dev := if hasKeycode dev kKeyCodeQ then add_class CLASS_ALPHAKEY dev else dev in
  if hasKeycode dev kKeyCodeDpadUp && hasKeycode dev kKeyCodeDpadDown
     && hasKeycode dev kKeyCodeDpadLeft && hasKeycode dev kKeyCodeDpadRight
     && hasKeycode dev kKeyCodeDpadCenter
  then add_class CLASS_DPAD dev else dev.

(** Lines 791-848: what is done for a keyboard. *)
Definition setup_keyboard (fx : Fixture) (dev : device_t) (hub : EventHub)
  : device_t * EventHub * list SysCall :=
  if is_keyboard dev then
    let defaultKeymap := negb (access_keylayout fx) in
    let dev := {| id := id dev; path := path dev; name := name dev;
                  classes := classes dev; keyBitmask := keyBitmask dev;
                  layoutMap := loaded_layout fx |} in
    let '(hub, calls) := designate_first_keyboard defaultKeymap dev hub in
    (classify_keys dev, hub,
     calls ++ [sys_property_set (KeyboardId (id dev)) (Some (name dev))])
  else (dev, hub, []).

(** Lines 864-870. *)
Definition register_device (devid : Z) (dev : device_t) (hub : EventHub) : EventHub :=
  let n := Z.to_nat (mFDCount hub) in
  let hub :=
    set_mDevicesById
      (<[Z.to_nat devid := {| device := Some dev;
                              seq := slot_seq devid (mDevicesById hub) |}]>
         (mDevicesById hub)) hub in
  let hub := set_mOpeningDevices (dev :: mOpeningDevices hub) hub in
  let hub := set_mDevices (<[n := Some dev]> (resize (S n) None (mDevices hub))) hub in
  set_mFDCount (mFDCount hub + 1) hub.

(** Lines 696-856: the capabilities of the device behind [fd]; the result is
    [None] when the device is given up, [Some dev] when it is kept. *)
Definition probe_device (fx : Fixture) (dev : device_t) (hub : EventHub)
  : option device_t * EventHub * list SysCall :=
  let key_bitmask := ioctl_buffer (bitmask_size KEY_MAX) (ioctl_EVIOCGBIT_KEY fx) in
  let dev := add_class (classify_keyboard (ioctl_EVIOCGBIT_KEY fx) key_bitmask) dev in
  if is_keyboard dev && negb (new_keyBitmask fx) then (None, hub, [])
  else
    let dev := {| id := id dev; path := path dev; name := name dev;
                  classes := classes dev;
                  keyBitmask := if is_keyboard dev then Some key_bitmask else None;
                  layoutMap := layoutMap dev |} in
    let dev := add_class (classify_pointer key_bitmask (ioctl_EVIOCGBIT_REL fx)) dev in
    let abs_bitmask := ioctl_buffer (bitmask_size ABS_MAX) (ioctl_EVIOCGBIT_ABS fx) in
    let dev := add_class (classify_touch key_bitmask abs_bitmask) dev in
    let hub := set_mSwitches
                 (claim_switches (ioctl_EVIOCGBIT_SW fx) (id dev) (mSwitches hub)) hub in
    let dev := if switch_cell (mSwitches hub) SW_HEADPHONE_INSERT =? 0
               then dev else add_class CLASS_HEADSET dev in
    let '(dev, hub, calls) := setup_keyboard fx dev hub in
    if classes dev =? 0 then (None, hub, calls ++ [sys_close (open_O_RDWR fx)])
    else (Some dev, hub, calls).

(** Lines 693-694: the descriptor stored in the cell [mFDCount] of the
    array [realloc] returned. *)
Definition store_pollfd (fd : Z) (hub : EventHub) : EventHub :=
  let n := Z.to_nat (mFDCount hub) in
  set_mFDs (<[n := {| fd := fd; events := POLLIN |}]>
              (resize (S n) {| fd := fd; events := POLLIN |} (mFDs hub))) hub.

(** Lines 664-671 when [new_mFDs == NULL || new_devices == NULL]: the
    function returns without assigning either member.  Both calls have been
    made by then, so when one of them succeeded by moving its block, the
    member still points to the block that call freed. *)
Definition realloc_failed (fx : Fixture) (hub : EventHub) : EventHub :=
  if (realloc_mFDs fx && realloc_mFDs_moved fx)
     || (realloc_mDevices fx && realloc_mDevices_moved fx)
  then set_mDangling true hub else hub.

(** [EventHub::open_device] (lines 580-871): the value returned, the
    registry afterwards and the system calls issued. *)
Definition open_device (deviceName : string) (fx : Fixture) (hub : EventHub)
  : Z * EventHub * list SysCall :=
  let fd := open_O_RDWR fx in
  if fd <? 0 then (-1, hub, [])
  else if negb (ioctl_EVIOCGVERSION fx) then (-1, hub, [])
  else if negb (ioctl_EVIOCGID fx) then (-1, hub, [])
  else
    let name := default EmptyString (ioctl_EVIOCGNAME fx) in
    if existsb (String.eqb name) (mExcludedDevices hub)
    then (-1, hub, [sys_close fd])
    else
      let devid := first_free_slot (mDevicesById hub) 0 in
      match grow_table fx devid hub with
      | None => (-1, hub, [])
      | Some table =>
          let hub := set_mDevicesById (bump_seq devid table) hub in
          if negb (realloc_mFDs fx && realloc_mDevices fx)
          then (-1, realloc_failed fx hub, [])
          else if negb (new_device_t fx) then (-1, hub, [])
          else
            let dev := device_t_new (Z.lor devid (slot_seq devid (mDevicesById hub)))
                                    deviceName name in
            match probe_device fx dev (store_pollfd fd hub) with
            | (None, hub, calls) => (-1, hub, calls)
            | (Some dev, hub, calls) => (0, register_device devid dev hub, calls)
            end
      end.

(** ** Removal: [close_device] *)

(** The search of lines 897-898 from index [i] on. *)
Fixpoint find_device_by_path (deviceName : string)
    (devs : list (option device_t)) (i : Z) : option (Z * device_t) :=
  match devs with
  | [] => None
  | Some dev :: rest =>
      if String.eqb (path dev) deviceName then Some (i, dev)
      else find_device_by_path deviceName rest (i + 1)
  | None :: rest => find_device_by_path deviceName rest (i + 1)
  end.

(** [memmove(a + i, a + i + 1, sizeof(a[0]) * count)]. *)
Definition memmove_down {A} (i count : nat) (a : list A) : list A :=
  take i a ++ take count (drop (S i) a) ++ drop (i + count) a.

(** Line 908. *)
Definition clear_slot (index : Z) (ents : list device_ent) : list device_ent :=
  match ents !! Z.to_nat index with
  | Some e => <[Z.to_nat index := {| device := None; seq := seq e |}]> ents
  | None => ents
  end.

(** Lines 919-921: one turn of the loop over the switch table. *)
Definition release_switch (device_id : Z) (switches : list Z) (j : Z) : list Z :=
  match switches !! Z.to_nat j with
  | Some v => if v =? device_id then <[Z.to_nat j := 0]> switches else switches
  | None => switches
  end.

(** Lines 918-922: [for (int j=0; j<EV_SW; j++)]. *)
Definition release_switches (device_id : Z) (switches : list Z) : list Z :=
  foldl (release_switch device_id) switches (seqZ 0 EV_SW).

(** Line 925, [device->next = mClosingDevices], as the opening list sees
    it.  A record has one [next] link; when the record is still linked on
    the opening list, that list leads from it on to the closing list, and
    the records that followed it there are cut off.  Records are told apart
    by their identifiers: [dev] holds its slot until this call, and a record
    is pushed in front of the older ones, so the first record of the
    opening list that carries the identifier of [dev] is [dev]. *)
Fixpoint relink (dev : device_t) (closing opening : list device_t)
  : list device_t :=
  match opening with
  | [] => []
  | d :: rest =>
      if id d =? id dev then d :: closing
      else d :: relink dev closing rest
  end.

(** [EventHub::close_device] (lines 892-943). *)
Definition close_device (deviceName : string) (hub : EventHub)
  : Z * EventHub * list SysCall :=
  let count_fds := Z.to_nat (mFDCount hub) in
  match find_device_by_path deviceName (drop 1 (take count_fds (mDevices hub))) 1 with
  | None => (-1, hub, [])
  | Some (i, dev) =>
      let index := Z.land (id dev) ID_MASK in
      let closed := default (-1) (fd <$> mFDs hub !! Z.to_nat i) in
      let count := Z.to_nat (mFDCount hub - i - 1) in
      let hub' := set_mDevicesById (clear_slot index (mDevicesById hub)) hub in
      let hub' := set_mDevices
                    (take (Z.to_nat (mFDCount hub - 1))
                          (memmove_down (Z.to_nat i) count (mDevices hub))) hub' in
      let hub' := set_mFDs (memmove_down (Z.to_nat i) count (mFDs hub)) hub' in
      let hub' := set_mFDCount (mFDCount hub - 1) hub' in
      let hub' := set_mSwitches (release_switches (id dev) (mSwitches hub)) hub' in
      let hub' := set_mOpeningDevices
                    (relink dev (mClosingDevices hub) (mOpeningDevices hub)) hub' in
      let hub' := set_mClosingDevices (dev :: mClosingDevices hub) hub' in
      if id dev =? mFirstKeyboardId hub then
        (0, set_mFirstKeyboard (mHaveFirstKeyboard hub) 0 hub',
         [sys_close closed; sys_property_set Keyboard0 None;
          sys_property_set (KeyboardId (id dev)) None])
      else
        (0, hub', [sys_close closed; sys_property_set (KeyboardId (id dev)) None])
  end.

(** ** Pull-mode accessors *)

Record input_absinfo := { minimum : Z; maximum : Z; fuzz : Z; flat : Z }.

(** What the kernel answers to the state ioctls on a descriptor; [None] is a
    failed call. *)
Record Kernel := {
  ioctl_EVIOCGABS : Z -> Z -> option input_absinfo;
  ioctl_EVIOCGSW : Z -> option (list Z);
  ioctl_EVIOCGKEY : Z -> option (list Z)
}.

(** [mFDs[id_to_index(device->id)].fd]; [None] is a read outside the
    allocated array. *)
Definition device_fd (hub : EventHub) (dev : device_t) : option Z :=
  fd <$> mFDs hub !! Z.to_nat (id_to_index (id dev)).

(** [EventHub::getDeviceName]. *)
Definition getDeviceName (hub : EventHub) (deviceId : Z) : string :=
  match getDevice hub deviceId with
  | None => EmptyString
  | Some dev => name dev
  end.

(** [EventHub::getDeviceClasses]. *)
Definition getDeviceClasses (hub : EventHub) (deviceId : Z) : Z :=
  match getDevice hub deviceId with
  | None => 0
  | Some dev => classes dev
  end.

(** [EventHub::getAbsoluteInfo]: the value returned and the four
    out-parameters; the outer [None] is undefined behaviour. *)
Definition getAbsoluteInfo (k : Kernel) (hub : EventHub) (deviceId axis : Z)
  : option (Z * option input_absinfo) :=
  match getDevice hub deviceId with
  | None => Some (-1, None)
  | Some dev =>
      f ← device_fd hub dev;
      match ioctl_EVIOCGABS k f axis with
      | None => Some (-1, None)
      | Some info => Some (0, Some info)
      end
  end.

(** [EventHub::getSwitchState(int32_t deviceId, int sw)]. *)
Definition getSwitchState_of (k : Kernel) (hub : EventHub) (deviceId sw : Z)
  : option Z :=
  match getDevice hub deviceId with
  | None => Some (-1)
  | Some dev =>
      if (sw >=? 0) && (sw <=? SW_MAX) then
        f ← device_fd hub dev;
        match ioctl_EVIOCGSW k f with
        | Some _ =>
            Some (if bit_set sw (ioctl_buffer (bitmask_size SW_MAX) (ioctl_EVIOCGSW k f))
                  then 1 else 0)
        | None => Some (-1)
        end
      else Some (-1)
  end.

(** [EventHub::getSwitchState(int sw)]. *)
Definition getSwitchState (k : Kernel) (hub : EventHub) (sw : Z) : option Z :=
  if (sw >=? 0) && (sw <=? SW_MAX) then
    let devid := switch_cell (mSwitches hub) sw in
    if devid =? 0 then Some (-1) else getSwitchState_of k hub devid sw
  else Some (-1).

(** [EventHub::getScancodeState(int32_t deviceId, int code)]. *)
Definition getScancodeState_of (k : Kernel) (hub : EventHub) (deviceId code : Z)
  : option Z :=
  match getDevice hub deviceId with
  | None => Some (-1)
  | Some dev =>
      if (code >=? 0) && (code <=? KEY_MAX) then
        f ← device_fd hub dev;
        match ioctl_EVIOCGKEY k f with
        | Some _ =>
            Some (if bit_set code (ioctl_buffer (bitmask_size KEY_MAX) (ioctl_EVIOCGKEY k f))
                  then 1 else 0)
        | None => Some (-1)
        end
      else Some (-1)
  end.

(** [EventHub::getScancodeState(int code)]. *)
Definition getScancodeState (k : Kernel) (hub : EventHub) (code : Z) : option Z :=
  getScancodeState_of k hub (mFirstKeyboardId hub) code.

(** [EventHub::getKeycodeState(int32_t deviceId, int code)]. *)
Definition getKeycodeState_of (k : Kernel) (hub : EventHub) (deviceId code : Z)
  : option Z :=
  match getDevice hub deviceId with
  | None => Some (-1)
  | Some dev =>
      let scanCodes := (klm_findScancodes (layoutMap dev) code []).2 in
      f ← device_fd hub dev;
      match ioctl_EVIOCGKEY k f with
      | Some _ =>
          let key_bitmask := ioctl_buffer (bitmask_size KEY_MAX) (ioctl_EVIOCGKEY k f) in
          Some (if existsb (fun sc => (sc >=? 0) && (sc <=? KEY_MAX)
                                      && bit_set sc key_bitmask)
                           (take (Z.to_nat (KEY_MAX + 1)) scanCodes)
                then 1 else 0)
      | None => Some 0
      end
  end.

(** [EventHub::getKeycodeState(int code)]. *)
Definition getKeycodeState (k : Kernel) (hub : EventHub) (code : Z) : option Z :=
  getKeycodeState_of k hub (mFirstKeyboardId hub) code.

(** Lines 264-269 and 274-279: the layout map of [device] consulted. *)
Definition map_scancode (device : option device_t) (scancode : Z) : option (Z * Z) :=
  match device with
  | Some dev =>
      let r := klm_map (layoutMap dev) scancode in
      if r.1 =? NO_ERROR then Some r.2 else None
  | None => None
  end.

(** [EventHub::scancodeToKeycode]: the status and the two out-parameters. *)
Definition scancodeToKeycode (hub : EventHub) (deviceId scancode : Z)
  : Z * (Z * Z) :=
  match map_scancode (getDevice hub deviceId) scancode with
  | Some out => (NO_ERROR, out)
  | None =>
      if mHaveFirstKeyboard hub then
        match map_scancode (getDevice hub (mFirstKeyboardId hub)) scancode with
        | Some out => (NO_ERROR, out)
        | None => (NAME_NOT_FOUND, (0, 0))
        end
      else (NAME_NOT_FOUND, (0, 0))
  end.

(** ** [hasKeys] *)

(** The two ways a bit test of [hasKeys] can leave defined behaviour. *)
Inductive Fault := null_keyBitmask | out_of_bounds.

(** Lines 564-569: the loop over the scan codes found so far. *)
Fixpoint test_scancodes (scanCodes : list Z) (bitmask : option (list Z))
  : Fault + bool :=
  match scanCodes with
  | [] => inr false
  | sc :: rest =>
      match bitmask with
      | None => inl null_keyBitmask
      | Some array =>
          match test_bit sc array with
          | None => inl out_of_bounds
          | Some v => if v =? 0 then test_scancodes rest bitmask else inr true
          end
      end
  end.

(** Lines 557-572: the loop over the devices for one key code.  The vector
    [scanCodes] is declared outside this loop and handed to every device. *)
Fixpoint hasKeys_devices (keyCode : Z) (devs : list (option device_t))
    (scanCodes : list Z) : Fault + Z :=
  match devs with
  | [] => inr 0
  | None :: rest => hasKeys_devices keyCode rest scanCodes
  | Some dev :: rest =>
      let r := klm_findScancodes (layoutMap dev) keyCode scanCodes in
      if r.1 =? 0 then
        match test_scancodes r.2 (keyBitmask dev) with
        | inl fault => inl fault
        | inr true => inr 1
        | inr false => hasKeys_devices keyCode rest r.2
        end
      else hasKeys_devices keyCode rest r.2
  end.

(** [EventHub::hasKeys] (lines 552-576): [outFlags], or the fault. *)
Fixpoint hasKeys_codes (devs : list (option device_t)) (keyCodes : list Z)
  : Fault + list Z :=
  match keyCodes with
  | [] => inr []
  | keyCode :: rest =>
      match hasKeys_devices keyCode devs [] with
      | inl fault => inl fault
      | inr flag =>
          match hasKeys_codes devs rest with
          | inl fault => inl fault
          | inr flags => inr (flag :: flags)
          end
      end
  end.

Definition hasKeys (hub : EventHub) (keyCodes : list Z) : Fault + list Z :=
  hasKeys_codes (take (Z.to_nat (mFDCount hub)) (mDevices hub)) keyCodes.

(** ** The event pump: [getEvent] *)

(** [struct input_event]: [time.tv_sec] and [time.tv_usec] are [long]
    (32 bits on the target), [type] and [code] are [__u16], [value] is
    [__s32]. *)
Record input_event := {
  tv_sec : Z; tv_usec : Z; type : Z; code : Z; value : Z
}.

(** The seven out-parameters of [getEvent]. *)
Record RawEvent := {
  outDeviceId : Z; outType : Z; outScancode : Z; outKeycode : Z;
  outFlags : Z; outValue : Z; outWhen : Z
}.

(** The value of an [int64_t] ([nsecs_t]) expression. *)
Definition int64 (x : Z) : Z := (x + 2 ^ 63) mod 2 ^ 64 - 2 ^ 63.

(** Modelled from the spec: [s2ns] and [us2ns] of utils/Timers.h, which is
    not part of the sources; section 4.7 has nanoseconds as
    [sec * 10^9 + usec * 10^3]. *)
Definition s2ns (secs : Z) : Z := int64 (secs * 1000000000).
Definition us2ns (usecs : Z) : Z := int64 (usecs * 1000).

(** Lines 348, 359 and 423. *)
Definition first_keyboard_as_0 (hub : EventHub) (deviceId : Z) : Z :=
  if deviceId =? mFirstKeyboardId hub then 0 else deviceId.

(** Lines 422-438: the event returned for [iev] read from [mDevices[i]]. *)
Definition translate_event (hub : EventHub) (dev : device_t) (iev : input_event)
  : RawEvent :=
  let out :=
    if type iev =? EV_KEY then
      let r := klm_map (layoutMap dev) (code iev) in
      if negb (r.1 =? 0) then (0, 0) else r.2
    else (code iev, 0) in
  {| outDeviceId := first_keyboard_as_0 hub (id dev);
     outType := type iev;
     outScancode := code iev;
     outKeycode := out.1;
     outFlags := out.2;
     outValue := value iev;
     outWhen := int64 (s2ns (tv_sec iev) + us2ns (tv_usec iev)) |}.

(** Lines 381-450 from some index on: [ready] holds, for each index, the
    [revents] that [poll] left and what [read] yields there ([None]: not
    [sizeof(iev)] bytes). *)
Fixpoint scan_fds (hub : EventHub) (ready : list (Z * option input_event))
    (devs : list (option device_t)) : option RawEvent :=
  match ready, devs with
  | (revents, res) :: ready', dev :: devs' =>
      if negb (revents =? 0) && negb (Z.land revents POLLIN =? 0) then
        match res, dev with
        | Some iev, Some d => Some (translate_event hub d iev)
        | _, _ => scan_fds hub ready' devs'
        end
      else scan_fds hub ready' devs'
  | _, _ => None
  end.

(** A directory entry or an inotify record: a file name, whether the record
    has IN_CREATE set, and the answers for the device file of that name. *)
Record DirEvent := {
  ev_name : string; ev_create : bool; ev_fixture : Fixture
}.

Definition device_path : string := "/dev/input".

(** The loop of [EventHub::read_notify] (lines 970-1004) over the records
    with a name. *)
Fixpoint read_notify_events (events : list DirEvent) (hub : EventHub)
  : EventHub * list SysCall :=
  match events with
  | [] => (hub, [])
  | e :: rest =>
      let devname := (device_path ++ "/" ++ ev_name e)%string in
      let '(_, hub, calls) :=
        if ev_create e then open_device devname (ev_fixture e) hub
        else close_device devname hub in
      let '(hub, calls') := read_notify_events rest hub in
      (hub, calls ++ calls')
  end.

(** [EventHub::scan_dir] (lines 1010-1032); [None] is a failed [opendir]. *)
Definition scan_dir (entries : option (list DirEvent)) (hub : EventHub)
  : Z * EventHub * list SysCall :=
  match entries with
  | None => (-1, hub, [])
  | Some entries =>
      let files :=
        List.filter (fun e => negb (String.eqb (ev_name e) "." ||
                                    String.eqb (ev_name e) "..")) entries in
      let '(hub, calls) :=
        read_notify_events
          ((fun e => {| ev_name := ev_name e; ev_create := true;
                        ev_fixture := ev_fixture e |}) <$> files) hub in
      (0, hub, calls)
  end.

(** What the kernel answers during one turn of the loop of [getEvent]. *)
Record PollAnswer := {
  poll_result : Z;
  poll_ready : list (Z * option input_event);
  notify_records : option (list DirEvent)    (* None: a short read *)
}.

(** [EventHub::openPlatformInput] (lines 497-546). *)
Definition openPlatformInput (inotify_fd : Z) (entries : option (list DirEvent))
    (hub : EventHub) : bool * EventHub * list SysCall :=
  let hub := set_mFDCount 1 hub in
  let hub := set_mFDs [{| fd := inotify_fd; events := POLLIN |}] hub in
  let hub := set_mDevices [None] hub in
  let '(_, hub, calls) := scan_dir entries hub in
  (true, hub, calls).

(** Line 350, [delete device], for the record just taken off the closing
    list: when the opening list still leads to the record, it leads to freed
    memory from now on.  The record is looked for by its identifier; the
    opening list can hold another record with that identifier only when the
    slot has been reassigned 0x7FFF times between the close of the record
    and this report of it. *)
Definition delete_device (dev : device_t) (hub : EventHub) : EventHub :=
  if existsb (fun d => id d =? id dev) (mOpeningDevices hub)
  then set_mDangling true hub else hub.

(** One turn of the loop of [getEvent] (lines 336-491): the event returned,
    if the turn returns. *)
Definition getEvent_turn (answer : PollAnswer) (hub : EventHub)
  : option RawEvent * EventHub * list SysCall :=
  match mClosingDevices hub with
  | dev :: rest =>
      (Some {| outDeviceId := first_keyboard_as_0 hub (id dev);
               outType := DEVICE_REMOVED; outScancode := 0; outKeycode := 0;
               outFlags := 0; outValue := 0; outWhen := 0 |},
       delete_device dev (set_mClosingDevices rest hub), [])
  | [] =>
      match mOpeningDevices hub with
      | dev :: rest =>
          (Some {| outDeviceId := first_keyboard_as_0 hub (id dev);
                   outType := DEVICE_ADDED; outScancode := 0; outKeycode := 0;
                   outFlags := 0; outValue := 0; outWhen := 0 |},
           set_mOpeningDevices rest hub, [])
      | [] =>
          if poll_result answer <=? 0 then (None, hub, [])
          else
            match scan_fds hub (drop 1 (poll_ready answer))
                           (drop 1 (take (Z.to_nat (mFDCount hub)) (mDevices hub))) with
            | Some ev => (Some ev, hub, [])
            | None =>
                match poll_ready answer with
                | (revents, _) :: _ =>
                    if negb (Z.land revents POLLIN =? 0) then
                      match notify_records answer with
                      | Some records =>
                          let '(hub, calls) := read_notify_events records hub in
                          (None, hub, calls)
                      | None => (None, hub, [])
                      end
                    else (None, hub, [])
                | [] => (None, hub, [])
                end
            end
      end
  end.

(** The loop of [getEvent] over the answers of the kernel, turn by turn. *)
Fixpoint getEvent_loop (answers : list PollAnswer) (hub : EventHub)
  : option RawEvent * EventHub * list SysCall :=
  match answers with
  | [] => (None, hub, [])
  | answer :: rest =>
      match getEvent_turn answer hub with
      | (Some ev, hub, calls) => (Some ev, hub, calls)
      | (None, hub, calls) =>
          let '(ev, hub, calls') := getEvent_loop rest hub in
          (ev, hub, calls ++ calls')
      end
  end.

(** [EventHub::getEvent] (lines 306-492). *)
Definition getEvent (inotify_fd : Z) (entries : option (list DirEvent))
    (answers : list PollAnswer) (hub : EventHub)
  : option RawEvent * EventHub * list SysCall :=
  if mOpened hub then getEvent_loop answers hub
  else
    let '(ok, hub, calls) := openPlatformInput inotify_fd entries hub in
    let hub := set_mError (if ok then NO_ERROR else UNKNOWN_ERROR) hub in
    let hub := set_mOpened true hub in
    let '(ev, hub, calls') := getEvent_loop answers hub in
    (ev, hub, calls ++ calls').

(** ** Reachable registries *)

(** The registry changes through [addExcludedDevice], through the
    allocation of [openPlatformInput] (once, on the first [getEvent]) and,
    once the arrays are allocated, through [open_device], [close_device],
    the end of [openPlatformInput] and the draining of the two pending
    lists by [getEvent]. *)
Inductive step : EventHub -> EventHub -> Prop :=
| step_addExcludedDevice hub deviceName :
    step hub (addExcludedDevice deviceName hub)
| step_openPlatformInput hub inotify_fd :
    mFDCount hub = 0 ->
    step hub (set_mDevices [None]
                (set_mFDs [{| fd := inotify_fd; events := POLLIN |}]
                   (set_mFDCount 1 hub)))
| step_opened hub :
    0 < mFDCount hub ->
    step hub (set_mOpened true (set_mError NO_ERROR hub))
| step_open_device hub deviceName fx :
    0 < mFDCount hub ->
    step hub (open_device deviceName fx hub).1.2
| step_close_device hub deviceName :
    0 < mFDCount hub ->
    step hub (close_device deviceName hub).1.2
| step_report_closed hub dev rest :
    mClosingDevices hub = dev :: rest ->
    step hub (delete_device dev (set_mClosingDevices rest hub))
| step_report_opened hub dev rest :
    mOpeningDevices hub = dev :: rest ->
    step hub (set_mOpeningDevices rest hub).

Inductive reachable : EventHub -> Prop :=
| reachable_new : reachable EventHub_new
| reachable_step hub hub' : reachable hub -> step hub hub' -> reachable hub'.

End Registry.

(** ** Example devices *)

(** The bytes of a capability bitmask with the given bits set. *)
Definition set_bit (bit : Z) (array : list Z) : list Z :=
  alter (fun b => Z.lor b (Z.shiftl 1 (Z.rem bit 8))) (Z.to_nat (Z.quot bit 8)) array.

Definition bitmask_of (max_code : Z) (bits : list Z) : list Z :=
  foldr set_bit (replicate (bitmask_size max_code) 0) bits.

(** A device file that opens as [fd], answers every ioctl, reports the
    given key, relative, absolute and switch codes, and whose layout file,
    readable or not as [own_layout] says, loads as [layout]; no allocation
    fails. *)
Definition example_fixture (fd : Z) (name : string) (keys rels abss sws : list Z)
    (own_layout : bool) (layout : ListLayoutMap) : Fixture :=
  {| open_O_RDWR := fd;
     ioctl_EVIOCGVERSION := true;
     ioctl_EVIOCGID := true;
     ioctl_EVIOCGNAME := Some name;
     realloc_mDevicesById := true;
     realloc_mFDs := true;
     realloc_mFDs_moved := false;
     realloc_mDevices := true;
     realloc_mDevices_moved := false;
     new_device_t := true;
     ioctl_EVIOCGBIT_KEY := Some (bitmask_of KEY_MAX keys);
     new_keyBitmask := true;
     ioctl_EVIOCGBIT_REL := Some (bitmask_of REL_MAX rels);
     ioctl_EVIOCGBIT_ABS := Some (bitmask_of ABS_MAX abss);
     ioctl_EVIOCGBIT_SW := Some (bitmask_of SW_MAX sws);
     access_keylayout := own_layout;
     loaded_layout := layout |}.

(** The registry after the allocation of [openPlatformInput], with the
    inotify descriptor 3. *)
Definition hub0 : EventHub :=
  set_mOpened true
    (set_mError NO_ERROR
       (set_mDevices [None]
          (set_mFDs [{| fd := 3; events := POLLIN |}]
             (set_mFDCount 1 EventHub_new)))).

(** The registry after a call, without the value returned and the trace. *)
Definition after {A B} (r : A * EventHub * B) : EventHub := r.1.2.

Definition qwerty : ListLayoutMap :=
  {| entries := [(16, (kKeyCodeQ, 0)); (30, (29, 0)); (103, (kKeyCodeDpadUp, 0))] |}.

Definition headset_a : Fixture :=
  example_fixture 10 "headset-a" [] [] [] [SW_HEADPHONE_INSERT; 6] false qwerty.
Definition headset_b : Fixture :=
  example_fixture 11 "headset-b" [] [] [] [SW_HEADPHONE_INSERT] false qwerty.
Definition touchscreen (fd : Z) : Fixture :=
  example_fixture fd "touch" []
    [] [ABS_MT_TOUCH_MAJOR; ABS_MT_POSITION_X; ABS_MT_POSITION_Y] [] false qwerty.
Definition usb_keyboard : Fixture :=
  example_fixture 12 "usb keyboard" [16; 30] [] [] [] false qwerty.
Definition omap_keypad : Fixture :=
  example_fixture 13 "omap-keypad" [16; 30; 103] [] [] [] true qwerty.
Definition gamepad : Fixture :=
  example_fixture 15 "gamepad" [BTN_GAMEPAD] [] [] [] false qwerty.

(** The device file of [name] goes away and comes back, and [getEvent]
    reports both. *)
Definition replug (name : string) (fx : Fixture) (hub : EventHub) : EventHub :=
  let hub := after (close_device name hub) in
  let hub := after (open_device name fx hub) in
  set_mOpeningDevices (tail (mOpeningDevices hub))
    (set_mClosingDevices (tail (mClosingDevices hub)) hub).

(** A touchscreen for which the identity table cannot be grown. *)
Definition no_memory_for_table : Fixture :=
  {| open_O_RDWR := 20;
     ioctl_EVIOCGVERSION := true;
     ioctl_EVIOCGID := true;
     ioctl_EVIOCGNAME := Some "touch"%string;
     realloc_mDevicesById := false;
     realloc_mFDs := true;
     realloc_mFDs_moved := false;
     realloc_mDevices := true;
     realloc_mDevices_moved := false;
     new_device_t := true;
     ioctl_EVIOCGBIT_KEY := Some (bitmask_of KEY_MAX []);
     new_keyBitmask := true;
     ioctl_EVIOCGBIT_REL := Some (bitmask_of REL_MAX []);
     ioctl_EVIOCGBIT_ABS :=
       Some (bitmask_of ABS_MAX [ABS_MT_TOUCH_MAJOR; ABS_MT_POSITION_X; ABS_MT_POSITION_Y]);
     ioctl_EVIOCGBIT_SW := Some (bitmask_of SW_MAX []);
     access_keylayout := false;
     loaded_layout := qwerty |}.

(** ** Example runs *)

(** The keypad is found, a touchscreen comes (identifier 0x10001), goes and
    another one comes and takes its slot (identifier 0x20001). *)
Definition keypad_and_touch : EventHub :=
  after (open_device "/dev/input/event1" (touchscreen 20)
           (after (open_device "/dev/input/event0" omap_keypad hub0))).
Definition touch_replaced : EventHub :=
  after (open_device "/dev/input/event2" (touchscreen 21)
           (after (close_device "/dev/input/event1" keypad_and_touch))).

(** A registry whose only slot is free and has used up its counter. *)
Definition last_sequence : EventHub :=
  set_mDevicesById [{| device := None; seq := 0x7fff0000 |}] hub0.

(** A keyboard without a layout file of its own is found, then the keypad. *)
Definition usb_keyboard_first : EventHub :=
  after (open_device "/dev/input/event0" usb_keyboard hub0).
Definition keypad_second : EventHub :=
  after (open_device "/dev/input/event1" omap_keypad usb_keyboard_first).

(** Two devices that both report SW_HEADPHONE_INSERT are found. *)
Definition one_headset : EventHub :=
  after (open_device "/dev/input/event0" headset_a hub0).
Definition two_headsets : EventHub :=
  after (open_device "/dev/input/event1" headset_b one_headset).

(** The first headset, which also reports the switch 6, goes away. *)
Definition headset_unplugged : EventHub :=
  after (close_device "/dev/input/event0" one_headset).

(** Three touchscreens come, the first goes. *)
Definition three_touchscreens : EventHub :=
  after (open_device "/dev/input/event2" (touchscreen 22)
    (after (open_device "/dev/input/event1" (touchscreen 21)
      (after (open_device "/dev/input/event0" (touchscreen 20) hub0))))).
Definition first_touchscreen_gone : EventHub :=
  after (close_device "/dev/input/event0" three_touchscreens).

(** The usb keyboard, reported to the caller, and a key press on it. *)
Definition keyboard_reported : EventHub :=
  set_mOpeningDevices [] usb_keyboard_first.
Definition key_press : input_event :=
  {| tv_sec := 100; tv_usec := 7; type := EV_KEY; code := 30; value := 1 |}.
Definition key_press_answer : PollAnswer :=
  {| poll_result := 1;
     poll_ready := [(0, None); (POLLIN, Some key_press)];
     notify_records := None |}.

(** A state of the kernel in which every state ioctl fails. *)
Definition silent_kernel : Kernel :=
  {| ioctl_EVIOCGABS := fun _ _ => None;
     ioctl_EVIOCGSW := fun _ => None;
     ioctl_EVIOCGKEY := fun _ => None |}.

(** A state of the kernel in which every descriptor answers EVIOCGABS with
    its own number as the minimum of the axis. *)
Definition telltale_kernel : Kernel :=
  {| ioctl_EVIOCGABS := fun fd _ =>
       Some {| minimum := fd; maximum := 1023; fuzz := 0; flat := 0 |};
     ioctl_EVIOCGSW := fun _ => None;
     ioctl_EVIOCGKEY := fun _ => None |}.

(** ** Predicates of the statements *)

Section Predicates.
Context `{KeyLayoutMapOps}.

(** The slot of [deviceId] holds no record with that identifier: it is out
    of range, empty, or taken by a record with another identifier. *)
Definition stale (hub : EventHub) (deviceId : Z) : Prop :=
  forall e dev,
    mDevicesById hub !! Z.to_nat (Z.land deviceId ID_MASK) = Some e ->
    device e = Some dev -> id dev <> deviceId.

(** The calls of [open_device] that come before the probing of the
    capabilities all succeed: the file opens, the version and id ioctls
    answer, the name is not excluded and no allocation fails. *)
Definition probed (fx : Fixture) (hub : EventHub) : Prop :=
  0 <= open_O_RDWR fx /\
  ioctl_EVIOCGVERSION fx = true /\
  ioctl_EVIOCGID fx = true /\
  existsb (String.eqb (default EmptyString (ioctl_EVIOCGNAME fx)))
          (mExcludedDevices hub) = false /\
  realloc_mDevicesById fx = true /\
  realloc_mFDs fx = true /\
  realloc_mDevices fx = true /\
  new_device_t fx = true.

(** Some key below [limit] is set in the key bitmask the device reports. *)
Definition reports_key_below (fx : Fixture) (limit : Z) : Prop :=
  exists bit, 0 <= bit < limit /\
    bit_set bit (ioctl_buffer (bitmask_size KEY_MAX) (ioctl_EVIOCGBIT_KEY fx)) = true.

(** The device earns none of the classes MOUSE, TRACKBALL, TOUCHSCREEN,
    TOUCHSCREEN_MT and HEADSET: its answers give no pointer and no touch
    class, it does not report SW_HEADPHONE_INSERT and the cell of that
    switch is empty. *)
Definition no_other_class (fx : Fixture) (hub : EventHub) : Prop :=
  let key_bitmask := ioctl_buffer (bitmask_size KEY_MAX) (ioctl_EVIOCGBIT_KEY fx) in
  classify_pointer key_bitmask (ioctl_EVIOCGBIT_REL fx) = 0 /\
  classify_touch key_bitmask
    (ioctl_buffer (bitmask_size ABS_MAX) (ioctl_EVIOCGBIT_ABS fx)) = 0 /\
  bit_set SW_HEADPHONE_INSERT
    (ioctl_buffer (bitmask_size SW_MAX) (ioctl_EVIOCGBIT_SW fx)) = false /\
  switch_cell (mSwitches hub) SW_HEADPHONE_INSERT = 0.

(** The device record, if any, in the slot [i] of the identity table. *)
Definition slot_device (hub : EventHub) (i : nat) : option device_t :=
  mDevicesById hub !! i ≫= device.

(** A keyboard has its key bitmask cached; any other device has none and
    keeps the layout map its constructor made. *)
Definition keyboard_data (dev : device_t) : Prop :=
  (is_keyboard dev = true -> keyBitmask dev <> None) /\
  (is_keyboard dev = false -> keyBitmask dev = None /\ layoutMap dev = klm_new).

(** A stored counter: [s << 16] for a 15-bit [s]. *)
Definition canonical_seq (v : Z) : Prop :=
  exists s, 0 <= s <= 0x7fff /\ v = Z.shiftl s SEQ_SHIFT.

(** Every slot stores a counter, and the record of an occupied slot [i]
    carries the identifier [i | seq]. *)
Definition table_ok (hub : EventHub) : Prop :=
  forall i e,
    mDevicesById hub !! i = Some e ->
    canonical_seq (seq e) /\
    forall dev, device e = Some dev -> id dev = Z.lor (Z.of_nat i) (seq e).

(** [mDevices] has [mFDCount] cells; and, as long as the slot indexes fit
    the 16 bits of [ID_MASK], every device of the poll set sits in the slot
    its identifier names, and at one index of the poll set only. *)
Definition poll_set_ok (hub : EventHub) : Prop :=
  Z.of_nat (length (mDevices hub)) = mFDCount hub /\
  (mNumDevicesById hub <= 0x10000 ->
   forall j dev,
     mDevices hub !! j = Some (Some dev) ->
     slot_device hub (Z.to_nat (Z.land (id dev) ID_MASK)) = Some dev /\
     forall j', mDevices hub !! j' = Some (Some dev) -> j' = j).

End Predicates.


(** ** More of [EventHub] *)

Section MoreRegistry.
Context `{KeyLayoutMapOps}.

(** [EventHub::errorCheck] (lines 124-127). *)
Definition errorCheck (hub : EventHub) : Z := mError hub.

(** The shape [getEvent] and [close_device] rely on when they follow
    [mDevices[i]] without a null check: [mDevices] has [mFDCount] cells,
    the cell 0 (the inotify watch) is null and every other cell is a
    device, and [mFDs] has a cell for every index below [mFDCount]. *)
Definition poll_shape (hub : EventHub) : Prop :=
  Z.of_nat (length (mDevices hub)) = mFDCount hub /\
  (forall j d, mDevices hub !! j = Some d -> (d = None <-> j = 0%nat)) /\
  (mFDCount hub <= Z.of_nat (length (mFDs hub))).

(** Every record of the identity table has a class, an identifier other
    than 0, and the data of a keyboard exactly when it is one. *)
Definition records_ok (hub : EventHub) : Prop :=
  forall i dev,
    slot_device hub i = Some dev ->
    classes dev <> 0 /\ id dev <> 0 /\ keyboard_data dev.

(** The first keyboard, when one is designated, is a keyboard of the poll
    set. *)
Definition first_keyboard_ok (hub : EventHub) : Prop :=
  mFirstKeyboardId hub <> 0 ->
  exists j dev,
    mDevices hub !! j = Some (Some dev) /\ id dev = mFirstKeyboardId hub /\
    is_keyboard dev = true.

(** The test [(classes & cls) != 0]. *)
Definition has_class (classes cls : Z) : bool := negb (Z.land classes cls =? 0).

(** What lines 728-742 ask of a pointing device before they look at its
    buttons: BTN_MOUSE, an answer to [EVIOCGBIT(EV_REL)], REL_X and REL_Y. *)
Definition reports_pointer (fx : Fixture) : bool :=
  let key_bitmask := ioctl_buffer (bitmask_size KEY_MAX) (ioctl_EVIOCGBIT_KEY fx) in
  let rel_bitmask := ioctl_buffer (bitmask_size REL_MAX) (ioctl_EVIOCGBIT_REL fx) in
  bit_set BTN_MOUSE key_bitmask
  && bool_decide (is_Some (ioctl_EVIOCGBIT_REL fx))
  && bit_set REL_X rel_bitmask && bit_set REL_Y rel_bitmask.

(** The condition of lines 751-753. *)
Definition reports_multi_touch (fx : Fixture) : bool :=
  let abs_bitmask := ioctl_buffer (bitmask_size ABS_MAX) (ioctl_EVIOCGBIT_ABS fx) in
  bit_set ABS_MT_TOUCH_MAJOR abs_bitmask
  && bit_set ABS_MT_POSITION_X abs_bitmask
  && bit_set ABS_MT_POSITION_Y abs_bitmask.

(** The condition of lines 757-758. *)
Definition reports_single_touch (fx : Fixture) : bool :=
  let key_bitmask := ioctl_buffer (bitmask_size KEY_MAX) (ioctl_EVIOCGBIT_KEY fx) in
  let abs_bitmask := ioctl_buffer (bitmask_size ABS_MAX) (ioctl_EVIOCGBIT_ABS fx) in
  bit_set BTN_TOUCH key_bitmask
  && bit_set ABS_X abs_bitmask && bit_set ABS_Y abs_bitmask.

(** The condition of lines 837-841. *)
Definition has_dpad_keys (dev : device_t) : bool :=
  hasKeycode dev kKeyCodeDpadUp && hasKeycode dev kKeyCodeDpadDown
  && hasKeycode dev kKeyCodeDpadLeft && hasKeycode dev kKeyCodeDpadRight
  && hasKeycode dev kKeyCodeDpadCenter.

(** Zero or more changes of the registry, one after the other. *)
Inductive steps : EventHub -> EventHub -> Prop :=
| steps_refl hub : steps hub hub
| steps_step hub hub' hub'' : steps hub hub' -> step hub' hub'' -> steps hub hub''.

(** A run of the registry during which the counter of the slot [devid] is
    advanced [n] times (lines 659-662 run once in every [open_device] that
    picks the slot and gets past the growing of the table, whether or not
    it registers a device in the end). *)
Inductive advances (devid : Z) : nat -> EventHub -> EventHub -> Prop :=
| advances_refl hub : advances devid 0 hub hub
| advances_keep n hub hub' hub'' :
    advances devid n hub hub' -> step hub' hub'' ->
    slot_seq devid (mDevicesById hub'') = slot_seq devid (mDevicesById hub') ->
    advances devid n hub hub''
| advances_next n hub hub' hub'' :
    advances devid n hub hub' -> step hub' hub'' ->
    slot_seq devid (mDevicesById hub'') =
      next_seq (slot_seq devid (mDevicesById hub')) ->
    advances devid (S n) hub hub''.

(** [open_device] gets as far as line 696: the file opens, the version and
    id ioctls answer, the name is not excluded and no allocation fails (the
    identity table is grown only when no slot is free). *)
Definition reaches_probing (fx : Fixture) (hub : EventHub) : bool :=
  (0 <=? open_O_RDWR fx) && ioctl_EVIOCGVERSION fx && ioctl_EVIOCGID fx
  && negb (existsb (String.eqb (default EmptyString (ioctl_EVIOCGNAME fx)))
                   (mExcludedDevices hub))
  && bool_decide (is_Some (grow_table fx (first_free_slot (mDevicesById hub) 0) hub))
  && realloc_mFDs fx && realloc_mDevices fx && new_device_t fx.

(** [open_device] gets as far as the set-up of a keyboard (lines 790-848):
    the device is probed, it is classified KEYBOARD and the copy of its key
    bitmask is allocated. *)
Definition found_keyboard (fx : Fixture) (hub : EventHub) : bool :=
  reaches_probing fx hub
  && negb (classify_keyboard (ioctl_EVIOCGBIT_KEY fx)
             (ioctl_buffer (bitmask_size KEY_MAX) (ioctl_EVIOCGBIT_KEY fx)) =? 0)
  && new_keyBitmask fx.

(** The test of line 816:
    [!mHaveFirstKeyboard && !defaultKeymap && strstr(name, "-keypad")]. *)
Definition keypad_rule (fx : Fixture) (hub : EventHub) : bool :=
  negb (mHaveFirstKeyboard hub) && access_keylayout fx
  && strstr (default EmptyString (ioctl_EVIOCGNAME fx)) "-keypad".

(** What the calls below [getEvent] keep: the arrays stay allocated, and
    [mError] and [mOpened] are not written. *)
Definition same_session (hub hub' : EventHub) : Prop :=
  steps hub hub' /\ 0 < mFDCount hub' /\
  mError hub' = mError hub /\ mOpened hub' = mOpened hub.

(** The first [getEvent] allocates the arrays and records that it did; once
    it has, [mFDCount] never returns to 0. *)
Definition session_ok (hub : EventHub) : Prop :=
  if mOpened hub then 0 < mFDCount hub /\ mError hub = NO_ERROR
  else mFDCount hub = 0 /\ mError hub = NO_INIT.

(** The registries a client sees: the one the constructor makes, and those
    its calls of [addExcludedDevice] and [getEvent] leave. *)
Inductive in_use : EventHub -> Prop :=
| in_use_new : in_use EventHub_new
| in_use_addExcludedDevice hub deviceName :
    in_use hub -> in_use (addExcludedDevice deviceName hub)
| in_use_getEvent hub inotify_fd entries answers :
    in_use hub -> in_use (getEvent inotify_fd entries answers hub).1.2.

End MoreRegistry.

(** * AudioHardwareStub.h *)

Module AudioHardwareStub.

(** The one member of [AudioHardwareStub]. *)
Record AudioHardwareStub := { mMicMute : bool }.

(** [setMicMute] (line 79): the status and the object afterwards. *)
Definition setMicMute (state : bool) (hw : AudioHardwareStub) : Z * AudioHardwareStub :=
  (NO_ERROR, {| mMicMute := state |}).

(** [getMicMute] (line 80): the status and the out-parameter. *)
Definition getMicMute (hw : AudioHardwareStub) : Z * bool :=
  (NO_ERROR, mMicMute hw).

(** The calls the header defines inline (lines 67-71, 76, 79, 82-83,
    101-103 and 106).  All but [setMicMute] return NO_ERROR and touch
    nothing: [setStreamVolume] (its [float] argument, which is never read,
    is left out), [setStreamMute], [isStreamActive], [setStreamType],
    [setDinMute], [setMasterMute], [setParameter], [forcedRouting],
    [recoverRouting], [setVoiceMute], [doRouting]. *)
Inductive InlineCall :=
| setStreamVolume (stream : Z)
| setStreamMute (stream : Z) (mute : bool)
| isStreamActive (stream : Z)
| setStreamType (stream : Z)
| setDinMute (mute : bool)
| setMasterMute (mute : bool)
| setParameter (key value : string)
| forcedRouting (a b c : Z)
| recoverRouting (a b c : Z)
| setVoiceMute (mute : bool)
| doRouting
| call_setMicMute (state : bool).

Definition call (c : InlineCall) (hw : AudioHardwareStub) : Z * AudioHardwareStub :=
  match c with
  | call_setMicMute state => setMicMute state hw
  | _ => (NO_ERROR, hw)
  end.

(** The object after a sequence of calls. *)
Definition calls (cs : list InlineCall) (hw : AudioHardwareStub) : AudioHardwareStub :=
  foldl (fun hw c => (call c hw).2) hw cs.

(** The state of the last [setMicMute] among the calls, if any. *)
Definition last_setMicMute (cs : list InlineCall) : option bool :=
  foldl (fun last c => match c with call_setMicMute s => Some s | _ => last end)
        None cs.

End AudioHardwareStub.

(** * More example devices and runs *)

Definition mouse : Fixture :=
  example_fixture 16 "mouse" [BTN_MOUSE; BTN_RIGHT] [REL_X; REL_Y] [] [] false qwerty.
Definition trackball : Fixture :=
  example_fixture 17 "trackball" [BTN_MOUSE] [REL_X; REL_Y] [] [] false qwerty.

(** The client excludes the touchscreen by name before anything is opened. *)
Definition touch_excluded : EventHub := addExcludedDevice "touch" hub0.

(** The directory /dev/input at the first [getEvent]: the usb keyboard and
    a touchscreen. *)
Definition boot_dir : list DirEvent :=
  [{| ev_name := "."; ev_create := true; ev_fixture := usb_keyboard |};
   {| ev_name := ".."; ev_create := true; ev_fixture := usb_keyboard |};
   {| ev_name := "event0"; ev_create := true; ev_fixture := usb_keyboard |};
   {| ev_name := "event1"; ev_create := true; ev_fixture := touchscreen 20 |}].

(** The registry of a client after its first, second and third [getEvent]:
    the first two report the two devices, the third a key press. *)
Definition booted : EventHub :=
  after (getEvent 3 (Some boot_dir) [key_press_answer] EventHub_new).
Definition both_reported : EventHub :=
  after (getEvent 3 None [key_press_answer] booted).

(** A press of the key 31, which the layout [qwerty] does not map. *)
Definition unmapped_key_press : input_event :=
  {| tv_sec := 100; tv_usec := 7; type := EV_KEY; code := 31; value := 1 |}.
Definition unmapped_key_press_answer : PollAnswer :=
  {| poll_result := 1;
     poll_ready := [(0, None); (POLLIN, Some unmapped_key_press)];
     notify_records := None |}.

(** A touchscreen found when [mFDs] is grown by moving it and [mDevices]
    cannot be grown. *)
Definition no_memory_for_devices : Fixture :=
  {| open_O_RDWR := 20;
     ioctl_EVIOCGVERSION := true;
     ioctl_EVIOCGID := true;
     ioctl_EVIOCGNAME := Some "touch"%string;
     realloc_mDevicesById := true;
     realloc_mFDs := true;
     realloc_mFDs_moved := true;
     realloc_mDevices := false;
     realloc_mDevices_moved := false;
     new_device_t := true;
     ioctl_EVIOCGBIT_KEY := Some (bitmask_of KEY_MAX []);
     new_keyBitmask := true;
     ioctl_EVIOCGBIT_REL := Some (bitmask_of REL_MAX []);
     ioctl_EVIOCGBIT_ABS :=
       Some (bitmask_of ABS_MAX [ABS_MT_TOUCH_MAJOR; ABS_MT_POSITION_X; ABS_MT_POSITION_Y]);
     ioctl_EVIOCGBIT_SW := Some (bitmask_of SW_MAX []);
     access_keylayout := false;
     loaded_layout := qwerty |}.

(** What the kernel answers when a touchscreen is plugged in and pulled out
    again before the hub reads the inotify descriptor. *)
Definition found_and_lost : PollAnswer :=
  {| poll_result := 1;
     poll_ready := [(POLLIN, None)];
     notify_records :=
       Some [{| ev_name := "event2"; ev_create := true; ev_fixture := touchscreen 22 |};
             {| ev_name := "event2"; ev_create := false;
                ev_fixture := touchscreen 22 |}] |}.

(** A device that reports the switch 6 and nothing else. *)
Definition lid_switch : Fixture :=
  example_fixture 18 "lid" [] [] [] [6] false qwerty.
(** * Properties *)

Section Properties.
Context `{KeyLayoutMapOps}.

(** ** The ghost flag *)

(** [delete_device] touches the ghost flag only. *)
Lemma delete_device_eq (dev : device_t) (hub : EventHub) :
  delete_device dev hub = hub \/ delete_device dev hub = set_mDangling true hub.
Proof. unfold delete_device. destruct (existsb _ _); eauto. Qed.

Ltac undelete :=
  try match goal with
      | |- context [delete_device ?d ?h] =>
          destruct (delete_device_eq d h) as [-> | ->]
      end.

(** ** Lookup *)

Lemma slot_index_range (deviceId : Z) :
  0 <= Z.land deviceId ID_MASK <= 0xffff.
Proof.
  unfold ID_MASK. split.
  - apply Z.land_nonneg. right. lia.
  - assert (Hlt : Z.land deviceId 0xffff < 2 ^ 16); [|lia].
    destruct (Z.eq_dec (Z.land deviceId 0xffff) 0) as [->|Hne]; [lia|].
    apply Z.log2_lt_cancel. rewrite Z.log2_pow2 by lia.
    assert (Hnn : 0 <= Z.land deviceId 65535) by (apply Z.land_nonneg; right; lia).
    destruct (Z.le_gt_cases (Z.log2 (Z.land deviceId 65535)) 15) as [Hle|Hgt]; [lia|].
    exfalso.
    assert (Hbit : Z.testbit (Z.land deviceId 65535) (Z.log2 (Z.land deviceId 65535)) = true)
      by (apply Z.bit_log2; lia).
    rewrite Z.land_spec in Hbit.
    replace 65535 with (Z.ones 16) in Hbit at 2 by reflexivity.
    rewrite Z.ones_spec_high in Hbit by lia.
    rewrite andb_false_r in Hbit. discriminate.
Qed.

(** What [getDevice] does with an identifier other than 0. *)
Lemma getDevice_Some (hub : EventHub) (deviceId : Z) (dev : device_t) :
  deviceId <> 0 ->
  getDevice hub deviceId = Some dev <->
  Z.land deviceId ID_MASK < mNumDevicesById hub /\
  (exists e, mDevicesById hub !! Z.to_nat (Z.land deviceId ID_MASK) = Some e /\
             device e = Some dev) /\
  id dev = deviceId.
Proof.
  intros Hne. unfold getDevice.
  destruct (Z.eqb_spec deviceId 0) as [|_]; [contradiction|].
  pose proof (slot_index_range deviceId) as Hr.
  destruct (Z.geb_spec (Z.land deviceId ID_MASK) (mNumDevicesById hub)) as [Hge|Hlt].
  - simpl. split; [discriminate|]. intros (Hlt & _). lia.
  - destruct (Z.ltb_spec (Z.land deviceId ID_MASK) 0) as [Hneg|_]; [lia|]. simpl.
    destruct (mDevicesById hub !! Z.to_nat (Z.land deviceId ID_MASK)) as [[[d|] s]|] eqn:He.
    + destruct (Z.eqb_spec (id d) deviceId) as [Hid|Hid].
      * split.
        -- intros [= ->]. split; [lia|]. split; [|done]. eexists; split; [reflexivity|done].
        -- intros (_ & (e & [= <-] & Hd) & _). simpl in Hd. congruence.
      * split; [discriminate|].
        intros (_ & (e & [= <-] & Hd) & Hid'). simpl in Hd. congruence.
    + split; [discriminate|]. intros (_ & (e & [= <-] & Hd) & _). discriminate.
    + split; [discriminate|]. intros (_ & (e & Hd & _) & _). discriminate.
Qed.

Lemma getDevice_stale (hub : EventHub) (deviceId : Z) :
  deviceId <> 0 -> stale hub deviceId -> getDevice hub deviceId = None.
Proof.
  intros Hne Hst.
  destruct (getDevice hub deviceId) as [dev|] eqn:Hg; [|reflexivity].
  apply getDevice_Some in Hg as (_ & (e & He & Hd) & Hid); [|done].
  exfalso. exact (Hst e dev He Hd Hid).
Qed.

(** ** The sequence counter *)

Lemma SEQ_MASK_shifted : SEQ_MASK = Z.shiftl 0x7fff SEQ_SHIFT.
Proof. reflexivity. Qed.

Lemma testbit_small (a n : Z) : 0 <= a < 2 ^ n -> forall m, n <= m -> Z.testbit a m = false.
Proof.
  intros [Ha Hlt] m Hm.
  destruct (Z.eq_dec a 0) as [->|Hne]; [apply Z.bits_0|].
  apply Z.bits_above_log2; [lia|].
  assert (Z.log2 a < n); [|lia].
  apply Z.log2_lt_pow2; lia.
Qed.

Lemma land_small_shifted (a b : Z) :
  0 <= a < 2 ^ 16 -> Z.land a (Z.shiftl b 16) = 0.
Proof.
  intros Ha. apply Z.bits_inj'. intros n Hn.
  rewrite Z.land_spec, Z.bits_0.
  destruct (Z.lt_ge_cases n 16) as [Hlt|Hge].
  - rewrite Z.shiftl_spec_low by lia. apply andb_false_r.
  - rewrite (testbit_small a 16) by lia. reflexivity.
Qed.

(** The stored counter after lines 659-662, for a stored counter
    [s << 16]. *)
Lemma next_seq_shifted (s : Z) :
  0 <= s <= 0x7fff ->
  next_seq (Z.shiftl s SEQ_SHIFT) =
  Z.shiftl (if Z.land (s + 1) 0x7fff =? 0 then 1 else Z.land (s + 1) 0x7fff) SEQ_SHIFT.
Proof.
  intros Hs. unfold next_seq.
  replace (Z.shiftl s SEQ_SHIFT + Z.shiftl 1 SEQ_SHIFT) with (Z.shiftl (s + 1) SEQ_SHIFT)
    by (rewrite !Z.shiftl_mul_pow2 by (unfold SEQ_SHIFT; lia); ring).
  rewrite Z.mod_small
    by (rewrite Z.shiftl_mul_pow2 by (unfold SEQ_SHIFT; lia); unfold SEQ_SHIFT; lia).
  rewrite SEQ_MASK_shifted, <- Z.shiftl_land.
  destruct (Z.eqb_spec (Z.land (s + 1) 0x7fff) 0) as [-> | Hne].
  - reflexivity.
  - destruct (Z.eqb_spec (Z.shiftl (Z.land (s + 1) 32767) SEQ_SHIFT) 0) as [H0|_]; [|reflexivity].
    apply Z.shiftl_eq_0_iff in H0; [contradiction | unfold SEQ_SHIFT; lia].
Qed.

Lemma land_7fff_range (x : Z) : 0 <= Z.land x 0x7fff <= 0x7fff.
Proof.
  split.
  - apply Z.land_nonneg. right. lia.
  - destruct (Z.le_gt_cases (Z.land x 0x7fff) 0x7fff) as [|Hgt]; [done|]. exfalso.
    assert (Hnn : 0 <= Z.land x 0x7fff) by (apply Z.land_nonneg; right; lia).
    assert (Hbit : Z.testbit (Z.land x 0x7fff) (Z.log2 (Z.land x 0x7fff)) = true)
      by (apply Z.bit_log2; lia).
    assert (Hlog : 15 <= Z.log2 (Z.land x 0x7fff))
      by (apply Z.log2_le_pow2; lia).
    rewrite Z.land_spec in Hbit.
    replace 32767 with (Z.ones 15) in Hbit at 2 by reflexivity.
    rewrite Z.ones_spec_high in Hbit by lia.
    rewrite andb_false_r in Hbit. discriminate.
Qed.

(** A stored counter is [s << 16] for a 15-bit [s]. *)
Lemma next_seq_canonical (seq : Z) :
  exists s, 1 <= s <= 0x7fff /\ next_seq seq = Z.shiftl s SEQ_SHIFT.
Proof.
  unfold next_seq. set (x := (seq + Z.shiftl 1 SEQ_SHIFT) mod 2 ^ 32).
  destruct (Z.eqb_spec (Z.land x SEQ_MASK) 0) as [H0|Hne].
  - exists 1. split; [lia | reflexivity].
  - exists (Z.land (Z.shiftr x SEQ_SHIFT) 0x7fff).
    assert (Heq : Z.land x SEQ_MASK = Z.shiftl (Z.land (Z.shiftr x SEQ_SHIFT) 0x7fff) SEQ_SHIFT).
    { apply Z.bits_inj'. intros n Hn. rewrite Z.land_spec.
      destruct (Z.lt_ge_cases n 16) as [Hlt|Hge].
      - rewrite Z.shiftl_spec_low by (unfold SEQ_SHIFT; lia).
        rewrite SEQ_MASK_shifted, Z.shiftl_spec_low by (unfold SEQ_SHIFT; lia).
        apply andb_false_r.
      - rewrite Z.shiftl_spec by lia. rewrite Z.land_spec.
        rewrite Z.shiftr_spec by (unfold SEQ_SHIFT; lia).
        rewrite SEQ_MASK_shifted, Z.shiftl_spec by lia.
        unfold SEQ_SHIFT. replace (n - 16 + 16) with n by lia. reflexivity. }
    split; [|exact Heq].
    pose proof (land_7fff_range (Z.shiftr x SEQ_SHIFT)) as Hr.
    assert (Z.land (Z.shiftr x SEQ_SHIFT) 32767 <> 0); [|lia].
    intros H0. rewrite Heq, H0 in Hne. by apply Hne.
Qed.

(** ** The structure of [open_device] *)

Lemma classify_keys_fields (dev : device_t) :
  id (classify_keys dev) = id dev /\ path (classify_keys dev) = path dev /\
  name (classify_keys dev) = name dev /\
  keyBitmask (classify_keys dev) = keyBitmask dev /\
  layoutMap (classify_keys dev) = layoutMap dev.
Proof. unfold classify_keys. repeat case_match; done. Qed.

Lemma is_keyboard_add_class (c : Z) (dev : device_t) :
  Z.land c CLASS_KEYBOARD = 0 -> is_keyboard (add_class c dev) = is_keyboard dev.
Proof.
  intros Hc. unfold is_keyboard, add_class. simpl.
  by rewrite Z.land_lor_distr_l, Hc, Z.lor_0_r.
Qed.

Lemma classify_keys_is_keyboard (dev : device_t) :
  is_keyboard (classify_keys dev) = is_keyboard dev.
Proof.
  unfold classify_keys.
  repeat case_match; rewrite ?is_keyboard_add_class; done.
Qed.

Lemma classify_pointer_not_keyboard (key_bitmask : list Z) (answer : option (list Z)) :
  Z.land (classify_pointer key_bitmask answer) CLASS_KEYBOARD = 0.
Proof. unfold classify_pointer. repeat case_match; reflexivity. Qed.

Lemma classify_touch_not_keyboard (key_bitmask abs_bitmask : list Z) :
  Z.land (classify_touch key_bitmask abs_bitmask) CLASS_KEYBOARD = 0.
Proof. unfold classify_touch. repeat case_match; reflexivity. Qed.

(** The members [probe_device] leaves alone. *)
Lemma probe_device_frame (fx : Fixture) (dev : device_t) (hub hub' : EventHub)
    (kept : option device_t) (calls : list SysCall) :
  probe_device fx dev hub = (kept, hub', calls) ->
  mDevicesById hub' = mDevicesById hub /\ mDevices hub' = mDevices hub /\
  mFDs hub' = mFDs hub /\ mFDCount hub' = mFDCount hub /\
  mOpeningDevices hub' = mOpeningDevices hub /\
  mClosingDevices hub' = mClosingDevices hub /\
  mExcludedDevices hub' = mExcludedDevices hub /\
  mOpened hub' = mOpened hub /\ mError hub' = mError hub.
Proof.
  unfold probe_device, setup_keyboard, designate_first_keyboard. intros Heq.
  repeat case_match; simplify_eq; done.
Qed.

Lemma probe_device_mDangling (fx : Fixture) (dev : device_t) (hub : EventHub) :
  mDangling (probe_device fx dev hub).1.2 = mDangling hub.
Proof.
  unfold probe_device, setup_keyboard, designate_first_keyboard.
  repeat case_match; simplify_eq; done.
Qed.

Lemma setup_keyboard_fields (fx : Fixture) (dev dev' : device_t) (hub hub' : EventHub)
    (calls : list SysCall) :
  setup_keyboard fx dev hub = (dev', hub', calls) ->
  id dev' = id dev /\ path dev' = path dev /\ name dev' = name dev /\
  keyBitmask dev' = keyBitmask dev /\ is_keyboard dev' = is_keyboard dev /\
  (is_keyboard dev = false -> layoutMap dev' = layoutMap dev).
Proof.
  unfold setup_keyboard. intros Heq.
  destruct (is_keyboard dev) eqn:Hk.
  - destruct (designate_first_keyboard _ _ _) as [h c]. simplify_eq.
    pose proof (classify_keys_fields
      {| id := id dev; path := path dev; name := name dev; classes := classes dev;
         keyBitmask := keyBitmask dev; layoutMap := loaded_layout fx |})
      as (-> & -> & -> & -> & _).
    rewrite classify_keys_is_keyboard. repeat split; done.
  - simplify_eq. rewrite Hk. repeat split; done.
Qed.

Lemma probe_device_kept (fx : Fixture) (dev dev' : device_t) (hub hub' : EventHub)
    (calls : list SysCall) :
  classes dev = 0 ->
  probe_device fx dev hub = (Some dev', hub', calls) ->
  id dev' = id dev /\ path dev' = path dev /\ name dev' = name dev /\
  classes dev' <> 0 /\
  is_keyboard dev' =
    negb (classify_keyboard (ioctl_EVIOCGBIT_KEY fx)
            (ioctl_buffer (bitmask_size KEY_MAX) (ioctl_EVIOCGBIT_KEY fx)) =? 0) /\
  (is_keyboard dev' = true ->
   keyBitmask dev' = Some (ioctl_buffer (bitmask_size KEY_MAX) (ioctl_EVIOCGBIT_KEY fx))) /\
  (is_keyboard dev' = false ->
   keyBitmask dev' = None /\ layoutMap dev' = layoutMap dev).
Proof.
  intros Hc. unfold probe_device.
  set (key_bitmask := ioctl_buffer (bitmask_size KEY_MAX) (ioctl_EVIOCGBIT_KEY fx)).
  set (ck := classify_keyboard (ioctl_EVIOCGBIT_KEY fx) key_bitmask).
  assert (Hk0 : is_keyboard (add_class ck dev) = negb (ck =? 0)).
  { unfold is_keyboard, add_class. simpl. rewrite Hc. simpl.
    unfold ck, classify_keyboard. repeat case_match; reflexivity. }
  rewrite Hk0.
  destruct (negb (ck =? 0) && negb (new_keyBitmask fx)) eqn:Hoom; [discriminate|].
  match goal with
  | |- context [setup_keyboard fx ?d ?h] =>
      assert (Hd : id d = id dev /\ path d = path dev /\ name d = name dev /\
                   keyBitmask d = (if negb (ck =? 0) then Some key_bitmask else None) /\
                   layoutMap d = layoutMap dev /\ is_keyboard d = negb (ck =? 0));
      [|destruct (setup_keyboard fx d h) as [[d3 h3] c3] eqn:Hsetup]
  end.
  { case_match; simpl;
      rewrite ?is_keyboard_add_class
        by (reflexivity || apply classify_touch_not_keyboard
            || apply classify_pointer_not_keyboard);
      repeat split; try reflexivity;
      unfold is_keyboard; simpl; rewrite Hc; fold (is_keyboard (add_class ck dev));
      unfold is_keyboard, add_class in Hk0; simpl in Hk0; rewrite Hc in Hk0; exact Hk0. }
  destruct Hd as (Hid & Hpath & Hname & Hbm & Hlm & Hkb).
  apply setup_keyboard_fields in Hsetup as (Hid' & Hpath' & Hname' & Hbm' & Hkb' & Hlm').
  destruct (Z.eqb_spec (classes d3) 0) as [|Hne]; [discriminate|].
  intros [= -> -> ->].
  rewrite Hid', Hpath', Hname', Hbm', Hkb', Hid, Hpath, Hname, Hbm, Hkb.
  split; [done|]. split; [done|]. split; [done|]. split; [done|].
  split; [done|]. split.
  - intros ->. reflexivity.
  - intros Hf. rewrite Hf. split; [reflexivity|].
    rewrite Hlm' by (rewrite Hkb; exact Hf). exact Hlm.
Qed.

(** The ways through [open_device]: it returns before the identity table
    is touched; or the slot [devid] has its counter advanced and an
    allocation fails, with or without leaving a member pointing to a freed
    block; or the device is probed and given up or registered. *)
Lemma open_device_cases (deviceName : string) (fx : Fixture) (hub : EventHub) :
  let devid := first_free_slot (mDevicesById hub) 0 in
  let name := default EmptyString (ioctl_EVIOCGNAME fx) in
  (exists calls, open_device deviceName fx hub = (-1, hub, calls)) \/
  exists table,
    grow_table fx devid hub = Some table /\
    let hubT := set_mDevicesById (bump_seq devid table) hub in
    (open_device deviceName fx hub = (-1, hubT, []) \/
     open_device deviceName fx hub = (-1, set_mDangling true hubT, []) \/
     open_device deviceName fx hub =
     match probe_device fx
             (device_t_new (Z.lor devid (slot_seq devid (bump_seq devid table)))
                           deviceName name)
             (store_pollfd (open_O_RDWR fx) hubT) with
     | (None, h, calls) => (-1, h, calls)
     | (Some dev, h, calls) => (0, register_device devid dev h, calls)
     end).
Proof.
  intros devid name. unfold open_device. fold devid. fold name.
  destruct (open_O_RDWR fx <? 0); [eauto|].
  destruct (ioctl_EVIOCGVERSION fx); simpl; [|eauto].
  destruct (ioctl_EVIOCGID fx); simpl; [|eauto].
  destruct (existsb _ _); [eauto|].
  destruct (grow_table fx devid hub) as [table|]; [|eauto].
  right. exists table. split; [reflexivity|].
  destruct (realloc_mFDs fx && realloc_mDevices fx); simpl.
  - destruct (new_device_t fx); simpl; [|eauto].
    right. right. reflexivity.
  - unfold realloc_failed. destruct (_ || _); eauto.
Qed.

Lemma first_free_slot_range (ents : list device_ent) (k : Z) :
  k <= first_free_slot ents k <= k + Z.of_nat (length ents).
Proof.
  revert k. induction ents as [|e ents IH]; intros k; simpl; [lia|].
  destruct (device e); [|lia]. specialize (IH (k + 1)). lia.
Qed.

Lemma first_free_slot_empty (ents : list device_ent) (k : Z) (e : device_ent) :
  ents !! Z.to_nat (first_free_slot ents k - k) = Some e -> device e = None.
Proof.
  revert k. induction ents as [|e0 ents IH]; intros k; simpl; [done|].
  destruct (device e0) eqn:Hd.
  - pose proof (first_free_slot_range ents (k + 1)) as Hr.
    replace (Z.to_nat (first_free_slot ents (k + 1) - k))
      with (S (Z.to_nat (first_free_slot ents (k + 1) - (k + 1)))) by lia.
    simpl. apply IH.
  - replace (k - k) with 0 by lia. simpl. congruence.
Qed.

Lemma grow_table_lookup (fx : Fixture) (hub : EventHub) (table : list device_ent) :
  let devid := first_free_slot (mDevicesById hub) 0 in
  grow_table fx devid hub = Some table ->
  exists e, table !! Z.to_nat devid = Some e /\ device e = None /\
            seq e = slot_seq devid (mDevicesById hub).
Proof.
  intros devid. unfold grow_table, mNumDevicesById.
  pose proof (first_free_slot_range (mDevicesById hub) 0) as Hr. fold devid in Hr.
  destruct (Z.geb_spec devid (Z.of_nat (length (mDevicesById hub)))) as [Hge|Hlt].
  - destruct (realloc_mDevicesById fx); [|discriminate]. intros [= <-].
    assert (Hn : Z.to_nat devid = length (mDevicesById hub)) by lia.
    exists {| device := None; seq := 0 |}.
    rewrite Hn, lookup_app_r, Nat.sub_diag by lia. simpl.
    split; [done|]. split; [done|].
    unfold slot_seq. rewrite Hn. by rewrite lookup_ge_None_2 by lia.
  - intros [= <-].
    destruct (lookup_lt_is_Some_2 (mDevicesById hub) (Z.to_nat devid)) as [e He]; [lia|].
    exists e. split; [done|]. split.
    + apply (first_free_slot_empty (mDevicesById hub) 0).
      fold devid. by replace (devid - 0) with devid by lia.
    + unfold slot_seq. by rewrite He.
Qed.

Lemma bump_seq_lookup (devid : Z) (table : list device_ent) (e : device_ent) :
  table !! Z.to_nat devid = Some e ->
  bump_seq devid table !! Z.to_nat devid =
  Some {| device := device e; seq := next_seq (seq e) |}.
Proof.
  intros He. unfold bump_seq. rewrite He.
  apply list_lookup_insert_eq. by eapply lookup_lt_Some.
Qed.

Lemma bump_seq_length (devid : Z) (table : list device_ent) :
  length (bump_seq devid table) = length table.
Proof. unfold bump_seq. case_match; [apply length_insert | done]. Qed.

(** What a successful [open_device] leaves in the slot it took. *)
Lemma open_device_registers (deviceName : string) (fx : Fixture)
    (hub hub' : EventHub) (calls : list SysCall) :
  let devid := first_free_slot (mDevicesById hub) 0 in
  open_device deviceName fx hub = (0, hub', calls) ->
  exists dev,
    mDevicesById hub' !! Z.to_nat devid =
      Some {| device := Some dev;
              seq := next_seq (slot_seq devid (mDevicesById hub)) |} /\
    id dev = Z.lor devid (next_seq (slot_seq devid (mDevicesById hub))) /\
    path dev = deviceName /\
    mDevices hub' !! Z.to_nat (mFDCount hub) = Some (Some dev) /\
    mFDCount hub' = mFDCount hub + 1.
Proof.
  intros devid Hopen. set (devid' := devid). subst devid. rename devid' into devid.
  destruct (open_device_cases deviceName fx hub) as [[c Hc]|(table & Hgrow & [Hc|[Hc|Hc]])];
    try congruence.
  rewrite Hc in Hopen. clear Hc.
  apply grow_table_lookup in Hgrow as (e & He & Hnone & Hseq).
  fold devid in He, Hseq, Hopen |- *.
  pose proof (bump_seq_lookup devid table e He) as Hb.
  assert (Hs : slot_seq devid (bump_seq devid table) =
               next_seq (slot_seq devid (mDevicesById hub))).
  { unfold slot_seq at 1. rewrite Hb. simpl. by rewrite Hseq. }
  rewrite Hs in Hopen.
  destruct (probe_device _ _ _) as [[[dev|] h] c] eqn:Hprobe; [|congruence].
  injection Hopen as <- <-.
  pose proof (probe_device_frame _ _ _ _ _ _ Hprobe)
    as (Htab & Hdevs & Hfds & Hcount & _).
  apply probe_device_kept in Hprobe as (Hid & Hpath & _); [|reflexivity].
  simpl in Htab, Hdevs, Hcount, Hid, Hpath.
  exists dev. unfold register_device. simpl. rewrite Htab, Hdevs, Hcount.
  split.
  { rewrite list_lookup_insert_eq
      by (rewrite bump_seq_length; by eapply lookup_lt_Some).
    by rewrite Hs. }
  split; [done|]. split; [done|]. split; [|done].
  apply list_lookup_insert_eq. rewrite length_resize. lia.
Qed.

Lemma land_7fff_small (x : Z) : 0 <= x <= 0x7fff -> Z.land x 0x7fff = x.
Proof.
  intros Hx. change 32767 with (Z.ones 15) at 1.
  rewrite Z.land_ones by lia. apply Z.mod_small. lia.
Qed.

Lemma land_ffff_small (x : Z) : 0 <= x <= 0xffff -> Z.land x ID_MASK = x.
Proof.
  intros Hx. change ID_MASK with (Z.ones 16).
  rewrite Z.land_ones by lia. apply Z.mod_small. lia.
Qed.

Lemma shifted_canonical (s : Z) :
  0 <= s <= 0x7fff -> Z.land (Z.shiftl s SEQ_SHIFT) SEQ_MASK = Z.shiftl s SEQ_SHIFT.
Proof.
  intros Hs. by rewrite SEQ_MASK_shifted, <- Z.shiftl_land, land_7fff_small.
Qed.

(** The bits of a composite identifier [devid | (s << 16)]. *)
Lemma composite_id_bits (devid s : Z) :
  0 <= devid < 2 ^ 31 -> 1 <= s <= 0x7fff ->
  Z.land (Z.lor devid (Z.shiftl s SEQ_SHIFT)) SEQ_MASK <> 0 /\
  Z.testbit (Z.lor devid (Z.shiftl s SEQ_SHIFT)) 31 = false /\
  (devid <= 0xffff ->
   Z.land (Z.lor devid (Z.shiftl s SEQ_SHIFT)) SEQ_MASK = Z.shiftl s SEQ_SHIFT /\
   Z.land (Z.lor devid (Z.shiftl s SEQ_SHIFT)) ID_MASK = devid).
Proof.
  intros Hd Hs. rewrite !Z.land_lor_distr_l, shifted_canonical by lia.
  split; [|split].
  - intros H0. apply Z.lor_eq_0_iff in H0 as [_ H0].
    apply Z.shiftl_eq_0_iff in H0; [lia | unfold SEQ_SHIFT; lia].
  - rewrite Z.lor_spec, (testbit_small devid 31) by lia.
    rewrite Z.shiftl_spec by lia. unfold SEQ_SHIFT.
    rewrite (testbit_small s 15) by lia. reflexivity.
  - intros Hle. split.
    + rewrite SEQ_MASK_shifted. unfold SEQ_SHIFT at 1.
      rewrite land_small_shifted by lia. reflexivity.
    + rewrite land_ffff_small by lia.
      rewrite (Z.land_comm (Z.shiftl s SEQ_SHIFT)). unfold ID_MASK, SEQ_SHIFT.
      rewrite land_small_shifted by lia. apply Z.lor_0_r.
Qed.

(** C2.  When [open_device] assigns a slot whose counter was [s], the slot
    and the composite identifier of the new record carry the counter
    [(s + 1) & 0x7FFF], with 1 in place of 0: it is never 0 and follows
    0x7FFF by 1; the counter is stored shifted by 16, the identifier is
    [slot | (counter << 16)], its sequence bits are not all zero and its
    high bit is zero. *)
Theorem open_device_sequence (deviceName : string) (fx : Fixture)
    (hub hub' : EventHub) (calls : list SysCall) (s : Z) :
  let devid := first_free_slot (mDevicesById hub) 0 in
  let new_seq := if Z.land (s + 1) 0x7fff =? 0 then 1 else Z.land (s + 1) 0x7fff in
  0 <= s <= 0x7fff ->
  slot_seq devid (mDevicesById hub) = Z.shiftl s SEQ_SHIFT ->
  mNumDevicesById hub < 2 ^ 31 ->
  open_device deviceName fx hub = (0, hub', calls) ->
  1 <= new_seq <= 0x7fff /\
  (s = 0x7fff -> new_seq = 1) /\
  next_seq (Z.shiftl s SEQ_SHIFT) = Z.shiftl new_seq SEQ_SHIFT /\
  exists dev,
    mDevicesById hub' !! Z.to_nat devid =
      Some {| device := Some dev; seq := Z.shiftl new_seq SEQ_SHIFT |} /\
    id dev = Z.lor devid (Z.shiftl new_seq SEQ_SHIFT) /\
    Z.land (id dev) SEQ_MASK <> 0 /\
    Z.testbit (id dev) 31 = false /\
    (devid <= 0xffff ->
     Z.land (id dev) SEQ_MASK = Z.shiftl new_seq SEQ_SHIFT /\
     Z.land (id dev) ID_MASK = devid).
Proof.
  intros devid new_seq Hs Hold Hsize Hopen. subst devid.
  assert (Hnew : 1 <= new_seq <= 0x7fff).
  { unfold new_seq. pose proof (land_7fff_range (s + 1)).
    destruct (Z.eqb_spec (Z.land (s + 1) 0x7fff) 0); lia. }
  split; [exact Hnew|]. split; [intros ->; reflexivity|].
  pose proof (next_seq_shifted s Hs) as Hnext. fold new_seq in Hnext.
  split; [exact Hnext|].
  destruct (open_device_registers deviceName fx hub hub' calls Hopen)
    as (dev & Hslot & Hid & _).
  rewrite Hold, Hnext in Hslot, Hid.
  exists dev. split; [exact Hslot|]. split; [exact Hid|]. rewrite Hid.
  apply composite_id_bits; [|exact Hnew].
  pose proof (first_free_slot_range (mDevicesById hub) 0) as Hr.
  unfold mNumDevicesById in Hsize. lia.
Qed.

(** ** Capability bitmasks *)

Lemma uint8_range (b : Z) : 0 <= uint8 b < 256.
Proof.
  unfold uint8. change 255 with (Z.ones 8). rewrite Z.land_ones by lia.
  apply Z.mod_pos_bound. lia.
Qed.

Lemma ioctl_buffer_length (size : nat) (answer : option (list Z)) :
  length (ioctl_buffer size answer) = size.
Proof.
  unfold ioctl_buffer. destruct answer; [apply length_resize | apply length_replicate].
Qed.

Lemma ioctl_buffer_bytes (size : nat) (answer : option (list Z)) (i : nat) (b : Z) :
  ioctl_buffer size answer !! i = Some b -> 0 <= b < 256.
Proof.
  unfold ioctl_buffer. destruct answer as [bytes|].
  - rewrite resize_spec. intros Hb.
    apply lookup_app_Some in Hb as [Hb|[_ Hb]].
    + apply lookup_take_Some in Hb as [Hb _].
      apply list_lookup_fmap_Some in Hb as (x & -> & _). apply uint8_range.
    + apply lookup_replicate in Hb as [-> _]. lia.
  - intros Hb. apply lookup_replicate in Hb as [-> _]. lia.
Qed.

Lemma ioctl_buffer_failed (size : nat) (i : nat) (b : Z) :
  ioctl_buffer size None !! i = Some b -> b = 0.
Proof. unfold ioctl_buffer. intros Hb. by apply lookup_replicate in Hb as [-> _]. Qed.

(** A byte is not zero exactly when one of its eight bits is set. *)
Lemma byte_nonzero_bit (b : Z) :
  0 <= b < 256 ->
  b <> 0 <-> exists j, 0 <= j < 8 /\ Z.land b (Z.shiftl 1 j) <> 0.
Proof.
  intros Hb. split.
  - intros Hne. exists (Z.log2 b).
    assert (Hlog : 0 <= Z.log2 b < 8).
    { split; [apply Z.log2_nonneg|]. apply Z.log2_lt_pow2; lia. }
    split; [exact Hlog|]. intros H0.
    assert (Hbit : Z.testbit (Z.land b (Z.shiftl 1 (Z.log2 b))) (Z.log2 b) = true).
    { rewrite Z.land_spec, Z.bit_log2 by lia.
      rewrite Z.shiftl_spec, Z.sub_diag by lia. reflexivity. }
    rewrite H0, Z.bits_0 in Hbit. discriminate.
  - intros (j & _ & Hj) ->. by rewrite Z.land_0_l in Hj.
Qed.

(** [test_bit] on the bit [j] of the byte [i]. *)
Lemma test_bit_byte (array : list Z) (i j : Z) :
  0 <= i -> 0 <= j < 8 ->
  test_bit (8 * i + j) array =
  (fun b => Z.land b (Z.shiftl 1 j)) <$> array !! Z.to_nat i.
Proof.
  intros Hi Hj. unfold test_bit.
  destruct (Z.ltb_spec (8 * i + j) 0) as [|_]; [lia|].
  assert (Hq : Z.quot (8 * i + j) 8 = i).
  { rewrite Z.quot_div_nonneg by lia.
    symmetry. apply (Z.div_unique_pos _ _ i j); lia. }
  assert (Hr : Z.rem (8 * i + j) 8 = j).
  { rewrite Z.rem_mod_nonneg by lia.
    symmetry. apply (Z.mod_unique_pos _ _ i j); lia. }
  rewrite Hq, Hr. by destruct (array !! Z.to_nat i).
Qed.

(** The scan of lines 710-715 finds a byte exactly when a key below
    [BTN_MISC] is reported. *)
Lemma classify_keyboard_bits (answer : option (list Z)) :
  let key_bitmask := ioctl_buffer (bitmask_size KEY_MAX) answer in
  classify_keyboard answer key_bitmask <> 0 <->
  exists bit, 0 <= bit < BTN_MISC /\ bit_set bit key_bitmask = true.
Proof.
  intros key_bitmask. unfold classify_keyboard. split.
  - destruct answer as [bytes|]; [|done].
    destruct (existsb _ _) eqn:Hex; [|done]. intros _.
    apply existsb_exists in Hex as (b & Hin & Hb).
    apply list_elem_of_In, list_elem_of_lookup in Hin as (i & Hi).
    apply lookup_take_Some in Hi as (Hi & Hlt).
    apply negb_true_iff, Z.eqb_neq in Hb.
    pose proof (ioctl_buffer_bytes _ _ _ _ Hi) as Hrange.
    apply (byte_nonzero_bit b Hrange) in Hb as (j & Hj & Hset).
    exists (8 * Z.of_nat i + j). split.
    + change ((BTN_MISC + 7) / 8) with 32 in Hlt. unfold BTN_MISC. lia.
    + unfold bit_set. rewrite test_bit_byte by lia.
      rewrite Nat2Z.id, Hi. simpl. by apply negb_true_iff, Z.eqb_neq.
  - intros (bit & Hbit & Hset).
    unfold bit_set in Hset.
    destruct (test_bit bit key_bitmask) as [v|] eqn:Htest; [|done].
    apply negb_true_iff, Z.eqb_neq in Hset.
    pose proof (Z.div_mod bit 8 ltac:(lia)) as Hdm.
    pose proof (Z.mod_pos_bound bit 8 ltac:(lia)) as Hm.
    assert (Hq : 0 <= bit / 8 < 32).
    { split; [apply Z.div_pos; lia|]. apply Z.div_lt_upper_bound; unfold BTN_MISC in Hbit; lia. }
    rewrite Hdm, test_bit_byte in Htest by lia.
    destruct (key_bitmask !! Z.to_nat (bit / 8)) as [b|] eqn:Hb; [|done].
    simpl in Htest. injection Htest as <-.
    assert (Hb0 : b <> 0) by (intros ->; by rewrite Z.land_0_l in Hset).
    destruct answer as [bytes|].
    + assert (Hex : existsb (fun b => negb (b =? 0))
                      (take (Z.to_nat ((BTN_MISC + 7) / 8)) key_bitmask) = true).
      { apply existsb_exists. exists b. split.
        - apply list_elem_of_In, list_elem_of_lookup. exists (Z.to_nat (bit / 8)).
          apply lookup_take_Some. split; [exact Hb|].
          change ((BTN_MISC + 7) / 8) with 32. lia.
        - by apply negb_true_iff, Z.eqb_neq. }
      rewrite Hex. done.
    + by apply ioctl_buffer_failed in Hb.
Qed.

(** ** The switch table *)

Lemma claim_switch_other (sw_bitmask : list Z) (device_id : Z) (switches : list Z)
    (i k : Z) :
  0 <= i -> 0 <= k -> i <> k \/ bit_set k sw_bitmask = false ->
  switch_cell (claim_switch sw_bitmask device_id switches i) k = switch_cell switches k.
Proof.
  intros Hi Hk Hor. unfold claim_switch.
  destruct (bit_set i sw_bitmask) eqn:Hbit; [|done].
  assert (Hne : i <> k) by (destruct Hor as [|Hf]; [done | congruence]).
  destruct (switches !! Z.to_nat i) as [[| |]|]; try done.
  unfold switch_cell. rewrite list_lookup_insert_ne by lia. done.
Qed.

Lemma claim_switches_other (answer : option (list Z)) (device_id : Z)
    (switches : list Z) (k : Z) :
  0 <= k ->
  bit_set k (ioctl_buffer (bitmask_size SW_MAX) answer) = false ->
  switch_cell (claim_switches answer device_id switches) k = switch_cell switches k.
Proof.
  intros Hk Hbit. unfold claim_switches. destruct answer as [bytes|]; [|done].
  assert (Hpos : Forall (fun i => 0 <= i) (seqZ 0 SW_MAX)).
  { apply Forall_forall. intros i Hi. apply elem_of_seqZ in Hi. lia. }
  revert switches. induction Hpos as [|i l Hi _ IH]; intros switches; simpl; [done|].
  rewrite IH. apply claim_switch_other; auto.
Qed.

(** ** Keyboards *)

Lemma classify_keyboard_values (answer : option (list Z)) (key_bitmask : list Z) :
  classify_keyboard answer key_bitmask = 0 \/
  classify_keyboard answer key_bitmask = CLASS_KEYBOARD.
Proof. unfold classify_keyboard. repeat case_match; auto. Qed.

Lemma grow_table_probed (fx : Fixture) (devid : Z) (hub : EventHub) :
  realloc_mDevicesById fx = true -> exists table, grow_table fx devid hub = Some table.
Proof. intros Hr. unfold grow_table. rewrite Hr. case_match; eauto. Qed.

Lemma bump_seq_slot_device (devid : Z) (table : list device_ent) (i : nat) :
  bump_seq devid table !! i ≫= device = table !! i ≫= device.
Proof.
  unfold bump_seq. destruct (table !! Z.to_nat devid) as [e|] eqn:He; [|done].
  destruct (decide (i = Z.to_nat devid)) as [->|Hne].
  - rewrite list_lookup_insert_eq by (by eapply lookup_lt_Some). by rewrite He.
  - by rewrite list_lookup_insert_ne.
Qed.

Lemma grow_table_slot_device (fx : Fixture) (devid : Z) (hub : EventHub)
    (table : list device_ent) (i : nat) :
  grow_table fx devid hub = Some table ->
  table !! i ≫= device = slot_device hub i.
Proof.
  unfold grow_table, slot_device. repeat case_match; intros [= <-]; [|done].
  destruct (decide (i < length (mDevicesById hub))%nat) as [Hlt|Hge].
  - by rewrite lookup_app_l.
  - rewrite lookup_app_r, (lookup_ge_None_2 (mDevicesById hub)) by lia.
    by destruct (i - length (mDevicesById hub))%nat as [|[|]].
Qed.

(** C3.  A device that [open_device] registers is classified KEYBOARD
    exactly when it reports some key in [0, BTN_MISC).  A device that
    reports no key in that range (its key bits, if any, are at or above
    BTN_MISC) and that earns no other class is given up: once the calls
    before the probing have succeeded, [open_device] closes its descriptor,
    returns -1 and registers nothing. *)
Theorem open_device_keyboard (deviceName : string) (fx : Fixture) (hub : EventHub) :
  (forall hub' calls dev,
     open_device deviceName fx hub = (0, hub', calls) ->
     mDevices hub' !! Z.to_nat (mFDCount hub) = Some (Some dev) ->
     (is_keyboard dev = true <-> reports_key_below fx BTN_MISC)) /\
  (~ reports_key_below fx BTN_MISC ->
   no_other_class fx hub ->
   probed fx hub ->
   exists hub',
     open_device deviceName fx hub = (-1, hub', [sys_close (open_O_RDWR fx)]) /\
     mDevices hub' = mDevices hub /\
     mFDCount hub' = mFDCount hub /\
     mOpeningDevices hub' = mOpeningDevices hub /\
     (forall i, slot_device hub' i = slot_device hub i)).
Proof.
  split.
  - intros hub' calls dev Hopen Hdev.
    destruct (open_device_registers deviceName fx hub hub' calls Hopen)
      as (dev' & _ & _ & _ & Hdev' & _).
    rewrite Hdev in Hdev'. injection Hdev' as <-.
    destruct (open_device_cases deviceName fx hub) as [[c Hc]|(table & Hgrow & [Hc|[Hc|Hc]])];
      try congruence.
    rewrite Hc in Hopen. clear Hc.
    destruct (probe_device _ _ _) as [[[d|] h] c] eqn:Hprobe; [|congruence].
    injection Hopen as <- <-.
    pose proof (probe_device_frame _ _ _ _ _ _ Hprobe) as (_ & Hdevs & _ & Hcount & _).
    apply probe_device_kept in Hprobe as (_ & _ & _ & _ & Hkb & _); [|reflexivity].
    unfold register_device in Hdev. simpl in Hdev, Hcount.
    rewrite Hcount, list_lookup_insert_eq in Hdev
      by (rewrite length_resize; lia).
    injection Hdev as ->.
    rewrite Hkb. unfold reports_key_below.
    rewrite <- classify_keyboard_bits.
    rewrite negb_true_iff, Z.eqb_neq. done.
  - intros Hnokey (Hptr & Htouch & Hsw & Hcell)
      (Hfd & Hver & Hid & Hexcl & Hra & Hrf & Hrd & Hnew).
    unfold reports_key_below in Hnokey. rewrite <- classify_keyboard_bits in Hnokey.
    assert (Hck : classify_keyboard (ioctl_EVIOCGBIT_KEY fx)
              (ioctl_buffer (bitmask_size KEY_MAX) (ioctl_EVIOCGBIT_KEY fx)) = 0).
    { destruct (classify_keyboard_values (ioctl_EVIOCGBIT_KEY fx)
        (ioctl_buffer (bitmask_size KEY_MAX) (ioctl_EVIOCGBIT_KEY fx))) as [|Hk];
        [done|]. exfalso. apply Hnokey. by rewrite Hk. }
    destruct (grow_table_probed fx (first_free_slot (mDevicesById hub) 0) hub Hra)
      as [table Hgrow].
    unfold open_device.
    destruct (Z.ltb_spec (open_O_RDWR fx) 0) as [|_]; [lia|].
    rewrite Hver, Hid, Hexcl, Hgrow, Hrf, Hrd, Hnew. simpl.
    unfold probe_device. rewrite Hck, Hptr, Htouch. simpl.
    rewrite claim_switches_other, Hcell by (done || (unfold SW_HEADPHONE_INSERT; lia)).
    simpl. eexists. split; [reflexivity|]. simpl.
    split; [done|]. split; [done|]. split; [done|].
    intros i. unfold slot_device at 1. simpl.
    rewrite bump_seq_slot_device. by eapply grow_table_slot_device.
Qed.

(** ** The event pump *)

Lemma int64_small (x : Z) : - 2 ^ 63 <= x < 2 ^ 63 -> int64 x = x.
Proof. intros Hx. unfold int64. rewrite Z.mod_small; lia. Qed.

Lemma event_time (sec usec : Z) :
  - 2 ^ 31 <= sec < 2 ^ 31 -> - 2 ^ 31 <= usec < 2 ^ 31 ->
  int64 (s2ns sec + us2ns usec) = sec * 10 ^ 9 + usec * 10 ^ 3.
Proof.
  intros Hs Hu. unfold s2ns, us2ns.
  rewrite (int64_small (sec * _)), (int64_small (usec * _)), int64_small; lia.
Qed.

(** Lines 422-438, field by field. *)
Lemma translate_event_fields (hub : EventHub) (dev : device_t) (iev : input_event) :
  let ev := translate_event hub dev iev in
  outType ev = type iev /\ outScancode ev = code iev /\ outValue ev = value iev /\
  outDeviceId ev = first_keyboard_as_0 hub (id dev) /\
  (type iev = EV_KEY ->
   (klm_map (layoutMap dev) (code iev)).1 = 0 ->
   (outKeycode ev, outFlags ev) = (klm_map (layoutMap dev) (code iev)).2) /\
  (type iev = EV_KEY ->
   (klm_map (layoutMap dev) (code iev)).1 <> 0 ->
   outKeycode ev = 0 /\ outFlags ev = 0) /\
  (type iev <> EV_KEY -> outKeycode ev = code iev /\ outFlags ev = 0) /\
  (- 2 ^ 31 <= tv_sec iev < 2 ^ 31 -> - 2 ^ 31 <= tv_usec iev < 2 ^ 31 ->
   outWhen ev = tv_sec iev * 10 ^ 9 + tv_usec iev * 10 ^ 3).
Proof.
  unfold translate_event. simpl.
  split; [done|]. split; [done|]. split; [done|]. split; [done|].
  split; [|split; [|split]].
  - intros -> Herr. rewrite Z.eqb_refl, Herr. simpl.
    by destruct (klm_map (layoutMap dev) (code iev)).2.
  - intros -> Herr. rewrite Z.eqb_refl.
    apply Z.eqb_neq in Herr. by rewrite Herr.
  - intros Hty. apply Z.eqb_neq in Hty. by rewrite Hty.
  - apply event_time.
Qed.

(** The event [scan_fds] returns was read at the first index whose
    descriptor is readable and yields a whole [input_event]. *)
Lemma scan_fds_Some (hub : EventHub) (ready : list (Z * option input_event))
    (devs : list (option device_t)) (ev : RawEvent) :
  scan_fds hub ready devs = Some ev ->
  exists i revents iev dev,
    ready !! i = Some (revents, Some iev) /\ devs !! i = Some (Some dev) /\
    Z.land revents POLLIN <> 0 /\ ev = translate_event hub dev iev /\
    forall j r e, (j < i)%nat -> ready !! j = Some (r, e) ->
      Z.land r POLLIN = 0 \/ e = None \/ devs !! j = Some None.
Proof.
  revert devs. induction ready as [|[revents res] ready IH]; intros devs; [done|].
  destruct devs as [|dev devs]; [done|]. simpl.
  assert (Hrest :
    (Z.land revents POLLIN = 0 \/ res = None \/ dev = None) ->
    scan_fds hub ready devs = Some ev ->
    exists i revents' iev dev',
      ((revents, res) :: ready) !! i = Some (revents', Some iev) /\
      (dev :: devs) !! i = Some (Some dev') /\
      Z.land revents' POLLIN <> 0 /\ ev = translate_event hub dev' iev /\
      forall j r e, (j < i)%nat -> ((revents, res) :: ready) !! j = Some (r, e) ->
        Z.land r POLLIN = 0 \/ e = None \/ (dev :: devs) !! j = Some None).
  { intros Hskip (i & r & iev & d & ? & ? & ? & ? & Hfirst)%IH.
    exists (S i), r, iev, d. repeat split; try done.
    intros [|j] r' e' Hj; simpl.
    - intros [= <- <-]. destruct Hskip as [?|[?|?]]; subst; auto.
    - apply Hfirst. lia. }
  destruct (negb (revents =? 0) && negb (Z.land revents POLLIN =? 0)) eqn:Hready.
  2: { apply Hrest. left.
       apply andb_false_iff in Hready as [Hz%negb_false_iff%Z.eqb_eq
                                         |Hz%negb_false_iff%Z.eqb_eq]; [|done].
       subst revents. apply Z.land_0_l. }
  destruct res as [iev|]; [|apply Hrest; auto].
  destruct dev as [d|]; [|apply Hrest; auto].
  intros [= <-]. exists 0%nat, revents, iev, d.
  apply andb_true_iff in Hready as [_ Hin%negb_true_iff%Z.eqb_neq].
  repeat split; try done. intros j r e Hj. lia.
Qed.

(** [scan_fds] returns the event read at the first such index. *)
Lemma scan_fds_deliver (hub : EventHub) (ready : list (Z * option input_event))
    (devs : list (option device_t)) (i : nat) (revents : Z) (iev : input_event)
    (dev : device_t) :
  ready !! i = Some (revents, Some iev) -> Z.land revents POLLIN <> 0 ->
  devs !! i = Some (Some dev) ->
  (forall j r e, (j < i)%nat -> ready !! j = Some (r, e) ->
     Z.land r POLLIN = 0 \/ e = None) ->
  scan_fds hub ready devs = Some (translate_event hub dev iev).
Proof.
  revert ready devs. induction i as [|i IH]; intros ready devs Hr Hin Hd Hfirst;
    destruct ready as [|[r0 e0] ready]; try done;
    destruct devs as [|d0 devs]; try done; simpl in *.
  - injection Hr as -> ->. injection Hd as ->.
    assert (Hnz : revents <> 0) by (intros ->; by rewrite Z.land_0_l in Hin).
    apply Z.eqb_neq in Hnz, Hin. by rewrite Hnz, Hin.
  - assert (Hrest : scan_fds hub ready devs = Some (translate_event hub dev iev)).
    { apply IH; try done. intros j r e Hj Hrj. apply (Hfirst (S j) r e); [lia|done]. }
    destruct (Hfirst 0%nat r0 e0) as [Hz| ->]; [lia|done| |].
    + apply Z.eqb_eq in Hz. rewrite Hz, andb_false_r. done.
    + by destruct (negb _ && negb _).
Qed.

Lemma getEvent_turn_raw (answer : PollAnswer) (hub hub' : EventHub)
    (ev : RawEvent) (calls : list SysCall) :
  getEvent_turn answer hub = (Some ev, hub', calls) ->
  outType ev <> DEVICE_ADDED -> outType ev <> DEVICE_REMOVED ->
  exists i revents iev dev,
    poll_ready answer !! i = Some (revents, Some iev) /\
    mDevices hub' !! i = Some (Some dev) /\
    (1 <= i < Z.to_nat (mFDCount hub'))%nat /\
    ev = translate_event hub' dev iev /\
    Z.land revents POLLIN <> 0 /\
    forall j r e, (1 <= j < i)%nat -> poll_ready answer !! j = Some (r, e) ->
      Z.land r POLLIN = 0 \/ e = None \/ mDevices hub' !! j = Some None.
Proof.
  unfold getEvent_turn. intros Hturn Hadd Hrem.
  destruct (mClosingDevices hub); [|by simplify_eq].
  destruct (mOpeningDevices hub); [|by simplify_eq].
  destruct (poll_result answer <=? 0); [done|].
  destruct (scan_fds _ _ _) as [ev'|] eqn:Hscan.
  - injection Hturn as <- <- <-.
    apply scan_fds_Some in Hscan
      as (i & revents & iev & dev & Hr & Hd & Hin & -> & Hfirst).
    rewrite lookup_drop in Hr. rewrite lookup_drop in Hd.
    apply lookup_take_Some in Hd as [Hd Hlt].
    exists (1 + i)%nat, revents, iev, dev.
    split; [done|]. split; [done|]. split; [lia|]. split; [done|]. split; [done|].
    intros [|j] r e Hj Hrj; [lia|].
    destruct (Hfirst j r e) as [?|[?|Hnull]]; auto; [lia|by rewrite lookup_drop|].
    right. right. rewrite lookup_drop in Hnull.
    by apply lookup_take_Some in Hnull as [Hnull _].
  - repeat case_match; simplify_eq.
Qed.

(** A turn of [getEvent] with nothing to report and a readable device
    returns the event read from the first such device and leaves the
    registry alone. *)
Lemma getEvent_turn_deliver (answer : PollAnswer) (hub : EventHub) (i : nat)
    (revents : Z) (iev : input_event) (dev : device_t) :
  mClosingDevices hub = [] -> mOpeningDevices hub = [] ->
  0 < poll_result answer ->
  (1 <= i < Z.to_nat (mFDCount hub))%nat ->
  poll_ready answer !! i = Some (revents, Some iev) -> Z.land revents POLLIN <> 0 ->
  mDevices hub !! i = Some (Some dev) ->
  (forall j r e, (1 <= j < i)%nat -> poll_ready answer !! j = Some (r, e) ->
     Z.land r POLLIN = 0 \/ e = None) ->
  getEvent_turn answer hub = (Some (translate_event hub dev iev), hub, []).
Proof.
  intros Hcl Hop Hpoll Hi Hr Hin Hd Hfirst.
  unfold getEvent_turn. rewrite Hcl, Hop.
  destruct (Z.leb_spec (poll_result answer) 0) as [|_]; [lia|].
  rewrite (scan_fds_deliver hub _ _ (i - 1) revents iev dev); [done| |done| |].
  - rewrite lookup_drop. by replace (1 + (i - 1))%nat with i by lia.
  - rewrite lookup_drop, lookup_take_lt by lia.
    by replace (1 + (i - 1))%nat with i by lia.
  - intros j r e Hj Hrj. rewrite lookup_drop in Hrj.
    apply (Hfirst (1 + j)%nat r e); [lia|done].
Qed.

Lemma getEvent_loop_turn (answers : list PollAnswer) (hub hub' : EventHub)
    (ev : RawEvent) (calls : list SysCall) :
  getEvent_loop answers hub = (Some ev, hub', calls) ->
  exists answer hubT callsT,
    answer ∈ answers /\ getEvent_turn answer hubT = (Some ev, hub', callsT).
Proof.
  revert hub calls. induction answers as [|answer answers IH]; intros hub calls; [done|].
  simpl. destruct (getEvent_turn answer hub) as [[[e|] h] c] eqn:Hturn.
  - intros [= <- <- <-]. exists answer, hub, c. split; [left|done].
  - destruct (getEvent_loop answers h) as [[e' h'] c'] eqn:Hloop.
    intros [= -> -> <-].
    apply IH in Hloop as (a & hT & cT & Hin & Ht).
    exists a, hT, cT. split; [by right|done].
Qed.

(** C4.  Every event [getEvent] delivers that is not a synthetic
    DEVICE_ADDED or DEVICE_REMOVED was read as some [iev] from the device at
    some index of the poll set, and: its type, scan code and value are those
    of [iev]; when the type is EV_KEY, key code and flags are what the layout
    map of that device answers on success and are 0 and 0 when the map
    fails; for every other type the key code is the scan code and the flags
    are 0; and the time is [tv_sec * 10^9 + tv_usec * 10^3] nanoseconds.
    And the event is delivered whatever the map answers: once the hub is
    opened and has no addition or removal left to report, a [getEvent] whose
    [poll] returns with an [input_event] readable on a device, and none on a
    device before it, returns that event, translated as above, without
    changing the registry; in particular an EV_KEY event whose scan code the
    map does not know is returned with key code 0 and flags 0. *)
Theorem getEvent_raw_event (inotify_fd : Z) (entries : option (list DirEvent))
    (answers : list PollAnswer) (hub : EventHub) :
  (forall hub' ev calls,
     getEvent inotify_fd entries answers hub = (Some ev, hub', calls) ->
     outType ev <> DEVICE_ADDED -> outType ev <> DEVICE_REMOVED ->
     exists answer i revents iev dev,
       answer ∈ answers /\
       poll_ready answer !! i = Some (revents, Some iev) /\
       mDevices hub' !! i = Some (Some dev) /\
       (1 <= i < Z.to_nat (mFDCount hub'))%nat /\
       outType ev = type iev /\ outScancode ev = code iev /\
       outValue ev = value iev /\
       (type iev = EV_KEY ->
        (klm_map (layoutMap dev) (code iev)).1 = 0 ->
        (outKeycode ev, outFlags ev) = (klm_map (layoutMap dev) (code iev)).2) /\
       (type iev = EV_KEY ->
        (klm_map (layoutMap dev) (code iev)).1 <> 0 ->
        outKeycode ev = 0 /\ outFlags ev = 0) /\
       (type iev <> EV_KEY -> outKeycode ev = code iev /\ outFlags ev = 0) /\
       (- 2 ^ 31 <= tv_sec iev < 2 ^ 31 -> - 2 ^ 31 <= tv_usec iev < 2 ^ 31 ->
        outWhen ev = tv_sec iev * 10 ^ 9 + tv_usec iev * 10 ^ 3)) /\
  (forall answer i revents iev dev,
     mOpened hub = true ->
     mClosingDevices hub = [] -> mOpeningDevices hub = [] ->
     0 < poll_result answer ->
     (1 <= i < Z.to_nat (mFDCount hub))%nat ->
     poll_ready answer !! i = Some (revents, Some iev) ->
     Z.land revents POLLIN <> 0 ->
     mDevices hub !! i = Some (Some dev) ->
     (forall j r e, (1 <= j < i)%nat -> poll_ready answer !! j = Some (r, e) ->
        Z.land r POLLIN = 0 \/ e = None) ->
     exists ev,
       getEvent inotify_fd entries (answer :: answers) hub = (Some ev, hub, []) /\
       outDeviceId ev = first_keyboard_as_0 hub (id dev) /\
       outType ev = type iev /\ outScancode ev = code iev /\
       outValue ev = value iev /\
       (type iev = EV_KEY ->
        (klm_map (layoutMap dev) (code iev)).1 = 0 ->
        (outKeycode ev, outFlags ev) = (klm_map (layoutMap dev) (code iev)).2) /\
       (type iev = EV_KEY ->
        (klm_map (layoutMap dev) (code iev)).1 <> 0 ->
        outKeycode ev = 0 /\ outFlags ev = 0) /\
       (type iev <> EV_KEY -> outKeycode ev = code iev /\ outFlags ev = 0) /\
       (- 2 ^ 31 <= tv_sec iev < 2 ^ 31 -> - 2 ^ 31 <= tv_usec iev < 2 ^ 31 ->
        outWhen ev = tv_sec iev * 10 ^ 9 + tv_usec iev * 10 ^ 3)).
Proof.
  split.
  - intros hub' ev calls Hget Hadd Hrem.
    assert (Hloop : exists hub0 calls0,
               getEvent_loop answers hub0 = (Some ev, hub', calls0)).
    { unfold getEvent in Hget. destruct (mOpened hub); [eauto|].
      destruct (openPlatformInput _ _ _) as [[ok h] c].
      destruct (getEvent_loop answers _) as [[e h'] c'] eqn:Hloop.
      injection Hget as -> -> <-. eauto. }
    destruct Hloop as (hub0 & calls0 & Hloop).
    apply getEvent_loop_turn in Hloop as (answer & hubT & callsT & Hin & Hturn).
    destruct (getEvent_turn_raw _ _ _ _ _ Hturn Hadd Hrem)
      as (i & revents & iev & dev & Hr & Hd & Hi & -> & _).
    exists answer, i, revents, iev, dev.
    pose proof (translate_event_fields hub' dev iev)
      as (Hty & Hsc & Hval & _ & Hok & Hfail & Hother & Hwhen).
    split; [done|]. split; [done|]. split; [done|]. split; [lia|].
    split; [done|]. split; [done|]. split; [done|]. split; [done|].
    split; [done|]. split; done.
  - intros answer i revents iev dev Hopened Hcl Hop Hpoll Hi Hr Hin Hd Hfirst.
    exists (translate_event hub dev iev). split.
    + unfold getEvent. rewrite Hopened. simpl.
      by rewrite (getEvent_turn_deliver answer hub i revents iev dev).
    + pose proof (translate_event_fields hub dev iev)
        as (Hty & Hsc & Hval & Hdevid & Hok & Hfail & Hother & Hwhen).
      split; [done|]. split; [done|]. split; [done|]. split; [done|].
      split; [done|]. split; [done|]. split; done.
Qed.

(** ** The cached key bitmask *)

Lemma open_device_mDevices (deviceName : string) (fx : Fixture) (hub : EventHub) :
  Forall (fun d => forall dev, d = Some dev -> keyboard_data dev) (mDevices hub) ->
  Forall (fun d => forall dev, d = Some dev -> keyboard_data dev)
         (mDevices (open_device deviceName fx hub).1.2).
Proof.
  intros Hall.
  destruct (open_device_cases deviceName fx hub) as [[c Hc]|(table & Hgrow & [Hc|[Hc|Hc]])];
    rewrite Hc; clear Hc; try done.
  destruct (probe_device _ _ _) as [[[dev|] h] c] eqn:Hprobe.
  - pose proof (probe_device_frame _ _ _ _ _ _ Hprobe) as (_ & Hdevs & _).
    apply probe_device_kept in Hprobe as (_ & _ & _ & _ & _ & Hkb & Hnkb); [|reflexivity].
    unfold register_device. simpl. rewrite Hdevs. simpl.
    apply Forall_insert; [by apply Forall_resize|].
    intros dev' [= <-]. split.
    + intros Hk. rewrite (Hkb Hk). done.
    + intros Hk. apply Hnkb. done.
  - pose proof (probe_device_frame _ _ _ _ _ _ Hprobe) as (_ & Hdevs & _).
    simpl. by rewrite Hdevs.
Qed.

Lemma close_device_mDevices {P : option device_t -> Prop} (deviceName : string)
    (hub : EventHub) :
  Forall P (mDevices hub) -> Forall P (mDevices (close_device deviceName hub).1.2).
Proof.
  intros Hall. unfold close_device.
  destruct (find_device_by_path _ _ _) as [[i dev]|]; [|done].
  assert (Hmoved : Forall P (take (Z.to_nat (mFDCount hub - 1))
            (memmove_down (Z.to_nat i) (Z.to_nat (mFDCount hub - i - 1)) (mDevices hub)))).
  { apply Forall_take. unfold memmove_down.
    repeat apply Forall_app_2; auto using Forall_take, Forall_drop. }
  by destruct (id dev =? mFirstKeyboardId hub).
Qed.

(** In every reachable registry the devices of the poll set are keyboards
    with a cached bitmask or devices with neither bitmask nor loaded map. *)
Lemma reachable_keyboard_data (hub : EventHub) :
  reachable hub ->
  Forall (fun d => forall dev, d = Some dev -> keyboard_data dev) (mDevices hub).
Proof.
  induction 1 as [|hub hub' _ IH Hstep]; [by constructor|].
  destruct Hstep; undelete; simpl; try done.
  - by repeat constructor.
  - by apply open_device_mDevices.
  - by apply close_device_mDevices.
Qed.

Lemma test_scancodes_present (scanCodes array : list Z) :
  test_scancodes scanCodes (Some array) <> inl null_keyBitmask.
Proof. induction scanCodes as [|sc rest IH]; simpl; repeat case_match; done. Qed.

(** Whether [hasKeys] tests a bit of an absent bitmask is decided by what
    [findScancodes] of a map that was never loaded does with the vector it
    is handed.  When every such call fails or leaves the vector empty, no
    test of [hasKeys] reads an absent bitmask. *)
Lemma hasKeys_devices_present (keyCode : Z) (devs : list (option device_t))
    (scanCodes : list Z) :
  (forall keycode out,
     (klm_findScancodes klm_new keycode out).1 <> NO_ERROR \/
     (klm_findScancodes klm_new keycode out).2 = []) ->
  Forall (fun d => forall dev, d = Some dev -> keyboard_data dev) devs ->
  hasKeys_devices keyCode devs scanCodes <> inl null_keyBitmask.
Proof.
  intros Hnew Hall. revert scanCodes.
  induction Hall as [|[dev|] devs Hdev _ IH]; intros scanCodes; simpl; [done| |done].
  destruct (Hdev dev eq_refl) as [Hkb Hnkb].
  destruct (klm_findScancodes (layoutMap dev) keyCode scanCodes) as [err found] eqn:Hfind.
  simpl. destruct (Z.eqb_spec err 0) as [->|Herr]; [|apply IH].
  destruct (keyBitmask dev) as [array|] eqn:Hbm.
  - pose proof (test_scancodes_present found array).
    destruct (test_scancodes found (Some array)) as [[]|[]]; done || apply IH.
  - destruct (is_keyboard dev) eqn:Hk; [by destruct (Hkb eq_refl)|].
    destruct (Hnkb eq_refl) as [_ Hmap]. rewrite Hmap in Hfind.
    destruct (Hnew keyCode scanCodes) as [Hne|Hnil];
      rewrite Hfind in *; simpl in *; [done|].
    subst found. simpl. apply IH.
Qed.

Lemma hasKeys_codes_present (devs : list (option device_t)) (keyCodes : list Z) :
  (forall keycode out,
     (klm_findScancodes klm_new keycode out).1 <> NO_ERROR \/
     (klm_findScancodes klm_new keycode out).2 = []) ->
  Forall (fun d => forall dev, d = Some dev -> keyboard_data dev) devs ->
  hasKeys_codes devs keyCodes <> inl null_keyBitmask.
Proof.
  intros Hnew Hall. induction keyCodes as [|keyCode rest IH]; simpl; [done|].
  pose proof (hasKeys_devices_present keyCode devs [] Hnew Hall).
  destruct (hasKeys_devices keyCode devs []) as [[]|flag]; try done.
  destruct (hasKeys_codes devs rest) as [[]|flags]; done.
Qed.

(** A device without a cached bitmask whose map answers success and a
    vector that is not empty makes [hasKeys] test a bit of the absent
    bitmask. *)
Lemma hasKeys_devices_absent (keyCode : Z) (dev : device_t)
    (rest : list (option device_t)) (scanCodes : list Z) :
  keyBitmask dev = None ->
  (klm_findScancodes (layoutMap dev) keyCode scanCodes).1 = NO_ERROR ->
  (klm_findScancodes (layoutMap dev) keyCode scanCodes).2 <> [] ->
  hasKeys_devices keyCode (Some dev :: rest) scanCodes = inl null_keyBitmask.
Proof.
  intros Hbm Hok Hfound. simpl. rewrite Hok, Hbm. simpl.
  by destruct (klm_findScancodes (layoutMap dev) keyCode scanCodes).2.
Qed.

(** ** The first keyboard *)

Lemma designate_first_keyboard_cases (defaultKeymap : bool) (dev : device_t)
    (hub : EventHub) :
  let hub' := (designate_first_keyboard defaultKeymap dev hub).1 in
  (mFirstKeyboardId hub' = mFirstKeyboardId hub /\
   mHaveFirstKeyboard hub' = mHaveFirstKeyboard hub) \/
  (mFirstKeyboardId hub = 0 /\ mFirstKeyboardId hub' = id dev /\
   mHaveFirstKeyboard hub' = mHaveFirstKeyboard hub) \/
  (mHaveFirstKeyboard hub = false /\ defaultKeymap = false /\
   strstr (name dev) "-keypad" = true /\
   mFirstKeyboardId hub' = id dev /\ mHaveFirstKeyboard hub' = true).
Proof.
  unfold designate_first_keyboard.
  destruct (mHaveFirstKeyboard hub) eqn:Hhave, defaultKeymap,
    (strstr (name dev) "-keypad") eqn:Hstr; simpl;
    try (by right; right);
    destruct (Z.eqb_spec (mFirstKeyboardId hub) 0); simpl; auto.
Qed.

Lemma close_device_first_keyboard (deviceName : string) (hub : EventHub) :
  let r := close_device deviceName hub in
  mHaveFirstKeyboard r.1.2 = mHaveFirstKeyboard hub /\
  (mFirstKeyboardId r.1.2 = mFirstKeyboardId hub \/
   exists dev rest,
     r.1.1 = 0 /\ mClosingDevices r.1.2 = dev :: rest /\
     id dev = mFirstKeyboardId hub /\ mFirstKeyboardId r.1.2 = 0).
Proof.
  unfold close_device.
  destruct (find_device_by_path _ _ _) as [[i dev]|]; [|simpl; auto].
  destruct (Z.eqb_spec (id dev) (mFirstKeyboardId hub)) as [Heq|Hne]; simpl; [|auto].
  split; [done|]. right. exists dev, (mClosingDevices hub). done.
Qed.

(** ** The structure of [close_device] *)

Lemma find_device_by_path_Some (deviceName : string) (devs : list (option device_t))
    (k i : Z) (dev : device_t) :
  find_device_by_path deviceName devs k = Some (i, dev) ->
  k <= i < k + Z.of_nat (length devs) /\
  devs !! Z.to_nat (i - k) = Some (Some dev) /\ path dev = deviceName.
Proof.
  revert k. induction devs as [|d devs IH]; intros k; simpl; [done|].
  assert (Hrest : find_device_by_path deviceName devs (k + 1) = Some (i, dev) ->
    k <= i < k + Z.pos (Pos.of_succ_nat (length devs)) /\
    (d :: devs) !! Z.to_nat (i - k) = Some (Some dev) /\ path dev = deviceName).
  { intros (Hi & Hd & Hp)%IH.
    replace (Z.to_nat (i - k)) with (S (Z.to_nat (i - (k + 1)))) by lia.
    split; [lia|done]. }
  destruct d as [d|]; [|exact Hrest].
  destruct (String.eqb_spec (path d) deviceName) as [Hp|_]; [|exact Hrest].
  intros [= <- <-]. replace (k - k) with 0 by lia. split; [lia|done].
Qed.

(** A record that is on the opening list no more is not relinked. *)
Lemma relink_absent (dev : device_t) (closing opening : list device_t) :
  Forall (fun d => id d <> id dev) opening ->
  relink dev closing opening = opening.
Proof.
  induction 1 as [|d rest Hd _ IH]; simpl; [done|].
  destruct (Z.eqb_spec (id d) (id dev)); [done|]. by rewrite IH.
Qed.

(** [close_device] finds nothing and changes nothing, or removes the device
    at an index [i] of the poll set. *)
Lemma close_device_cases (deviceName : string) (hub : EventHub) :
  close_device deviceName hub = (-1, hub, []) \/
  exists i dev,
    1 <= i < mFDCount hub /\ (Z.to_nat i < length (mDevices hub))%nat /\
    mDevices hub !! Z.to_nat i = Some (Some dev) /\ path dev = deviceName /\
    let hub' := (close_device deviceName hub).1.2 in
    (close_device deviceName hub).1.1 = 0 /\
    mDevicesById hub' = clear_slot (Z.land (id dev) ID_MASK) (mDevicesById hub) /\
    mDevices hub' =
      take (Z.to_nat (mFDCount hub - 1))
        (memmove_down (Z.to_nat i) (Z.to_nat (mFDCount hub - i - 1)) (mDevices hub)) /\
    mFDCount hub' = mFDCount hub - 1 /\
    mClosingDevices hub' = dev :: mClosingDevices hub /\
    mOpeningDevices hub' = relink dev (mClosingDevices hub) (mOpeningDevices hub).
Proof.
  unfold close_device.
  destruct (find_device_by_path _ _ _) as [[i dev]|] eqn:Hfind; [|by left].
  right. exists i, dev.
  apply find_device_by_path_Some in Hfind as (Hi & Hdev & Hpath).
  rewrite lookup_drop in Hdev.
  replace (1 + Z.to_nat (i - 1))%nat with (Z.to_nat i) in Hdev by lia.
  apply lookup_take_Some in Hdev as [Hdev Hlt].
  split; [lia|]. split; [by eapply lookup_lt_Some|]. split; [done|]. split; [done|].
  by destruct (id dev =? mFirstKeyboardId hub).
Qed.

Lemma memmove_down_delete {A} (i : nat) (a : list A) :
  (i < length a)%nat ->
  take (length a - 1) (memmove_down i (length a - i - 1) a) = delete i a.
Proof.
  intros Hi. unfold memmove_down.
  rewrite (take_ge (drop (S i) a)) by (rewrite length_drop; lia).
  rewrite app_assoc, take_app_length'.
  - symmetry. apply delete_take_drop.
  - rewrite length_app, length_take, length_drop. lia.
Qed.

Lemma clear_slot_lookup (c : Z) (ents : list device_ent) (i : nat) :
  clear_slot c ents !! i =
  if decide (i = Z.to_nat c)
  then (fun e => {| device := None; seq := seq e |}) <$> ents !! i
  else ents !! i.
Proof.
  unfold clear_slot. destruct (ents !! Z.to_nat c) as [e|] eqn:He.
  - case_decide as Hi.
    + subst i. rewrite list_lookup_insert_eq by (by eapply lookup_lt_Some).
      by rewrite He.
    + by rewrite list_lookup_insert_ne.
  - case_decide as Hi; [|done]. subst i. by rewrite He.
Qed.

Lemma clear_slot_length (c : Z) (ents : list device_ent) :
  length (clear_slot c ents) = length ents.
Proof. unfold clear_slot. case_match; [apply length_insert | done]. Qed.

(** The identity table and the poll set after [open_device]: untouched; or
    the counter of the slot [devid] advanced and nothing else; or, when 0 is
    returned, the new record in the slot [devid] and in the cell [mFDCount]
    of the poll set. *)
Lemma open_device_state (deviceName : string) (fx : Fixture) (hub : EventHub) :
  let r := open_device deviceName fx hub in
  let devid := first_free_slot (mDevicesById hub) 0 in
  (r.1.1 = -1 /\ mDevicesById r.1.2 = mDevicesById hub /\
   mDevices r.1.2 = mDevices hub /\ mFDCount r.1.2 = mFDCount hub) \/
  exists table e,
    grow_table fx devid hub = Some table /\
    table !! Z.to_nat devid = Some e /\ device e = None /\
    seq e = slot_seq devid (mDevicesById hub) /\
    ((r.1.1 = -1 /\ mDevicesById r.1.2 = bump_seq devid table /\
      mDevices r.1.2 = mDevices hub /\ mFDCount r.1.2 = mFDCount hub) \/
     exists dev,
       r.1.1 = 0 /\
       id dev = Z.lor devid (next_seq (seq e)) /\ path dev = deviceName /\
       mDevicesById r.1.2 =
         <[Z.to_nat devid := {| device := Some dev; seq := next_seq (seq e) |}]>
           (bump_seq devid table) /\
       mDevices r.1.2 =
         <[Z.to_nat (mFDCount hub) := Some dev]>
           (resize (S (Z.to_nat (mFDCount hub))) None (mDevices hub)) /\
       mFDCount r.1.2 = mFDCount hub + 1 /\
       mOpeningDevices r.1.2 = dev :: mOpeningDevices hub).
Proof.
  intros r devid. subst r.
  destruct (open_device_cases deviceName fx hub) as [[c Hc]|(table & Hgrow & [Hc|[Hc|Hc]])];
    [rewrite Hc; by left| | |];
    right; destruct (grow_table_lookup fx hub table Hgrow) as (e & He & Hnone & Hseq);
    exists table, e; (split; [done|]); (split; [done|]); (split; [done|]);
    (split; [done|]); rewrite Hc; clear Hc; [by left|by left|].
  pose proof (bump_seq_lookup _ table e He) as Hb.
  assert (Hs : slot_seq (first_free_slot (mDevicesById hub) 0)
                 (bump_seq (first_free_slot (mDevicesById hub) 0) table)
               = next_seq (seq e)).
  { unfold slot_seq. by rewrite Hb. }
  destruct (probe_device _ _ _) as [[[dev|] h] c] eqn:Hprobe.
  - right. exists dev.
    pose proof (probe_device_frame _ _ _ _ _ _ Hprobe)
      as (Htab & Hdevs & _ & Hcount & Hopening & _).
    apply probe_device_kept in Hprobe as (Hid & Hpath & _); [|reflexivity].
    simpl in *. unfold register_device. simpl.
    rewrite Htab, Hdevs, Hcount, Hopening, Hs. rewrite Hs in Hid. done.
  - left.
    pose proof (probe_device_frame _ _ _ _ _ _ Hprobe) as (Htab & Hdevs & _ & Hcount & _).
    simpl in *. done.
Qed.

Lemma grow_table_length (fx : Fixture) (devid : Z) (hub : EventHub)
    (table : list device_ent) :
  grow_table fx devid hub = Some table ->
  (length (mDevicesById hub) <= length table)%nat.
Proof.
  unfold grow_table. repeat case_match; intros [= <-]; [|done].
  rewrite length_app. simpl. lia.
Qed.

Lemma grow_table_entries (fx : Fixture) (devid : Z) (hub : EventHub)
    (table : list device_ent) (i : nat) (e : device_ent) :
  grow_table fx devid hub = Some table ->
  table !! i = Some e ->
  mDevicesById hub !! i = Some e \/ e = {| device := None; seq := 0 |}.
Proof.
  unfold grow_table. repeat case_match; intros [= <-]; [|by left].
  intros [He|[_ He]]%lookup_app_Some; [by left|right].
  destruct (i - length (mDevicesById hub))%nat as [|n]; simpl in He; [congruence|].
  by destruct n.
Qed.

Lemma canonical_seq_0 : canonical_seq 0.
Proof. exists 0. split; [lia | reflexivity]. Qed.

Lemma canonical_next_seq (v : Z) : canonical_seq (next_seq v).
Proof.
  destruct (next_seq_canonical v) as (s & Hs & Heq). exists s. split; [lia | done].
Qed.

(** The number of slots never decreases. *)
Lemma step_table_length (hub hub' : EventHub) :
  step hub hub' -> mNumDevicesById hub <= mNumDevicesById hub'.
Proof.
  unfold mNumDevicesById. destruct 1; undelete; simpl; try lia.
  - destruct (open_device_state deviceName fx hub)
      as [(_ & -> & _)|(table & e & Hgrow & He & _ & _ &
                        [(_ & -> & _)|(dev & _ & _ & _ & -> & _)])];
      [lia| |]; apply grow_table_length in Hgrow;
      rewrite ?length_insert, bump_seq_length; lia.
  - destruct (close_device_cases deviceName hub)
      as [->|(i & dev & _ & _ & _ & _ & _ & -> & _)]; simpl; [lia|].
    rewrite clear_slot_length. lia.
Qed.

Lemma table_ok_step (hub hub' : EventHub) :
  step hub hub' -> table_ok hub -> table_ok hub'.
Proof.
  intros Hstep Hok. destruct Hstep; undelete; simpl; try done.
  - (* open_device *)
    assert (Hbumped : forall table e0,
      grow_table fx (first_free_slot (mDevicesById hub) 0) hub = Some table ->
      table !! Z.to_nat (first_free_slot (mDevicesById hub) 0) = Some e0 ->
      device e0 = None ->
      forall i e,
        bump_seq (first_free_slot (mDevicesById hub) 0) table !! i = Some e ->
        canonical_seq (seq e) /\
        forall dev, device e = Some dev -> id dev = Z.lor (Z.of_nat i) (seq e)).
    { intros table e0 Hgrow He0 Hnone i e Hi. unfold bump_seq in Hi. rewrite He0 in Hi.
      destruct (decide (i = Z.to_nat (first_free_slot (mDevicesById hub) 0))) as [->|Hne].
      - rewrite list_lookup_insert_eq in Hi by (by eapply lookup_lt_Some).
        injection Hi as <-. simpl. split; [apply canonical_next_seq|].
        intros dev. by rewrite Hnone.
      - rewrite list_lookup_insert_ne in Hi by done.
        destruct (grow_table_entries _ _ _ _ _ _ Hgrow Hi) as [Hold| ->].
        + by apply Hok.
        + split; [apply canonical_seq_0 | done]. }
    destruct (open_device_state deviceName fx hub)
      as [(_ & Htab & _)|(table & e0 & Hgrow & He0 & Hnone & _ &
                          [(_ & Htab & _)|(dev & _ & Hid & _ & Htab & _)])];
      intros i e; rewrite Htab; [apply Hok | by eapply Hbumped |].
    pose proof (first_free_slot_range (mDevicesById hub) 0) as Hr.
    destruct (decide (i = Z.to_nat (first_free_slot (mDevicesById hub) 0))) as [->|Hne].
    + rewrite list_lookup_insert_eq
        by (rewrite bump_seq_length; by eapply lookup_lt_Some).
      intros [= <-]. simpl. split; [apply canonical_next_seq|].
      intros dev' [= <-]. rewrite Hid. f_equal. lia.
    + rewrite list_lookup_insert_ne by done. by eapply Hbumped.
  - (* close_device *)
    destruct (close_device_cases deviceName hub)
      as [->|(i & dev & _ & _ & _ & _ & _ & Htab & _)]; [done|].
    intros j e. rewrite Htab, clear_slot_lookup.
    case_decide; [|apply Hok].
    intros (e' & He' & ->)%fmap_Some. simpl.
    split; [by apply (Hok j e')|done].
Qed.

Lemma reachable_table_ok (hub : EventHub) : reachable hub -> table_ok hub.
Proof.
  induction 1 as [|hub hub' _ IH Hstep]; [by intros i e|].
  by eapply table_ok_step.
Qed.

Lemma poll_set_extend {A} (l : list (option A)) (x : A) :
  <[length l := Some x]> (resize (S (length l)) None l) = l ++ [Some x].
Proof.
  rewrite resize_spec, take_ge by lia.
  replace (S (length l) - length l)%nat with 1%nat by lia. simpl.
  rewrite insert_app_r_alt, Nat.sub_diag by lia. done.
Qed.

Lemma lookup_delete_Some {A} (l : list A) (i j : nat) (x : A) :
  delete i l !! j = Some x ->
  exists j0, j0 <> i /\ l !! j0 = Some x /\ j = (if decide (j0 < i)%nat then j0 else pred j0).
Proof.
  destruct (decide (j < i)%nat) as [Hlt|Hge].
  - rewrite list_lookup_delete_lt by done. intros Hx. exists j.
    split; [lia|]. split; [done|]. by rewrite decide_True.
  - rewrite list_lookup_delete_ge by lia. intros Hx. exists (S j).
    split; [lia|]. split; [done|]. by rewrite decide_False by lia.
Qed.

(** The slot of a record built by [open_device] for the slot [devid]. *)
Lemma new_id_slot (devid v : Z) :
  0 <= devid <= 0xffff -> Z.land (Z.lor devid (next_seq v)) ID_MASK = devid.
Proof.
  intros Hd. destruct (next_seq_canonical v) as (s & Hs & ->).
  apply composite_id_bits; lia.
Qed.

Lemma poll_set_ok_open (deviceName : string) (fx : Fixture) (hub : EventHub) :
  poll_set_ok hub -> poll_set_ok (open_device deviceName fx hub).1.2.
Proof.
  intros [Hlen Hslots].
  pose proof (first_free_slot_range (mDevicesById hub) 0) as Hrange.
  destruct (open_device_state deviceName fx hub)
    as [(_ & Htab & Hdevs & Hcount)|(table & e & Hgrow & He & Hnone & _ &
          [(_ & Htab & Hdevs & Hcount)|
           (dev & _ & Hid & _ & Htab & Hdevs & Hcount & _)])];
    remember (first_free_slot (mDevicesById hub) 0) as devid eqn:Hfirst.
  - unfold poll_set_ok, slot_device, mNumDevicesById. by rewrite Htab, Hdevs, Hcount.
  - pose proof (grow_table_length _ _ _ _ Hgrow) as Hgl.
    unfold poll_set_ok, slot_device, mNumDevicesById. rewrite Htab, Hdevs, Hcount.
    split; [done|]. rewrite bump_seq_length. intros Hbound j dev Hj.
    rewrite bump_seq_slot_device, (grow_table_slot_device _ _ _ _ _ Hgrow).
    apply Hslots; [unfold mNumDevicesById; lia | done].
  - pose proof (grow_table_length _ _ _ _ Hgrow) as Hgl.
    assert (Hn : Z.to_nat (mFDCount hub) = length (mDevices hub)) by lia.
    rewrite Hn, poll_set_extend in Hdevs.
    unfold poll_set_ok, slot_device, mNumDevicesById. rewrite Htab, Hdevs, Hcount.
    split; [rewrite length_app; simpl; lia|].
    rewrite length_insert, bump_seq_length. intros Hbound.
    assert (Hhub : mNumDevicesById hub <= 65536) by (unfold mNumDevicesById; lia).
    assert (Hdevid : 0 <= devid <= 0xffff).
    { apply lookup_lt_Some in He. lia. }
    assert (Hfree : slot_device hub (Z.to_nat devid) = None).
    { rewrite <- (grow_table_slot_device _ _ _ _ _ Hgrow), He. simpl. done. }
    assert (Hnew : Z.land (id dev) ID_MASK = devid)
      by (rewrite Hid; by apply new_id_slot).
    assert (Hfresh : forall j, mDevices hub !! j = Some (Some dev) -> False).
    { intros j Hj. destruct (Hslots Hhub j dev Hj) as [Hs _].
      rewrite Hnew, Hfree in Hs. done. }
    intros j dev' [Hj|[Hj1 Hj2]]%lookup_app_Some.
    + destruct (Hslots Hhub j dev' Hj) as [Hs Huniq].
      assert (Hne : Z.to_nat (Z.land (id dev') ID_MASK) <> Z.to_nat devid).
      { intros Heq. rewrite Heq, Hfree in Hs. done. }
      split.
      * rewrite list_lookup_insert_ne by done.
        rewrite bump_seq_slot_device, (grow_table_slot_device _ _ _ _ _ Hgrow). done.
      * intros j' [Hj'|[_ Hj']]%lookup_app_Some; [by apply Huniq|].
        apply list_lookup_singleton_Some in Hj' as [_ [= ->]].
        by destruct (Hfresh j).
    + apply list_lookup_singleton_Some in Hj2 as [Hj2 [= <-]].
      split.
      * rewrite Hnew, list_lookup_insert_eq
          by (rewrite bump_seq_length; by eapply lookup_lt_Some). done.
      * intros j' [Hj'|[Hj'1 Hj'2]]%lookup_app_Some; [by destruct (Hfresh j')|].
        apply list_lookup_singleton_Some in Hj'2 as [Hj'2 _]. lia.
Qed.

Lemma poll_set_ok_close (deviceName : string) (hub : EventHub) :
  poll_set_ok hub -> poll_set_ok (close_device deviceName hub).1.2.
Proof.
  intros [Hlen Hslots].
  destruct (close_device_cases deviceName hub)
    as [->|(i & dev & Hi & Hilen & Hdev & _ & _ & Htab & Hdevs & Hcount & _)];
    [done|].
  replace (Z.to_nat (mFDCount hub - 1)) with (length (mDevices hub) - 1)%nat in Hdevs by lia.
  replace (Z.to_nat (mFDCount hub - i - 1))
    with (length (mDevices hub) - Z.to_nat i - 1)%nat in Hdevs by lia.
  rewrite memmove_down_delete in Hdevs by done.
  unfold poll_set_ok, slot_device, mNumDevicesById. rewrite Htab, Hdevs, Hcount.
  split; [rewrite length_delete by eauto; lia|].
  rewrite clear_slot_length. intros Hbound.
  destruct (Hslots Hbound _ _ Hdev) as [Hslot_i Huniq_i].
  intros j dev' (j0 & Hne & Hj0 & ->)%lookup_delete_Some.
  destruct (Hslots Hbound _ _ Hj0) as [Hslot Huniq].
  split.
  - rewrite clear_slot_lookup. case_decide as Hc; [|done].
    exfalso. rewrite Hc in Hslot.
    rewrite Hslot_i in Hslot. injection Hslot as <-.
    apply Hne. by apply Huniq_i.
  - intros j' (j1 & Hne1 & Hj1 & ->)%lookup_delete_Some.
    apply Huniq in Hj1 as ->. done.
Qed.

Lemma reachable_poll_set_ok (hub : EventHub) : reachable hub -> poll_set_ok hub.
Proof.
  induction 1 as [|hub hub' _ IH Hstep].
  - split; [done|]. intros _ j dev Hj. simpl in Hj. by rewrite lookup_nil in Hj.
  - destruct Hstep; undelete; try done.
    + split; [done|]. intros _ [|[|j]] dev; done.
    + by apply poll_set_ok_open.
    + by apply poll_set_ok_close.
Qed.

(** ** Stale identifiers *)

Lemma stale_slot_device (hub : EventHub) (deviceId : Z) :
  stale hub deviceId <->
  forall dev, slot_device hub (Z.to_nat (Z.land deviceId ID_MASK)) = Some dev ->
              id dev <> deviceId.
Proof.
  unfold stale, slot_device. split.
  - intros Hst dev Hdev.
    destruct (mDevicesById hub !! _) as [e|] eqn:He; [|done].
    by apply (Hst e dev).
  - intros Hst e dev He Hdev. apply Hst. by rewrite He.
Qed.

Lemma next_seq_changes (v : Z) : canonical_seq v -> next_seq v <> v.
Proof.
  intros (s & Hs & ->). rewrite next_seq_shifted by done.
  intros Heq. apply (f_equal (fun x => Z.shiftr x SEQ_SHIFT)) in Heq.
  rewrite !Z.shiftr_shiftl_l, Z.sub_diag, !Z.shiftl_0_r in Heq
    by (unfold SEQ_SHIFT; lia).
  destruct (Z.eq_dec s 0x7fff) as [->|Hne]; [discriminate|].
  rewrite land_7fff_small in Heq by lia.
  destruct (Z.eqb_spec (s + 1) 0); lia.
Qed.

Lemma lor_seq_inj (c v w : Z) :
  0 <= c <= 0xffff -> canonical_seq v -> canonical_seq w ->
  Z.lor c v = Z.lor c w -> v = w.
Proof.
  intros Hc (s & Hs & ->) (t & Ht & ->) Heq.
  apply (f_equal (fun x => Z.land x SEQ_MASK)) in Heq.
  rewrite !Z.land_lor_distr_l, !shifted_canonical in Heq by done.
  rewrite SEQ_MASK_shifted in Heq. unfold SEQ_SHIFT in Heq at 1 3.
  rewrite !land_small_shifted in Heq by lia. done.
Qed.

(** The identifier of a device that [close_device] has just closed is
    stale, and is still stale after the next [open_device], whether or not
    that call takes the slot. *)
Lemma closed_id_stale (hub : EventHub) (deviceName : string) (dev : device_t)
    (rest : list device_t) :
  reachable hub -> mNumDevicesById hub <= 0x10000 ->
  (close_device deviceName hub).1.1 = 0 ->
  mClosingDevices (close_device deviceName hub).1.2 = dev :: rest ->
  stale (close_device deviceName hub).1.2 (id dev) /\
  forall deviceName' fx,
    stale (open_device deviceName' fx (close_device deviceName hub).1.2).1.2 (id dev).
Proof.
  intros Hreach Hbound Hret Hclosing.
  pose proof (reachable_table_ok hub Hreach) as Htable.
  destruct (reachable_poll_set_ok hub Hreach) as [_ Hslots].
  destruct (close_device_cases deviceName hub)
    as [Hnone|(i & dev0 & _ & _ & Hdev & _ & _ & Htab & _ & _ & Hcl & _)];
    [rewrite Hnone in Hret; discriminate|].
  rewrite Hcl in Hclosing. injection Hclosing as -> _.
  set (hub1 := (close_device deviceName hub).1.2) in *.
  set (c := Z.land (id dev) ID_MASK) in *.
  pose proof (slot_index_range (id dev)) as Hc. fold c in Hc.
  destruct (Hslots Hbound _ _ Hdev) as [Hslot _]. fold c in Hslot.
  unfold slot_device in Hslot.
  destruct (mDevicesById hub !! Z.to_nat c) as [e0|] eqn:He0; [|done].
  simpl in Hslot.
  destruct (Htable _ _ He0) as [Hcanon Hid0]. specialize (Hid0 dev Hslot).
  rewrite Z2Nat.id in Hid0 by lia.
  assert (Hcleared : mDevicesById hub1 !! Z.to_nat c
                     = Some {| device := None; seq := seq e0 |}).
  { rewrite Htab, clear_slot_lookup, decide_True, He0 by done. done. }
  assert (Hfree : slot_device hub1 (Z.to_nat c) = None)
    by (unfold slot_device; by rewrite Hcleared).
  split.
  { apply stale_slot_device. fold c. by rewrite Hfree. }
  intros deviceName' fx. apply stale_slot_device. fold c.
  destruct (open_device_state deviceName' fx hub1)
    as [(_ & Htab' & _)|(table & e & Hgrow & He & Hnone & Hseq &
          [(_ & Htab' & _)|(dev' & _ & Hid' & _ & Htab' & _)])];
    unfold slot_device; rewrite Htab'.
  - fold (slot_device hub1 (Z.to_nat c)). by rewrite Hfree.
  - rewrite bump_seq_slot_device, (grow_table_slot_device _ _ _ _ _ Hgrow).
    by rewrite Hfree.
  - destruct (decide (Z.to_nat c = Z.to_nat (first_free_slot (mDevicesById hub1) 0)))
      as [Heq|Hne].
    + rewrite Heq, list_lookup_insert_eq
        by (rewrite bump_seq_length; by eapply lookup_lt_Some).
      simpl. intros d [= <-]. rewrite Hid', Hid0.
      pose proof (first_free_slot_range (mDevicesById hub1) 0) as Hr.
      assert (Hdevid : first_free_slot (mDevicesById hub1) 0 = c) by lia.
      rewrite Hdevid in *.
      assert (Hv : seq e = seq e0).
      { rewrite Hseq. unfold slot_seq. by rewrite Hcleared. }
      rewrite Hv. intros Hlor.
      apply lor_seq_inj in Hlor; [|lia|apply canonical_next_seq|done].
      by apply (next_seq_changes (seq e0)).
    + rewrite list_lookup_insert_ne by done.
      rewrite bump_seq_slot_device, (grow_table_slot_device _ _ _ _ _ Hgrow).
      by rewrite Hfree.
Qed.

(** ** What the code does where it departs from the specification *)

(** [close_device] never clears a cell at or above [EV_SW]. *)
Lemma release_switches_high (device_id : Z) (switches : list Z) (k : Z) :
  EV_SW <= k ->
  switch_cell (release_switches device_id switches) k = switch_cell switches k.
Proof.
  intros Hk. unfold release_switches.
  assert (Hlow : Forall (fun j => 0 <= j < EV_SW) (seqZ 0 EV_SW)).
  { apply Forall_forall. intros j Hj. apply elem_of_seqZ in Hj. lia. }
  revert switches. induction Hlow as [|j l Hj _ IH]; intros switches; simpl; [done|].
  rewrite IH. unfold release_switch.
  destruct (switches !! Z.to_nat j) as [v|]; [|done].
  destruct (v =? device_id); [|done].
  unfold switch_cell. rewrite list_lookup_insert_ne by lia. done.
Qed.

(** Below [EV_SW] it clears the cells that hold the identifier, and no
    others. *)
Lemma release_switches_low (device_id : Z) (switches : list Z) (k : Z) :
  0 <= k < EV_SW ->
  switch_cell (release_switches device_id switches) k =
  if switch_cell switches k =? device_id then 0 else switch_cell switches k.
Proof.
  intros Hk. unfold release_switches.
  assert (Hgen : forall l, NoDup l -> Forall (fun j => 0 <= j) l -> forall sw,
    switch_cell (foldl (release_switch device_id) sw l) k =
    if decide (k ∈ l)
    then (if switch_cell sw k =? device_id then 0 else switch_cell sw k)
    else switch_cell sw k).
  { clear switches.
    intros l Hnd. induction Hnd as [|j l Hnotin Hnd IH]; intros Hpos switches; simpl; [done|].
    apply Forall_cons in Hpos as [Hj Hpos]. rewrite IH by done.
    assert (Hstep : switch_cell (release_switch device_id switches j) k =
      if decide (k = j)
      then (if switch_cell switches k =? device_id then 0 else switch_cell switches k)
      else switch_cell switches k).
    { unfold release_switch, switch_cell.
      destruct (decide (k = j)) as [Hkj|Hkj].
      - subst j. destruct (switches !! Z.to_nat k) as [v|] eqn:Hv; simpl.
        + destruct (v =? device_id); [|by rewrite Hv].
          rewrite list_lookup_insert_eq by (by eapply lookup_lt_Some). done.
        + rewrite Hv. simpl. by destruct device_id.
      - destruct (switches !! Z.to_nat j) as [v|]; [|done].
        destruct (v =? device_id); [|done].
        rewrite list_lookup_insert_ne by lia. done. }
    rewrite Hstep.
    destruct (decide (k = j)) as [->|Hne].
    - rewrite decide_False by done. rewrite decide_True by left. done.
    - destruct (decide (k ∈ l)) as [Hin|Hnin].
      + rewrite decide_True by (by right). done.
      + rewrite decide_False; [done|]. by intros [?|?]%elem_of_cons. }
  rewrite Hgen.
  - rewrite decide_True; [done|]. apply elem_of_seqZ. lia.
  - apply NoDup_seqZ.
  - apply Forall_forall. intros j Hj. apply elem_of_seqZ in Hj. lia.
Qed.

(** The path of lines 646-652: the table is full, [realloc] fails, and
    [open_device] returns -1 without a system call and without a change. *)
Lemma open_device_table_oom (deviceName : string) (fx : Fixture) (hub : EventHub) :
  0 <= open_O_RDWR fx ->
  ioctl_EVIOCGVERSION fx = true -> ioctl_EVIOCGID fx = true ->
  existsb (String.eqb (default EmptyString (ioctl_EVIOCGNAME fx)))
          (mExcludedDevices hub) = false ->
  first_free_slot (mDevicesById hub) 0 = mNumDevicesById hub ->
  realloc_mDevicesById fx = false ->
  open_device deviceName fx hub = (-1, hub, []).
Proof.
  intros Hfd Hver Hid Hexcl Hfull Hoom. unfold open_device, grow_table.
  destruct (Z.ltb_spec (open_O_RDWR fx) 0) as [|_]; [lia|].
  rewrite Hver, Hid, Hexcl, Hfull, Hoom. simpl.
  destruct (Z.geb_spec (mNumDevicesById hub) (mNumDevicesById hub)); [done|lia].
Qed.

Lemma classify_keys_headset (dev : device_t) :
  Z.land (classes (classify_keys dev)) CLASS_HEADSET = Z.land (classes dev) CLASS_HEADSET.
Proof.
  unfold classify_keys, add_class.
  repeat case_match; simpl; rewrite ?Z.land_lor_distr_l, ?Z.lor_0_r; reflexivity.
Qed.

Lemma setup_keyboard_frame (fx : Fixture) (dev dev' : device_t) (hub hub' : EventHub)
    (calls : list SysCall) :
  setup_keyboard fx dev hub = (dev', hub', calls) ->
  mSwitches hub' = mSwitches hub /\
  Z.land (classes dev') CLASS_HEADSET = Z.land (classes dev) CLASS_HEADSET.
Proof.
  unfold setup_keyboard, designate_first_keyboard. intros Heq.
  destruct (is_keyboard dev); [|by simplify_eq].
  repeat case_match; simplify_eq; rewrite classify_keys_headset; done.
Qed.

(** Lines 787-788: a device that [open_device] keeps is marked HEADSET
    exactly when the cell of SW_HEADPHONE_INSERT is not empty once its own
    switches are claimed, whichever device the cell names. *)
Lemma probe_device_headset (fx : Fixture) (dev dev' : device_t) (hub hub' : EventHub)
    (calls : list SysCall) :
  classes dev = 0 ->
  probe_device fx dev hub = (Some dev', hub', calls) ->
  mSwitches hub' = claim_switches (ioctl_EVIOCGBIT_SW fx) (id dev) (mSwitches hub) /\
  (Z.land (classes dev') CLASS_HEADSET <> 0 <->
   switch_cell (mSwitches hub') SW_HEADPHONE_INSERT <> 0).
Proof.
  intros Hc. unfold probe_device.
  destruct (_ && negb (new_keyBitmask fx)); [done|].
  match goal with |- context [setup_keyboard fx ?d ?h] =>
    destruct (setup_keyboard fx d h) as [[d3 h3] c3] eqn:Hsetup end.
  apply setup_keyboard_frame in Hsetup as [Hsw Hbit]. simpl in Hsw, Hbit.
  destruct (classes d3 =? 0); [done|]. intros [= <- <- <-]. rewrite Hsw, Hbit.
  split; [done|].
  pose proof (classify_keyboard_values (ioctl_EVIOCGBIT_KEY fx)
    (ioctl_buffer (bitmask_size KEY_MAX) (ioctl_EVIOCGBIT_KEY fx))) as Hck.
  destruct (Z.eqb_spec (switch_cell
    (claim_switches (ioctl_EVIOCGBIT_SW fx) (id dev) (mSwitches hub))
    SW_HEADPHONE_INSERT) 0) as [Hcell|Hcell]; simpl; rewrite Hc.
  - split; [|done]. intros Hne. exfalso. apply Hne.
    unfold classify_pointer, classify_touch.
    destruct Hck as [-> | ->]; repeat case_match; reflexivity.
  - split; [done|]. intros _.
    unfold classify_pointer, classify_touch.
    destruct Hck as [-> | ->]; repeat case_match; done.
Qed.

(** In a reachable registry every slot, and so the slot [open_device] takes
    next, stores a counter [s << 16] with [s] of 15 bits. *)
Lemma reachable_slot_seq (hub : EventHub) (devid : Z) :
  reachable hub -> canonical_seq (slot_seq devid (mDevicesById hub)).
Proof.
  intros Hreach. unfold slot_seq.
  destruct (mDevicesById hub !! Z.to_nat devid) as [e|] eqn:He.
  - by destruct (reachable_table_ok hub Hreach _ _ He).
  - apply canonical_seq_0.
Qed.

(** * More properties of the registry *)

(** ** What [open_device] and [close_device] leave alone *)

Lemma open_device_frame (deviceName : string) (fx : Fixture) (hub : EventHub) :
  let hub' := (open_device deviceName fx hub).1.2 in
  mError hub' = mError hub /\ mOpened hub' = mOpened hub /\
  mExcludedDevices hub' = mExcludedDevices hub /\
  mClosingDevices hub' = mClosingDevices hub.
Proof.
  destruct (open_device_cases deviceName fx hub) as [[c Hc]|(table & Hgrow & [Hc|[Hc|Hc]])];
    rewrite Hc; clear Hc; try done.
  destruct (probe_device _ _ _) as [[[dev|] h] c] eqn:Hprobe;
    apply probe_device_frame in Hprobe
      as (_ & _ & _ & _ & _ & Hcl & Hex & Hop & Her); simpl in *; done.
Qed.

Lemma close_device_frame (deviceName : string) (hub : EventHub) :
  let hub' := (close_device deviceName hub).1.2 in
  mError hub' = mError hub /\ mOpened hub' = mOpened hub /\
  mExcludedDevices hub' = mExcludedDevices hub.
Proof.
  unfold close_device. destruct (find_device_by_path _ _ _) as [[i dev]|]; [|done].
  by destruct (id dev =? mFirstKeyboardId hub).
Qed.

(** The array [mFDs] after [open_device]: as it was, or reallocated to
    [mFDCount + 1] cells with the new descriptor in the last. *)
Lemma open_device_mFDs (deviceName : string) (fx : Fixture) (hub : EventHub) :
  let hub' := (open_device deviceName fx hub).1.2 in
  mFDs hub' = mFDs hub \/
  mFDs hub' =
    <[Z.to_nat (mFDCount hub) := {| fd := open_O_RDWR fx; events := POLLIN |}]>
      (resize (S (Z.to_nat (mFDCount hub)))
              {| fd := open_O_RDWR fx; events := POLLIN |} (mFDs hub)).
Proof.
  destruct (open_device_cases deviceName fx hub) as [[c Hc]|(table & Hgrow & [Hc|[Hc|Hc]])];
    rewrite Hc; clear Hc; try (by left).
  right.
  destruct (probe_device _ _ _) as [[[dev|] h] c] eqn:Hprobe;
    apply probe_device_frame in Hprobe as (_ & _ & Hfds & _); simpl in *; done.
Qed.

(** The switch table after [open_device]: as it was, or with the cells the
    device claims. *)
Lemma open_device_mSwitches (deviceName : string) (fx : Fixture) (hub : EventHub) :
  let hub' := (open_device deviceName fx hub).1.2 in
  mSwitches hub' = mSwitches hub \/
  exists device_id,
    mSwitches hub' = claim_switches (ioctl_EVIOCGBIT_SW fx) device_id (mSwitches hub).
Proof.
  destruct (open_device_cases deviceName fx hub) as [[c Hc]|(table & Hgrow & [Hc|[Hc|Hc]])];
    rewrite Hc; clear Hc; try (by left).
  match goal with |- context [probe_device fx ?d ?h] =>
    assert (Hsw : mSwitches (probe_device fx d h).1.2 = mSwitches hub \/
                  exists device_id, mSwitches (probe_device fx d h).1.2 =
                    claim_switches (ioctl_EVIOCGBIT_SW fx) device_id (mSwitches hub));
    [|destruct (probe_device fx d h) as [[[dev|] h'] c]; exact Hsw]
  end.
  unfold probe_device.
  destruct (_ && negb (new_keyBitmask fx)); [by left|].
  match goal with |- context [setup_keyboard fx ?d ?h] =>
    destruct (setup_keyboard fx d h) as [[d3 h3] c3] eqn:Hsetup end.
  apply setup_keyboard_frame in Hsetup as [Hsw _]. simpl in Hsw.
  right. eexists. destruct (classes d3 =? 0); simpl; exact Hsw.
Qed.

(** ** Excluded devices *)

Lemma step_excluded (hub hub' : EventHub) (excluded : string) :
  step hub hub' ->
  In excluded (mExcludedDevices hub) -> In excluded (mExcludedDevices hub').
Proof.
  intros Hstep Hin. destruct Hstep; undelete; simpl; try done.
  - apply in_or_app. by left.
  - by rewrite (proj1 (proj2 (proj2 (open_device_frame deviceName fx hub)))).
  - by rewrite (proj2 (proj2 (close_device_frame deviceName hub))).
Qed.

Lemma open_device_excluded (deviceName : string) (fx : Fixture) (hub : EventHub) :
  0 <= open_O_RDWR fx ->
  ioctl_EVIOCGVERSION fx = true -> ioctl_EVIOCGID fx = true ->
  In (default EmptyString (ioctl_EVIOCGNAME fx)) (mExcludedDevices hub) ->
  open_device deviceName fx hub = (-1, hub, [sys_close (open_O_RDWR fx)]).
Proof.
  intros Hfd Hver Hid Hin. unfold open_device.
  destruct (Z.ltb_spec (open_O_RDWR fx) 0) as [|_]; [lia|].
  rewrite Hver, Hid. simpl.
  assert (Hex : existsb (String.eqb (default EmptyString (ioctl_EVIOCGNAME fx)))
                  (mExcludedDevices hub) = true).
  { apply existsb_exists. eexists. split; [exact Hin|]. apply String.eqb_refl. }
  by rewrite Hex.
Qed.

(** X1.  Once [addExcludedDevice] has been given a name, the name stays
    excluded whatever the hub does next: every [open_device] of a device
    file that opens, answers the version and id ioctls and reports that
    name closes the descriptor, returns -1 and leaves the registry as it
    is. *)
Theorem excluded_device_rejected (excluded deviceName : string) (fx : Fixture)
    (hub hub' : EventHub) :
  steps (addExcludedDevice excluded hub) hub' ->
  0 <= open_O_RDWR fx ->
  ioctl_EVIOCGVERSION fx = true -> ioctl_EVIOCGID fx = true ->
  default EmptyString (ioctl_EVIOCGNAME fx) = excluded ->
  open_device deviceName fx hub' = (-1, hub', [sys_close (open_O_RDWR fx)]).
Proof.
  intros Hsteps Hfd Hver Hid Hname.
  apply open_device_excluded; try done. rewrite Hname.
  clear Hfd Hver Hid Hname.
  remember (addExcludedDevice excluded hub) as h0 eqn:Hh0.
  induction Hsteps as [h|h1 h2 h3 _ IH Hstep].
  - subst. simpl. apply in_or_app. right. by left.
  - eapply step_excluded; [done|]. by apply IH.
Qed.

(** ** The switch table, continued *)

Lemma claim_switch_cell (sw_bitmask : list Z) (device_id : Z) (switches : list Z)
    (i k : Z) :
  0 <= i -> 0 <= k ->
  switch_cell (claim_switch sw_bitmask device_id switches i) k = switch_cell switches k \/
  (switch_cell switches k = 0 /\ i = k /\ bit_set k sw_bitmask = true /\
   switch_cell (claim_switch sw_bitmask device_id switches i) k = device_id).
Proof.
  intros Hi Hk. unfold claim_switch.
  destruct (bit_set i sw_bitmask) eqn:Hbit; [|by left].
  destruct (switches !! Z.to_nat i) as [v|] eqn:Hv; [|by left].
  destruct (Z.eq_dec v 0) as [->|Hne]; [|by destruct v; left].
  unfold switch_cell. destruct (Z.eq_dec i k) as [->|Hik].
  - right. rewrite Hv, list_lookup_insert_eq by (by eapply lookup_lt_Some). done.
  - left. by rewrite list_lookup_insert_ne by lia.
Qed.

Lemma claim_switches_cell (answer : option (list Z)) (device_id : Z)
    (switches : list Z) (k : Z) :
  0 <= k ->
  switch_cell (claim_switches answer device_id switches) k = switch_cell switches k \/
  (switch_cell switches k = 0 /\ k < SW_MAX /\
   bit_set k (ioctl_buffer (bitmask_size SW_MAX) answer) = true).
Proof.
  intros Hk. unfold claim_switches. destruct answer as [bytes|]; [|by left].
  set (buffer := ioctl_buffer (bitmask_size SW_MAX) (Some bytes)).
  assert (Hrange : Forall (fun i => 0 <= i < SW_MAX) (seqZ 0 SW_MAX)).
  { apply Forall_forall. intros i Hi. apply elem_of_seqZ in Hi. lia. }
  revert switches. induction Hrange as [|i l Hi _ IH]; intros switches; simpl; [by left|].
  destruct (claim_switch_cell buffer device_id switches i k)
    as [Hstep|(H0 & Heq & Hb & _)]; [lia|lia| |].
  - destruct (IH (claim_switch buffer device_id switches i)) as [Hfin|(Hz & Hlt & Hbit)].
    + left. by rewrite Hfin.
    + right. by rewrite <- Hstep.
  - right. subst i. split; [done|]. split; [lia|done].
Qed.

(** X2.  [open_device] never takes a switch away from its claimant: a cell
    of the switch table changes only when it was empty, its switch is below
    SW_MAX and the device reports it. *)
Theorem open_device_keeps_claims (deviceName : string) (fx : Fixture)
    (hub : EventHub) (k : Z) :
  0 <= k ->
  switch_cell (mSwitches (open_device deviceName fx hub).1.2) k
  = switch_cell (mSwitches hub) k \/
  (switch_cell (mSwitches hub) k = 0 /\ k < SW_MAX /\
   bit_set k (ioctl_buffer (bitmask_size SW_MAX) (ioctl_EVIOCGBIT_SW fx)) = true).
Proof.
  intros Hk.
  destruct (open_device_mSwitches deviceName fx hub) as [->|[device_id ->]]; [by left|].
  by apply claim_switches_cell.
Qed.

(** ** Slots *)

Lemma first_free_slot_occupied (ents : list device_ent) (k i : Z) :
  k <= i < first_free_slot ents k ->
  exists e dev, ents !! Z.to_nat (i - k) = Some e /\ device e = Some dev.
Proof.
  revert k. induction ents as [|e0 ents IH]; intros k; simpl; [lia|].
  destruct (device e0) as [d|] eqn:Hd; [|lia]. intros Hi.
  destruct (Z.eq_dec i k) as [->|Hne].
  - exists e0, d. by replace (k - k) with 0 by lia.
  - destruct (IH (k + 1)) as (e & dev & He & Hdev); [lia|].
    exists e, dev.
    replace (Z.to_nat (i - k)) with (S (Z.to_nat (i - (k + 1)))) by lia. done.
Qed.

(** X3.  A successful [open_device] gives the new record the lowest free
    slot of the identity table: every slot below it is occupied, the slot
    itself was free and holds the new record afterwards; the table grows by
    at most one slot and [close_device] never shrinks it. *)
Theorem open_device_lowest_slot (deviceName : string) (fx : Fixture)
    (hub hub' : EventHub) (calls : list SysCall) :
  open_device deviceName fx hub = (0, hub', calls) ->
  exists devid dev,
    mOpeningDevices hub' = dev :: mOpeningDevices hub /\
    slot_device hub' devid = Some dev /\
    slot_device hub devid = None /\
    (forall i, (i < devid)%nat -> is_Some (slot_device hub i)) /\
    mNumDevicesById hub <= mNumDevicesById hub' <= mNumDevicesById hub + 1 /\
    forall name,
      mNumDevicesById (close_device name hub').1.2 = mNumDevicesById hub'.
Proof.
  intros Hopen.
  pose proof (first_free_slot_range (mDevicesById hub) 0) as Hrange.
  destruct (open_device_state deviceName fx hub)
    as [(Hret & _)|(table & e & Hgrow & He & Hnone & _ &
          [(Hret & _)|(dev & _ & _ & _ & Htab & _ & _ & Hopening)])];
    rewrite Hopen in *; simpl in *; try discriminate.
  exists (Z.to_nat (first_free_slot (mDevicesById hub) 0)), dev.
  split; [done|]. split.
  { unfold slot_device. rewrite Htab, list_lookup_insert_eq
      by (rewrite bump_seq_length; by eapply lookup_lt_Some). done. }
  split.
  { by rewrite <- (grow_table_slot_device _ _ _ _ _ Hgrow), He. }
  split.
  { intros i Hi.
    destruct (first_free_slot_occupied (mDevicesById hub) 0 (Z.of_nat i))
      as (e' & dev' & He' & Hdev'); [lia|].
    replace (Z.to_nat (Z.of_nat i - 0)) with i in He' by lia.
    unfold slot_device. rewrite He'. simpl. by rewrite Hdev'. }
  split.
  { unfold mNumDevicesById. rewrite Htab, length_insert, bump_seq_length.
    pose proof (grow_table_length _ _ _ _ Hgrow) as Hlen.
    assert (length table <= S (length (mDevicesById hub)))%nat; [|lia].
    revert Hgrow. unfold grow_table. repeat case_match; intros [= <-]; [|lia].
    rewrite length_app. simpl. lia. }
  intros name. unfold mNumDevicesById.
  destruct (close_device_cases name hub')
    as [->|(i & d & _ & _ & _ & _ & _ & -> & _)]; [done|].
  by rewrite clear_slot_length.
Qed.

(** ** Failed opens *)

Lemma is_keyboard_classes (dev : device_t) : is_keyboard dev = true -> classes dev <> 0.
Proof.
  unfold is_keyboard. intros Hk Hz. rewrite Hz in Hk. discriminate.
Qed.

Lemma probe_device_given_up (fx : Fixture) (dev : device_t) (hub hub' : EventHub)
    (calls : list SysCall) :
  probe_device fx dev hub = (None, hub', calls) ->
  mFirstKeyboardId hub' = mFirstKeyboardId hub /\
  mHaveFirstKeyboard hub' = mHaveFirstKeyboard hub.
Proof.
  unfold probe_device.
  destruct (_ && negb (new_keyBitmask fx)); [by intros [= <- <-]|].
  unfold setup_keyboard.
  match goal with |- context [if is_keyboard ?d then _ else _] =>
    destruct (is_keyboard d) eqn:Hk; set (d2 := d) in * end.
  - destruct (designate_first_keyboard _ _ _) as [h c].
    match goal with |- context [classify_keys ?d] =>
      pose proof (classify_keys_is_keyboard d) as Hck; set (d3 := d) in * end.
    assert (Hk3 : is_keyboard d3 = true) by exact Hk.
    rewrite Hk3 in Hck. apply is_keyboard_classes in Hck.
    apply Z.eqb_neq in Hck. by rewrite Hck.
  - destruct (classes d2 =? 0); [|done]. by intros [= <- <-].
Qed.

(** [open_device] leaves the ghost flag as it is, except on the way out of
    lines 666-671 when one of the two [realloc]s failed and the other moved
    its block. *)
Lemma open_device_mDangling (deviceName : string) (fx : Fixture) (hub : EventHub) :
  let r := open_device deviceName fx hub in
  mDangling r.1.2 = mDangling hub \/
  (r.1.1 = -1 /\ mDangling r.1.2 = true /\
   realloc_mFDs fx && realloc_mDevices fx = false /\
   (realloc_mFDs fx && realloc_mFDs_moved fx)
   || (realloc_mDevices fx && realloc_mDevices_moved fx) = true).
Proof.
  unfold open_device.
  destruct (open_O_RDWR fx <? 0); [by left|].
  destruct (ioctl_EVIOCGVERSION fx); simpl; [|by left].
  destruct (ioctl_EVIOCGID fx); simpl; [|by left].
  destruct (existsb _ _); [by left|].
  destruct (grow_table _ _ _) as [table|]; [|by left].
  destruct (realloc_mFDs fx && realloc_mDevices fx) eqn:Hboth; simpl.
  - destruct (new_device_t fx); simpl; [|by left].
    match goal with |- context [probe_device ?f ?d ?h] =>
      pose proof (probe_device_mDangling f d h) as Hp;
      destruct (probe_device f d h) as [[[dev|] h'] c] end; by left.
  - unfold realloc_failed.
    destruct (_ || _) eqn:Hmoved; simpl; [by right|by left].
Qed.

(** X4.  [open_device] returns 0 or -1, and when it returns -1 no device has
    been added: the number of descriptors polled, the records of the
    identity table, the list of devices to report and the first-keyboard
    designation are as before.  The arrays of the poll set are as before as
    well, unless one of the two [realloc]s of lines 664-665 failed and the
    other moved its block: then [mFDs] or [mDevices] points to the block
    that was freed. *)
Theorem open_device_failure (deviceName : string) (fx : Fixture) (hub : EventHub) :
  let r := open_device deviceName fx hub in
  (r.1.1 = 0 \/ r.1.1 = -1) /\
  (r.1.1 = -1 ->
   mFDCount r.1.2 = mFDCount hub /\
   mOpeningDevices r.1.2 = mOpeningDevices hub /\
   (forall i, slot_device r.1.2 i = slot_device hub i) /\
   mFirstKeyboardId r.1.2 = mFirstKeyboardId hub /\
   mHaveFirstKeyboard r.1.2 = mHaveFirstKeyboard hub /\
   ((mDangling r.1.2 = mDangling hub /\ mDevices r.1.2 = mDevices hub) \/
    (mDangling r.1.2 = true /\
     realloc_mFDs fx && realloc_mDevices fx = false /\
     (realloc_mFDs fx && realloc_mFDs_moved fx)
     || (realloc_mDevices fx && realloc_mDevices_moved fx) = true))).
Proof.
  pose proof (open_device_mDangling deviceName fx hub) as Hdangling.
  destruct (open_device_cases deviceName fx hub) as [[c Hc]|(table & Hgrow & [Hc|[Hc|Hc]])];
    simpl in *; rewrite Hc in *; clear Hc; simpl in *.
  - split; [by right|]. intros _. repeat split; try done. by left.
  - split; [by right|]. intros _.
    split; [done|]. split; [done|]. split; [|split; [done|split; [done|]]].
    + intros i. unfold slot_device at 1. simpl.
      rewrite bump_seq_slot_device. by eapply grow_table_slot_device.
    + destruct Hdangling as [Hd|(_ & Hd & Hr)]; [by left|by right].
  - split; [by right|]. intros _.
    split; [done|]. split; [done|]. split; [|split; [done|split; [done|]]].
    + intros i. unfold slot_device at 1. simpl.
      rewrite bump_seq_slot_device. by eapply grow_table_slot_device.
    + destruct Hdangling as [Hd|(_ & Hd & Hr)]; [by left|by right].
  - destruct (probe_device _ _ _) as [[[dev|] h] c] eqn:Hprobe; simpl in *.
    + split; [by left|done].
    + split; [by right|]. intros _.
      pose proof (probe_device_frame _ _ _ _ _ _ Hprobe)
        as (Htab & Hdevs & _ & Hcount & Hopening & _).
      apply probe_device_given_up in Hprobe as [Hfirst Hhave]. simpl in *.
      split; [done|]. split; [done|]. split; [|split; [done|split; [done|]]].
      * intros i. unfold slot_device at 1. rewrite Htab.
        rewrite bump_seq_slot_device. by eapply grow_table_slot_device.
      * destruct Hdangling as [Hd|(_ & Hd & Hr)]; [by left|by right].
Qed.

(** ** The records of the identity table *)

Lemma next_seq_nonzero (v : Z) : next_seq v <> 0.
Proof.
  destruct (next_seq_canonical v) as (s & Hs & ->). intros H0.
  apply Z.shiftl_eq_0_iff in H0; [lia | unfold SEQ_SHIFT; lia].
Qed.

(** The record a successful [open_device] makes. *)
Lemma open_device_new_record (deviceName : string) (fx : Fixture)
    (hub hub' : EventHub) (calls : list SysCall) :
  open_device deviceName fx hub = (0, hub', calls) ->
  exists dev,
    mOpeningDevices hub' = dev :: mOpeningDevices hub /\
    path dev = deviceName /\
    name dev = default EmptyString (ioctl_EVIOCGNAME fx) /\
    classes dev <> 0 /\ id dev <> 0 /\ keyboard_data dev.
Proof.
  intros Hopen.
  destruct (open_device_cases deviceName fx hub) as [[c Hc]|(table & Hgrow & [Hc|[Hc|Hc]])];
    try congruence.
  rewrite Hc in Hopen. clear Hc.
  apply grow_table_lookup in Hgrow as (e & He & _ & _).
  pose proof (bump_seq_lookup _ table e He) as Hb.
  destruct (probe_device _ _ _) as [[[dev|] h] c] eqn:Hprobe; [|congruence].
  injection Hopen as <- <-.
  pose proof (probe_device_frame _ _ _ _ _ _ Hprobe) as (_ & _ & _ & _ & Hopening & _).
  apply probe_device_kept in Hprobe
    as (Hid & Hpath & Hname & Hclasses & _ & Hkb & Hnkb); [|reflexivity].
  simpl in *. exists dev. unfold register_device. simpl. rewrite Hopening.
  split; [done|]. split; [done|]. split; [done|]. split; [done|]. split.
  - rewrite Hid. unfold slot_seq. rewrite Hb. simpl.
    intros H0. apply Z.lor_eq_0_iff in H0 as [_ H0]. by apply next_seq_nonzero in H0.
  - split; [intros Hk; by rewrite (Hkb Hk)|done].
Qed.

Lemma records_ok_step (hub hub' : EventHub) :
  step hub hub' -> records_ok hub -> records_ok hub'.
Proof.
  intros Hstep Hok. destruct Hstep; undelete; try done.
  - destruct (open_device deviceName fx hub) as [[ret h] c] eqn:Hopen.
    pose proof (open_device_state deviceName fx hub) as Hstate.
    rewrite Hopen in Hstate. simpl in *.
    destruct Hstate
      as [(_ & Htab & _)|(table & e & Hgrow & He & _ & _ &
            [(_ & Htab & _)|(dev & -> & _ & _ & Htab & _ & _ & Hopening)])];
      intros i d; unfold slot_device; rewrite Htab.
    + apply Hok.
    + rewrite bump_seq_slot_device, (grow_table_slot_device _ _ _ _ _ Hgrow).
      apply Hok.
    + destruct (open_device_new_record _ _ _ _ _ Hopen)
        as (dev' & Hopening' & _ & _ & Hclasses & Hid & Hkb).
      rewrite Hopening in Hopening'. injection Hopening' as <-.
      destruct (decide (i = Z.to_nat (first_free_slot (mDevicesById hub) 0)))
        as [->|Hne].
      * rewrite list_lookup_insert_eq
          by (rewrite bump_seq_length; by eapply lookup_lt_Some).
        simpl. by intros [= <-].
      * rewrite list_lookup_insert_ne by done.
        rewrite bump_seq_slot_device, (grow_table_slot_device _ _ _ _ _ Hgrow).
        apply Hok.
  - destruct (close_device_cases deviceName hub)
      as [->|(i & dev & _ & _ & _ & _ & _ & Htab & _)]; [done|].
    intros j d. unfold slot_device. rewrite Htab, clear_slot_lookup.
    case_decide; [|apply Hok].
    by destruct (mDevicesById hub !! j).
Qed.

Lemma reachable_records_ok (hub : EventHub) : reachable hub -> records_ok hub.
Proof.
  induction 1 as [|hub hub' _ IH Hstep]; [by intros [|i] dev|].
  by eapply records_ok_step.
Qed.

Lemma getDevice_slot (hub : EventHub) (deviceId : Z) (dev : device_t) :
  getDevice hub deviceId = Some dev -> exists i, slot_device hub i = Some dev.
Proof.
  unfold getDevice.
  set (X := if deviceId =? 0 then mFirstKeyboardId hub else deviceId).
  destruct (_ || _); [done|].
  destruct (mDevicesById hub !! Z.to_nat (Z.land X ID_MASK)) as [[[d|] s]|] eqn:He;
    try done.
  destruct (id d =? X); [|done]. intros [= ->].
  exists (Z.to_nat (Z.land X ID_MASK)). unfold slot_device. by rewrite He.
Qed.

(** X5.  In every reachable registry an open device has at least one class,
    so [getDeviceClasses] returns 0 exactly for the identifiers that
    [getDevice] does not find. *)
Theorem getDeviceClasses_0 (hub : EventHub) (deviceId : Z) :
  reachable hub ->
  getDeviceClasses hub deviceId = 0 <-> getDevice hub deviceId = None.
Proof.
  intros Hreach. unfold getDeviceClasses.
  destruct (getDevice hub deviceId) as [dev|] eqn:Hget; [|done].
  split; [|done]. intros Hz. exfalso.
  destruct (getDevice_slot hub deviceId dev Hget) as [i Hslot].
  by destruct (reachable_records_ok hub Hreach i dev Hslot).
Qed.

(** ** Lookup after [open_device] and [close_device] *)

Lemma getDevice_Some_slot (hub : EventHub) (deviceId : Z) (dev : device_t) :
  deviceId <> 0 ->
  getDevice hub deviceId = Some dev <->
  slot_device hub (Z.to_nat (Z.land deviceId ID_MASK)) = Some dev /\ id dev = deviceId.
Proof.
  intros Hne. rewrite getDevice_Some by done. unfold slot_device, mNumDevicesById. split.
  - intros (_ & (e & He & Hd) & Hid). by rewrite He.
  - intros [Hslot Hid].
    destruct (mDevicesById hub !! _) as [e|] eqn:He; [|done].
    pose proof (slot_index_range deviceId).
    split; [apply lookup_lt_Some in He; lia|]. split; [|done]. by exists e.
Qed.

Lemma option_ext {A} (x y : option A) :
  (forall a, x = Some a <-> y = Some a) -> x = y.
Proof.
  intros Hxy. destruct x as [a|], y as [b|]; try done.
  - by apply Hxy.
  - symmetry. by apply (Hxy a).
  - by apply (Hxy b).
Qed.

Lemma open_device_slot_device (deviceName : string) (fx : Fixture) (hub : EventHub)
    (i : nat) (dev : device_t) :
  slot_device hub i = Some dev ->
  slot_device (open_device deviceName fx hub).1.2 i = Some dev.
Proof.
  intros Hslot.
  destruct (open_device_state deviceName fx hub)
    as [(_ & Htab & _)|(table & e & Hgrow & He & Hnone & _ &
          [(_ & Htab & _)|(d & _ & _ & _ & Htab & _)])];
    unfold slot_device; rewrite Htab; [done| |].
  - by rewrite bump_seq_slot_device, (grow_table_slot_device _ _ _ _ _ Hgrow).
  - destruct (decide (i = Z.to_nat (first_free_slot (mDevicesById hub) 0))) as [->|Hne].
    + rewrite <- (grow_table_slot_device _ _ _ _ _ Hgrow), He in Hslot.
      simpl in Hslot. congruence.
    + rewrite list_lookup_insert_ne by done.
      by rewrite bump_seq_slot_device, (grow_table_slot_device _ _ _ _ _ Hgrow).
Qed.

(** X6.  The identifier a successful [open_device] gives the new record
    looks the record up: while the table has fewer than 0x10000 slots, the
    identifier is not 0 and [getDevice] on it returns the record just
    registered, with the path it was opened by and the name it reported;
    and every identifier that found a record before still finds it. *)
Theorem open_device_getDevice (deviceName : string) (fx : Fixture)
    (hub hub' : EventHub) (calls : list SysCall) :
  open_device deviceName fx hub = (0, hub', calls) ->
  mNumDevicesById hub < 0x10000 ->
  (exists dev,
     mOpeningDevices hub' = dev :: mOpeningDevices hub /\
     id dev <> 0 /\
     getDevice hub' (id dev) = Some dev /\
     path dev = deviceName /\
     getDeviceName hub' (id dev) = default EmptyString (ioctl_EVIOCGNAME fx)) /\
  (forall deviceId dev,
     deviceId <> 0 -> getDevice hub deviceId = Some dev ->
     getDevice hub' deviceId = Some dev).
Proof.
  intros Hopen Hbound. split.
  - destruct (open_device_new_record _ _ _ _ _ Hopen)
      as (dev & Hopening & Hpath & Hname & _ & Hid0 & _).
    pose proof (open_device_state deviceName fx hub) as Hstate.
    rewrite Hopen in Hstate. simpl in Hstate.
    destruct Hstate
      as [(? & _)|(table & e & Hgrow & He & _ & _ &
            [(? & _)|(dev' & _ & Hid & _ & Htab & _ & _ & Hopening')])];
      try discriminate.
    rewrite Hopening in Hopening'. injection Hopening' as <-.
    pose proof (first_free_slot_range (mDevicesById hub) 0) as Hrange.
    assert (Hslot : Z.land (id dev) ID_MASK = first_free_slot (mDevicesById hub) 0).
    { rewrite Hid. apply new_id_slot. unfold mNumDevicesById in Hbound. lia. }
    assert (Hget : getDevice hub' (id dev) = Some dev).
    { apply getDevice_Some_slot; [done|]. split; [|done].
      unfold slot_device. rewrite Hslot, Htab, list_lookup_insert_eq
        by (rewrite bump_seq_length; by eapply lookup_lt_Some). done. }
    exists dev. unfold getDeviceName. rewrite Hget. done.
  - intros deviceId dev Hne Hget.
    apply getDevice_Some_slot in Hget as [Hslot Hid]; [|done].
    apply getDevice_Some_slot; [done|]. split; [|done].
    pose proof (open_device_slot_device deviceName fx hub _ _ Hslot) as Hslot'.
    by rewrite Hopen in Hslot'.
Qed.

(** What [close_device] does to the slots, in a reachable registry of at
    most 0x10000 slots: the slot of the record it closes is emptied, the
    others are as they were. *)
Lemma close_device_slot_device (deviceName : string) (hub : EventHub)
    (dev : device_t) (rest : list device_t) :
  reachable hub -> mNumDevicesById hub <= 0x10000 ->
  (close_device deviceName hub).1.1 = 0 ->
  mClosingDevices (close_device deviceName hub).1.2 = dev :: rest ->
  slot_device hub (Z.to_nat (Z.land (id dev) ID_MASK)) = Some dev /\
  forall i,
    slot_device (close_device deviceName hub).1.2 i =
    if decide (i = Z.to_nat (Z.land (id dev) ID_MASK)) then None
    else slot_device hub i.
Proof.
  intros Hreach Hbound Hret Hclosing.
  destruct (reachable_poll_set_ok hub Hreach) as [_ Hslots].
  destruct (close_device_cases deviceName hub)
    as [Hnone|(i & dev0 & _ & _ & Hdev & _ & _ & Htab & _ & _ & Hcl & _)];
    [rewrite Hnone in Hret; discriminate|].
  rewrite Hcl in Hclosing. injection Hclosing as -> _.
  destruct (Hslots Hbound _ _ Hdev) as [Hslot _].
  split; [done|]. intros j. unfold slot_device.
  rewrite Htab, clear_slot_lookup. case_decide; [|done].
  by destruct (mDevicesById hub !! j).
Qed.

(** X7.  In a reachable registry of at most 0x10000 slots, a successful
    [close_device] takes exactly one identifier out of the lookup: that of
    the record it puts on the closing list is found before and not
    afterwards, and every other identifier except 0 is looked up as
    before. *)
Theorem close_device_getDevice (deviceName : string) (hub : EventHub)
    (dev : device_t) (rest : list device_t) :
  reachable hub -> mNumDevicesById hub <= 0x10000 ->
  (close_device deviceName hub).1.1 = 0 ->
  mClosingDevices (close_device deviceName hub).1.2 = dev :: rest ->
  path dev = deviceName /\
  getDevice hub (id dev) = Some dev /\
  getDevice (close_device deviceName hub).1.2 (id dev) = None /\
  forall deviceId,
    deviceId <> 0 -> deviceId <> id dev ->
    getDevice (close_device deviceName hub).1.2 deviceId = getDevice hub deviceId.
Proof.
  intros Hreach Hbound Hret Hclosing.
  destruct (close_device_slot_device _ _ _ _ Hreach Hbound Hret Hclosing)
    as [Hslot Hslots].
  destruct (reachable_records_ok hub Hreach _ _ Hslot) as (_ & Hid0 & _).
  assert (Hpath : path dev = deviceName).
  { destruct (close_device_cases deviceName hub)
      as [Hnone|(i & dev0 & _ & _ & _ & Hp & _ & _ & _ & _ & Hcl & _)];
      [rewrite Hnone in Hret; discriminate|].
    rewrite Hcl in Hclosing. by injection Hclosing as -> _. }
  split; [done|]. split; [by apply getDevice_Some_slot|]. split.
  - apply getDevice_stale; [done|].
    by apply (closed_id_stale hub deviceName dev rest).
  - intros deviceId Hne Hother. apply option_ext. intros d.
    rewrite !getDevice_Some_slot by done. rewrite Hslots.
    case_decide as Hc; [|done].
    split; [intros [? _]; done|]. intros [Hd Hid].
    rewrite Hc, Hslot in Hd. congruence.
Qed.

(** X8.  In a reachable registry of at most 0x10000 slots the devices of the
    poll set have distinct identifiers, none of them 0, and each is found
    by [getDevice] under its identifier. *)
Theorem open_devices_distinct_ids (hub : EventHub) (j j' : nat) (dev dev' : device_t) :
  reachable hub -> mNumDevicesById hub <= 0x10000 ->
  mDevices hub !! j = Some (Some dev) ->
  mDevices hub !! j' = Some (Some dev') ->
  id dev <> 0 /\ getDevice hub (id dev) = Some dev /\
  (id dev = id dev' -> j = j').
Proof.
  intros Hreach Hbound Hj Hj'.
  destruct (reachable_poll_set_ok hub Hreach) as [_ Hslots].
  destruct (Hslots Hbound _ _ Hj) as [Hslot Huniq].
  destruct (Hslots Hbound _ _ Hj') as [Hslot' _].
  destruct (reachable_records_ok hub Hreach _ _ Hslot) as (_ & Hid0 & _).
  split; [done|]. split; [by apply getDevice_Some_slot|].
  intros Hid. rewrite <- Hid, Hslot in Hslot'. injection Hslot' as <-.
  symmetry. by apply Huniq.
Qed.

(** ** The classes of a registered device *)

Lemma has_class_lor (a b cls : Z) :
  has_class (Z.lor a b) cls = has_class a cls || has_class b cls.
Proof.
  unfold has_class. rewrite Z.land_lor_distr_l.
  destruct (Z.eqb_spec (Z.land a cls) 0) as [Ha|Ha],
           (Z.eqb_spec (Z.land b cls) 0) as [Hb|Hb]; simpl.
  - rewrite Ha, Hb. reflexivity.
  - rewrite Ha, Z.lor_0_l. by apply negb_true_iff, Z.eqb_neq.
  - rewrite Hb, Z.lor_0_r. by apply negb_true_iff, Z.eqb_neq.
  - apply negb_true_iff, Z.eqb_neq. intros Hz. apply Z.lor_eq_0_iff in Hz. tauto.
Qed.

Lemma hasKeycode_fields (d1 d2 : device_t) (keycode : Z) :
  keyBitmask d1 = keyBitmask d2 -> layoutMap d1 = layoutMap d2 ->
  hasKeycode d1 keycode = hasKeycode d2 keycode.
Proof. unfold hasKeycode. by intros -> ->. Qed.

Lemma classify_keys_classes (dev : device_t) :
  classes (classify_keys dev) =
  Z.lor (Z.lor (classes dev)
               (if hasKeycode dev kKeyCodeQ then CLASS_ALPHAKEY else 0))
        (if has_dpad_keys dev then CLASS_DPAD else 0).
Proof.
  unfold classify_keys, has_dpad_keys.
  destruct (hasKeycode dev kKeyCodeQ) eqn:Hq.
  - rewrite !(hasKeycode_fields (add_class CLASS_ALPHAKEY dev) dev) by done.
    case_match; simpl; by rewrite ?Z.lor_0_r.
  - case_match; simpl; by rewrite ?Z.lor_0_r.
Qed.

Lemma setup_keyboard_classes (fx : Fixture) (dev dev' : device_t) (hub hub' : EventHub)
    (calls : list SysCall) :
  setup_keyboard fx dev hub = (dev', hub', calls) ->
  classes dev' =
  Z.lor (Z.lor (classes dev)
               (if is_keyboard dev' && hasKeycode dev' kKeyCodeQ
                then CLASS_ALPHAKEY else 0))
        (if is_keyboard dev' && has_dpad_keys dev' then CLASS_DPAD else 0).
Proof.
  intros Hsetup.
  pose proof (setup_keyboard_fields _ _ _ _ _ _ Hsetup) as (_ & _ & _ & _ & Hkb & _).
  revert Hsetup. unfold setup_keyboard. rewrite Hkb.
  destruct (is_keyboard dev) eqn:Hk; simpl.
  - destruct (designate_first_keyboard _ _ _) as [h c]. intros [= <- _ _].
    rewrite classify_keys_classes. simpl.
    set (d := {| id := id dev; path := path dev; name := name dev;
                 classes := classes dev; keyBitmask := keyBitmask dev;
                 layoutMap := loaded_layout fx |}).
    pose proof (classify_keys_fields d) as (_ & _ & _ & Hbm & Hlm).
    unfold has_dpad_keys.
    rewrite !(hasKeycode_fields (classify_keys d) d) by done. done.
  - intros [= <- _ _]. by rewrite !Z.lor_0_r.
Qed.

Lemma probe_device_classes (fx : Fixture) (dev dev' : device_t) (hub hub' : EventHub)
    (calls : list SysCall) :
  classes dev = 0 ->
  probe_device fx dev hub = (Some dev', hub', calls) ->
  let key_bitmask := ioctl_buffer (bitmask_size KEY_MAX) (ioctl_EVIOCGBIT_KEY fx) in
  let abs_bitmask := ioctl_buffer (bitmask_size ABS_MAX) (ioctl_EVIOCGBIT_ABS fx) in
  classes dev' =
  Z.lor (Z.lor (Z.lor (Z.lor (Z.lor
    (classify_keyboard (ioctl_EVIOCGBIT_KEY fx) key_bitmask)
    (classify_pointer key_bitmask (ioctl_EVIOCGBIT_REL fx)))
    (classify_touch key_bitmask abs_bitmask))
    (if switch_cell (mSwitches hub') SW_HEADPHONE_INSERT =? 0 then 0 else CLASS_HEADSET))
    (if is_keyboard dev' && hasKeycode dev' kKeyCodeQ then CLASS_ALPHAKEY else 0))
    (if is_keyboard dev' && has_dpad_keys dev' then CLASS_DPAD else 0).
Proof.
  intros Hc Hprobe key_bitmask abs_bitmask. unfold probe_device in Hprobe.
  fold key_bitmask abs_bitmask in Hprobe.
  destruct (_ && negb (new_keyBitmask fx)); [discriminate|].
  match type of Hprobe with
  | context [setup_keyboard fx ?d ?h] =>
      destruct (setup_keyboard fx d h) as [[d3 h3] c3] eqn:Hsetup
  end.
  destruct (classes d3 =? 0); [discriminate|]. injection Hprobe as -> -> ->.
  pose proof (setup_keyboard_frame _ _ _ _ _ _ Hsetup) as [Hsw _].
  rewrite (setup_keyboard_classes _ _ _ _ _ _ Hsetup), Hsw. simpl.
  destruct (switch_cell _ SW_HEADPHONE_INSERT =? 0); simpl;
    rewrite Hc, ?Z.lor_0_r; reflexivity.
Qed.

(** The record a successful [open_device] registers, with its classes as
    the calls on the device decide them. *)
Lemma open_device_classes (deviceName : string) (fx : Fixture)
    (hub hub' : EventHub) (calls : list SysCall) :
  open_device deviceName fx hub = (0, hub', calls) ->
  exists dev,
    mOpeningDevices hub' = dev :: mOpeningDevices hub /\
    mSwitches hub' =
      claim_switches (ioctl_EVIOCGBIT_SW fx) (id dev) (mSwitches hub) /\
    let key_bitmask := ioctl_buffer (bitmask_size KEY_MAX) (ioctl_EVIOCGBIT_KEY fx) in
    let abs_bitmask := ioctl_buffer (bitmask_size ABS_MAX) (ioctl_EVIOCGBIT_ABS fx) in
    is_keyboard dev =
      negb (classify_keyboard (ioctl_EVIOCGBIT_KEY fx) key_bitmask =? 0) /\
    classes dev =
    Z.lor (Z.lor (Z.lor (Z.lor (Z.lor
      (classify_keyboard (ioctl_EVIOCGBIT_KEY fx) key_bitmask)
      (classify_pointer key_bitmask (ioctl_EVIOCGBIT_REL fx)))
      (classify_touch key_bitmask abs_bitmask))
      (if switch_cell (mSwitches hub') SW_HEADPHONE_INSERT =? 0 then 0 else CLASS_HEADSET))
      (if is_keyboard dev && hasKeycode dev kKeyCodeQ then CLASS_ALPHAKEY else 0))
      (if is_keyboard dev && has_dpad_keys dev then CLASS_DPAD else 0).
Proof.
  intros Hopen.
  destruct (open_device_cases deviceName fx hub) as [[c Hc]|(table & Hgrow & [Hc|[Hc|Hc]])];
    try congruence.
  rewrite Hc in Hopen. clear Hc.
  destruct (probe_device _ _ _) as [[[dev|] h] c] eqn:Hprobe; [|congruence].
  injection Hopen as <- <-.
  pose proof (probe_device_frame _ _ _ _ _ _ Hprobe) as (_ & _ & _ & _ & Hopening & _).
  pose proof Hprobe as Hkept.
  apply probe_device_kept in Hkept as (Hid & _ & _ & _ & Hkb & _); [|reflexivity].
  pose proof Hprobe as Hclasses.
  apply probe_device_classes in Hclasses; [|reflexivity].
  exists dev. unfold register_device. simpl. rewrite Hopening.
  split; [done|]. split; [|split; [exact Hkb|exact Hclasses]].
  rewrite Hid. revert Hprobe. unfold probe_device.
  destruct (_ && negb (new_keyBitmask fx)); [discriminate|].
  match goal with
  | |- context [setup_keyboard fx ?d ?h] =>
      destruct (setup_keyboard fx d h) as [[d3 h3] c3] eqn:Hsetup
  end.
  destruct (classes d3 =? 0); [discriminate|]. intros [= _ -> _].
  apply setup_keyboard_frame in Hsetup as [-> _]. reflexivity.
Qed.

Lemma has_class_if (b : bool) (c cls : Z) :
  has_class (if b then c else 0) cls = b && has_class c cls.
Proof. by destruct b. Qed.

Lemma classify_keyboard_has_class (answer : option (list Z)) (key_bitmask : list Z)
    (cls : Z) :
  has_class (classify_keyboard answer key_bitmask) cls =
  negb (classify_keyboard answer key_bitmask =? 0) && has_class CLASS_KEYBOARD cls.
Proof. unfold classify_keyboard. by repeat case_match. Qed.

Lemma classify_pointer_has_class (fx : Fixture) (cls : Z) :
  let key_bitmask := ioctl_buffer (bitmask_size KEY_MAX) (ioctl_EVIOCGBIT_KEY fx) in
  has_class (classify_pointer key_bitmask (ioctl_EVIOCGBIT_REL fx)) cls =
  reports_pointer fx
  && (if bit_set BTN_RIGHT key_bitmask then has_class CLASS_MOUSE cls
      else has_class CLASS_TRACKBALL cls).
Proof.
  intros key_bitmask. unfold classify_pointer, reports_pointer. fold key_bitmask.
  change BTN_LEFT with BTN_MOUSE.
  destruct (bit_set BTN_MOUSE key_bitmask); [|done].
  destruct (ioctl_EVIOCGBIT_REL fx) as [bytes|]; [|done].
  rewrite bool_decide_eq_true_2 by done. simpl.
  destruct (bit_set REL_X _), (bit_set REL_Y _); try done.
  by destruct (bit_set BTN_RIGHT key_bitmask).
Qed.

Lemma classify_touch_has_class (fx : Fixture) (cls : Z) :
  let key_bitmask := ioctl_buffer (bitmask_size KEY_MAX) (ioctl_EVIOCGBIT_KEY fx) in
  let abs_bitmask := ioctl_buffer (bitmask_size ABS_MAX) (ioctl_EVIOCGBIT_ABS fx) in
  has_class (classify_touch key_bitmask abs_bitmask) cls =
  if reports_multi_touch fx
  then has_class CLASS_TOUCHSCREEN cls || has_class CLASS_TOUCHSCREEN_MT cls
  else reports_single_touch fx && has_class CLASS_TOUCHSCREEN cls.
Proof.
  intros key_bitmask abs_bitmask.
  unfold classify_touch, reports_multi_touch, reports_single_touch.
  fold key_bitmask abs_bitmask.
  destruct (_ && _ && _); [apply has_class_lor|].
  by destruct (_ && _ && _).
Qed.

(** Whether the record a successful [open_device] registers has the class
    [cls], read off the answers of the device. *)
Lemma open_device_has_class (deviceName : string) (fx : Fixture)
    (hub hub' : EventHub) (calls : list SysCall) (cls : Z) :
  open_device deviceName fx hub = (0, hub', calls) ->
  exists dev,
    mOpeningDevices hub' = dev :: mOpeningDevices hub /\
    let key_bitmask := ioctl_buffer (bitmask_size KEY_MAX) (ioctl_EVIOCGBIT_KEY fx) in
    has_class (classes dev) cls =
    is_keyboard dev && has_class CLASS_KEYBOARD cls
    || reports_pointer fx
       && (if bit_set BTN_RIGHT key_bitmask then has_class CLASS_MOUSE cls
           else has_class CLASS_TRACKBALL cls)
    || (if reports_multi_touch fx
        then has_class CLASS_TOUCHSCREEN cls || has_class CLASS_TOUCHSCREEN_MT cls
        else reports_single_touch fx && has_class CLASS_TOUCHSCREEN cls)
    || negb (switch_cell (mSwitches hub') SW_HEADPHONE_INSERT =? 0)
       && has_class CLASS_HEADSET cls
    || is_keyboard dev && hasKeycode dev kKeyCodeQ && has_class CLASS_ALPHAKEY cls
    || is_keyboard dev && has_dpad_keys dev && has_class CLASS_DPAD cls.
Proof.
  intros Hopen.
  destruct (open_device_classes _ _ _ _ _ Hopen) as (dev & Hopening & _ & Hkb & Hc).
  exists dev. split; [done|]. intros key_bitmask.
  rewrite Hc at 1. rewrite !has_class_lor, !has_class_if.
  rewrite classify_keyboard_has_class, <- Hkb.
  rewrite (classify_pointer_has_class fx cls), (classify_touch_has_class fx cls).
  fold key_bitmask.
  by destruct (switch_cell _ _ =? 0).
Qed.

(** X9.  How [open_device] tells pointing and touch devices apart.  The
    record it registers is a MOUSE when the device reports BTN_MOUSE, REL_X,
    REL_Y and BTN_RIGHT, a TRACKBALL when it reports the first three without
    BTN_RIGHT; it is a TOUCHSCREEN_MT exactly when it reports the three
    multi-touch axes, and a TOUCHSCREEN when it does that or reports
    BTN_TOUCH with ABS_X and ABS_Y. *)
Theorem open_device_pointer_touch (deviceName : string) (fx : Fixture)
    (hub hub' : EventHub) (calls : list SysCall) :
  open_device deviceName fx hub = (0, hub', calls) ->
  exists dev,
    mOpeningDevices hub' = dev :: mOpeningDevices hub /\
    let right_button :=
      bit_set BTN_RIGHT
              (ioctl_buffer (bitmask_size KEY_MAX) (ioctl_EVIOCGBIT_KEY fx)) in
    has_class (classes dev) CLASS_MOUSE = reports_pointer fx && right_button /\
    has_class (classes dev) CLASS_TRACKBALL = reports_pointer fx && negb right_button /\
    has_class (classes dev) CLASS_TOUCHSCREEN_MT = reports_multi_touch fx /\
    has_class (classes dev) CLASS_TOUCHSCREEN =
      reports_multi_touch fx || reports_single_touch fx.
Proof.
  intros Hopen.
  destruct (open_device_new_record _ _ _ _ _ Hopen) as (dev & Hopening & _).
  exists dev. split; [done|]. intros right_button.
  assert (Hhas : forall cls, has_class (classes dev) cls = _) by
    (intros cls; destruct (open_device_has_class _ _ _ _ _ cls Hopen)
       as (dev' & Hopening' & Hhas);
     rewrite Hopening in Hopening'; injection Hopening' as <-; exact Hhas).
  rewrite !Hhas. fold right_button.
  destruct (is_keyboard dev), (reports_pointer fx), right_button,
    (reports_multi_touch fx), (reports_single_touch fx),
    (switch_cell _ _ =? 0), (hasKeycode dev kKeyCodeQ), (has_dpad_keys dev);
    repeat split; reflexivity.
Qed.

(** X10.  The key classes of a record that [open_device] registers: it is
    marked ALPHAKEY exactly when it is a keyboard and [hasKeycode] finds the
    key Q on it, and DPAD exactly when it is a keyboard and [hasKeycode]
    finds all five directional keys. *)
Theorem open_device_key_classes (deviceName : string) (fx : Fixture)
    (hub hub' : EventHub) (calls : list SysCall) :
  open_device deviceName fx hub = (0, hub', calls) ->
  exists dev,
    mOpeningDevices hub' = dev :: mOpeningDevices hub /\
    has_class (classes dev) CLASS_ALPHAKEY =
      is_keyboard dev && hasKeycode dev kKeyCodeQ /\
    has_class (classes dev) CLASS_DPAD =
      is_keyboard dev
      && (hasKeycode dev kKeyCodeDpadUp && hasKeycode dev kKeyCodeDpadDown
          && hasKeycode dev kKeyCodeDpadLeft && hasKeycode dev kKeyCodeDpadRight
          && hasKeycode dev kKeyCodeDpadCenter).
Proof.
  intros Hopen.
  destruct (open_device_new_record _ _ _ _ _ Hopen) as (dev & Hopening & _).
  exists dev. split; [done|].
  assert (Hhas : forall cls, has_class (classes dev) cls = _) by
    (intros cls; destruct (open_device_has_class _ _ _ _ _ cls Hopen)
       as (dev' & Hopening' & Hhas);
     rewrite Hopening in Hopening'; injection Hopening' as <-; exact Hhas).
  rewrite !Hhas. fold (has_dpad_keys dev).
  destruct (is_keyboard dev), (reports_pointer fx),
    (bit_set BTN_RIGHT _),
    (reports_multi_touch fx), (reports_single_touch fx),
    (switch_cell _ _ =? 0), (hasKeycode dev kKeyCodeQ), (has_dpad_keys dev);
    split; reflexivity.
Qed.

(** ** Where the records of the table come from *)

(** Every record in a slot of a reachable registry was put there by a
    successful [open_device]. *)
Lemma slot_device_opened (hub : EventHub) (i : nat) (dev : device_t) :
  reachable hub -> slot_device hub i = Some dev ->
  exists deviceName fx h h' calls,
    open_device deviceName fx h = (0, h', calls) /\
    mOpeningDevices h' = dev :: mOpeningDevices h.
Proof.
  intros Hreach. revert i dev.
  induction Hreach as [|hub hub' _ IH Hstep]; [by intros [|i] dev|].
  intros i d. destruct Hstep; undelete; try apply IH.
  - destruct (open_device deviceName fx hub) as [[ret h] c] eqn:Hopen.
    pose proof (open_device_state deviceName fx hub) as Hstate.
    rewrite Hopen in Hstate. simpl in *.
    destruct Hstate
      as [(_ & Htab & _)|(table & e & Hgrow & He & _ & _ &
            [(_ & Htab & _)|(dev & -> & _ & _ & Htab & _ & _ & Hopening)])];
      unfold slot_device; rewrite Htab.
    + apply IH.
    + rewrite bump_seq_slot_device, (grow_table_slot_device _ _ _ _ _ Hgrow).
      apply IH.
    + destruct (decide (i = Z.to_nat (first_free_slot (mDevicesById hub) 0)))
        as [->|Hne].
      * rewrite list_lookup_insert_eq
          by (rewrite bump_seq_length; by eapply lookup_lt_Some).
        simpl. intros [= <-]. by exists deviceName, fx, hub, h, c.
      * rewrite list_lookup_insert_ne by done.
        rewrite bump_seq_slot_device, (grow_table_slot_device _ _ _ _ _ Hgrow).
        apply IH.
  - destruct (close_device_cases deviceName hub)
      as [->|(k & dev & _ & _ & _ & _ & _ & Htab & _)]; [apply IH|].
    unfold slot_device. rewrite Htab, clear_slot_lookup.
    case_decide; [|apply IH].
    by destruct (mDevicesById hub !! i).
Qed.

Lemma classify_pointer_values (key_bitmask : list Z) (answer : option (list Z)) :
  classify_pointer key_bitmask answer = 0 \/
  classify_pointer key_bitmask answer = CLASS_MOUSE \/
  classify_pointer key_bitmask answer = CLASS_TRACKBALL.
Proof. unfold classify_pointer. repeat case_match; auto. Qed.

Lemma classify_touch_values (key_bitmask abs_bitmask : list Z) :
  classify_touch key_bitmask abs_bitmask = 0 \/
  classify_touch key_bitmask abs_bitmask = CLASS_TOUCHSCREEN \/
  classify_touch key_bitmask abs_bitmask = Z.lor CLASS_TOUCHSCREEN CLASS_TOUCHSCREEN_MT.
Proof. unfold classify_touch. repeat case_match; auto. Qed.

(** X11.  The class word that [getDeviceClasses] returns in a reachable
    registry uses the eight class bits only and is consistent: never MOUSE
    and TRACKBALL together, TOUCHSCREEN_MT only with TOUCHSCREEN, ALPHAKEY
    and DPAD only with KEYBOARD. *)
Theorem getDeviceClasses_consistent (hub : EventHub) (deviceId : Z) :
  reachable hub ->
  let c := getDeviceClasses hub deviceId in
  0 <= c < 0x100 /\
  has_class c CLASS_MOUSE && has_class c CLASS_TRACKBALL = false /\
  (has_class c CLASS_TOUCHSCREEN_MT = true -> has_class c CLASS_TOUCHSCREEN = true) /\
  (has_class c CLASS_ALPHAKEY = true -> has_class c CLASS_KEYBOARD = true) /\
  (has_class c CLASS_DPAD = true -> has_class c CLASS_KEYBOARD = true).
Proof.
  intros Hreach c. subst c. unfold getDeviceClasses.
  destruct (getDevice hub deviceId) as [dev|] eqn:Hget; [|by vm_compute].
  destruct (getDevice_slot hub deviceId dev Hget) as [i Hslot].
  destruct (slot_device_opened hub i dev Hreach Hslot)
    as (deviceName & fx & h & h' & calls & Hopen & Hopening).
  destruct (open_device_classes _ _ _ _ _ Hopen)
    as (dev' & Hopening' & _ & Hkb & Hc).
  rewrite Hopening in Hopening'. injection Hopening' as <-.
  simpl in Hkb, Hc. unfold is_keyboard in Hkb. fold (has_class (classes dev) CLASS_KEYBOARD) in Hkb.
  revert Hkb Hc. unfold is_keyboard. fold (has_class (classes dev) CLASS_KEYBOARD).
  generalize (classes dev). intros c.
  destruct (classify_keyboard_values (ioctl_EVIOCGBIT_KEY fx)
              (ioctl_buffer (bitmask_size KEY_MAX) (ioctl_EVIOCGBIT_KEY fx))) as [->| ->],
    (classify_pointer_values
       (ioctl_buffer (bitmask_size KEY_MAX) (ioctl_EVIOCGBIT_KEY fx))
       (ioctl_EVIOCGBIT_REL fx)) as [->|[->| ->]],
    (classify_touch_values
       (ioctl_buffer (bitmask_size KEY_MAX) (ioctl_EVIOCGBIT_KEY fx))
       (ioctl_buffer (bitmask_size ABS_MAX) (ioctl_EVIOCGBIT_ABS fx))) as [->|[->| ->]],
    (switch_cell _ _ =? 0), (hasKeycode dev kKeyCodeQ), (has_dpad_keys dev);
    intros -> ->; vm_compute; repeat split; congruence.
Qed.

(** ** The registries of a client are reachable *)

Lemma steps_trans (h1 h2 h3 : EventHub) : steps h1 h2 -> steps h2 h3 -> steps h1 h3.
Proof.
  intros H12 H23. induction H23 as [|h2 h3 h4 _ IH Hstep]; [done|].
  eapply steps_step; [by apply IH|done].
Qed.

Lemma steps_once (h1 h2 : EventHub) : step h1 h2 -> steps h1 h2.
Proof. intros Hstep. eapply steps_step; [apply steps_refl|done]. Qed.

Lemma steps_reachable (h1 h2 : EventHub) : reachable h1 -> steps h1 h2 -> reachable h2.
Proof.
  intros Hreach Hsteps. induction Hsteps as [|h1 h2 h3 _ IH Hstep]; [done|].
  eapply reachable_step; [by apply IH|done].
Qed.

Lemma same_session_refl (hub : EventHub) : 0 < mFDCount hub -> same_session hub hub.
Proof. intros Hpos. split; [apply steps_refl|done]. Qed.

Lemma same_session_trans (h1 h2 h3 : EventHub) :
  same_session h1 h2 -> same_session h2 h3 -> same_session h1 h3.
Proof.
  intros (H12 & _ & He & Ho) (H23 & Hpos & He' & Ho').
  split; [by eapply steps_trans|]. split; [done|]. split; congruence.
Qed.

Lemma open_device_same_session (deviceName : string) (fx : Fixture) (hub : EventHub) :
  0 < mFDCount hub -> same_session hub (open_device deviceName fx hub).1.2.
Proof.
  intros Hpos. split; [by apply steps_once, step_open_device|].
  destruct (open_device_frame deviceName fx hub) as (He & Ho & _).
  split; [|done].
  destruct (open_device_state deviceName fx hub)
    as [(_ & _ & _ & Hc)|(table & e & _ & _ & _ & _ &
          [(_ & _ & _ & Hc)|(dev & _ & _ & _ & _ & _ & Hc & _)])]; lia.
Qed.

Lemma close_device_same_session (deviceName : string) (hub : EventHub) :
  0 < mFDCount hub -> same_session hub (close_device deviceName hub).1.2.
Proof.
  intros Hpos. split; [by apply steps_once, step_close_device|].
  destruct (close_device_frame deviceName hub) as (He & Ho & _).
  split; [|done].
  destruct (close_device_cases deviceName hub)
    as [->|(i & dev & Hi & _ & _ & _ & _ & _ & _ & Hc & _)]; [done|lia].
Qed.

Lemma read_notify_events_same_session (events : list DirEvent) (hub : EventHub) :
  0 < mFDCount hub -> same_session hub (read_notify_events events hub).1.
Proof.
  revert hub. induction events as [|e rest IH]; intros hub Hpos; simpl;
    [by apply same_session_refl|].
  assert (Hfirst : same_session hub
            (if ev_create e
             then open_device (device_path ++ "/" ++ ev_name e) (ev_fixture e) hub
             else close_device (device_path ++ "/" ++ ev_name e) hub).1.2).
  { destruct (ev_create e);
      [by apply open_device_same_session|by apply close_device_same_session]. }
  destruct (if ev_create e then _ else _) as [[ret h] c]. simpl in Hfirst.
  specialize (IH h (proj1 (proj2 Hfirst))).
  destruct (read_notify_events rest h) as [h' c']. simpl in *.
  by eapply same_session_trans.
Qed.

Lemma scan_dir_same_session (entries : option (list DirEvent)) (hub : EventHub) :
  0 < mFDCount hub -> same_session hub (scan_dir entries hub).1.2.
Proof.
  intros Hpos. unfold scan_dir. destruct entries as [entries|];
    [|by apply same_session_refl].
  match goal with
  | |- context [read_notify_events ?evs hub] =>
      pose proof (read_notify_events_same_session evs hub Hpos) as Hs;
      destruct (read_notify_events evs hub) as [h c]
  end.
  done.
Qed.

Lemma getEvent_turn_same_session (answer : PollAnswer) (hub : EventHub) :
  0 < mFDCount hub -> same_session hub (getEvent_turn answer hub).1.2.
Proof.
  intros Hpos. unfold getEvent_turn.
  destruct (mClosingDevices hub) as [|dev rest] eqn:Hclosing.
  2: { split; [by eapply steps_once, step_report_closed|]. simpl.
       by destruct (delete_device_eq dev (set_mClosingDevices rest hub)) as [-> | ->]. }
  destruct (mOpeningDevices hub) as [|dev rest] eqn:Hopening.
  2: { split; [|done]. by eapply steps_once, step_report_opened. }
  destruct (poll_result answer <=? 0); [by apply same_session_refl|].
  destruct (scan_fds _ _ _); [by apply same_session_refl|].
  destruct (poll_ready answer) as [|[revents res] ready];
    [by apply same_session_refl|].
  destruct (negb _); [|by apply same_session_refl].
  destruct (notify_records answer) as [records|]; [|by apply same_session_refl].
  pose proof (read_notify_events_same_session records hub Hpos) as Hs.
  by destruct (read_notify_events records hub) as [h c].
Qed.

Lemma getEvent_loop_same_session (answers : list PollAnswer) (hub : EventHub) :
  0 < mFDCount hub -> same_session hub (getEvent_loop answers hub).1.2.
Proof.
  revert hub. induction answers as [|answer rest IH]; intros hub Hpos; simpl;
    [by apply same_session_refl|].
  pose proof (getEvent_turn_same_session answer hub Hpos) as Hturn.
  destruct (getEvent_turn answer hub) as [[[ev|] h] c]; simpl in Hturn; [done|].
  specialize (IH h (proj1 (proj2 Hturn))).
  destruct (getEvent_loop rest h) as [[ev h'] c']. simpl in *.
  by eapply same_session_trans.
Qed.

Lemma getEvent_session (inotify_fd : Z) (entries : option (list DirEvent))
    (answers : list PollAnswer) (hub : EventHub) :
  session_ok hub ->
  let hub' := (getEvent inotify_fd entries answers hub).1.2 in
  steps hub hub' /\ 0 < mFDCount hub' /\ mError hub' = NO_ERROR /\ mOpened hub' = true.
Proof.
  unfold session_ok, getEvent. destruct (mOpened hub) eqn:Hopened.
  - intros [Hpos Herr].
    destruct (getEvent_loop_same_session answers hub Hpos) as (Hs & Hp & He & Ho).
    split; [done|]. split; [done|]. split; congruence.
  - intros [Hzero Herr]. unfold openPlatformInput.
    set (h0 := set_mDevices [None]
                 (set_mFDs [{| fd := inotify_fd; events := POLLIN |}]
                    (set_mFDCount 1 hub))).
    assert (Hstep0 : step hub h0) by by apply step_openPlatformInput.
    assert (Hpos0 : 0 < mFDCount h0) by (simpl; lia).
    destruct (scan_dir_same_session entries h0 Hpos0) as (Hs1 & Hp1 & _ & _).
    destruct (scan_dir entries h0) as [[ret h1] c1]. simpl in *.
    set (h2 := set_mOpened true (set_mError NO_ERROR h1)).
    assert (Hstep2 : step h1 h2) by by apply step_opened.
    assert (Hpos2 : 0 < mFDCount h2) by done.
    destruct (getEvent_loop_same_session answers h2 Hpos2) as (Hs3 & Hp3 & He3 & Ho3).
    destruct (getEvent_loop answers h2) as [[ev h3] c3]. simpl in *.
    split; [|done].
    eapply steps_trans; [|exact Hs3].
    eapply steps_step; [|exact Hstep2].
    eapply steps_trans; [|exact Hs1]. by apply steps_once.
Qed.

Lemma in_use_session (hub : EventHub) : in_use hub -> reachable hub /\ session_ok hub.
Proof.
  induction 1 as [|hub deviceName _ [IHr IHs]|hub inotify_fd entries answers _ [IHr IHs]].
  - split; [apply reachable_new|done].
  - split; [|done]. eapply reachable_step; [done|apply step_addExcludedDevice].
  - destruct (getEvent_session inotify_fd entries answers hub IHs)
      as (Hsteps & Hpos & Herr & Hopened).
    split; [by eapply steps_reachable|].
    unfold session_ok. by rewrite Hopened.
Qed.

(** X12.  Whatever a client does with the hub through [addExcludedDevice]
    and [getEvent], with whatever the kernel answers, the registry stays
    among those the registry steps reach from a new [EventHub]: every
    [getEvent] is a sequence of such steps. *)
Theorem in_use_reachable (hub : EventHub) : in_use hub -> reachable hub.
Proof. intros Huse. by apply in_use_session. Qed.

(** X13.  [errorCheck] answers NO_INIT until the first [getEvent] and
    NO_ERROR ever after: [openPlatformInput] returns true whatever
    [scan_dir] and [open_device] meet, and nothing else writes [mError]. *)
Theorem errorCheck_in_use (hub : EventHub) :
  in_use hub ->
  errorCheck hub = (if mOpened hub then NO_ERROR else NO_INIT) /\
  forall inotify_fd entries answers,
    errorCheck (getEvent inotify_fd entries answers hub).1.2 = NO_ERROR.
Proof.
  intros Huse. split.
  - destruct (in_use_session hub Huse) as [_ Hs]. unfold session_ok in Hs.
    unfold errorCheck. by destruct (mOpened hub); destruct Hs.
  - intros inotify_fd entries answers.
    destruct (in_use_session _ (in_use_getEvent hub inotify_fd entries answers Huse))
      as [_ Hs].
    destruct (getEvent_session inotify_fd entries answers hub
                (proj2 (in_use_session hub Huse))) as (_ & _ & Herr & _).
    exact Herr.
Qed.

(** ** The poll set *)

Lemma open_device_poll_set (deviceName : string) (fx : Fixture) (hub : EventHub) :
  Z.of_nat (length (mDevices hub)) = mFDCount hub ->
  let r := open_device deviceName fx hub in
  (r.1.1 = -1 /\ mDevices r.1.2 = mDevices hub /\ mFDCount r.1.2 = mFDCount hub) \/
  exists dev,
    r.1.1 = 0 /\ mDevices r.1.2 = mDevices hub ++ [Some dev] /\
    mFDCount r.1.2 = mFDCount hub + 1 /\
    mOpeningDevices r.1.2 = dev :: mOpeningDevices hub.
Proof.
  intros Hlen r. subst r.
  destruct (open_device_state deviceName fx hub)
    as [(Hret & _ & Hdevs & Hc)|(table & e & _ & _ & _ & _ &
          [(Hret & _ & Hdevs & Hc)|(dev & Hret & _ & _ & _ & Hdevs & Hc & Hopening)])];
    [by left|by left|].
  right. exists dev. split; [done|]. split; [|done].
  rewrite Hdevs. replace (Z.to_nat (mFDCount hub)) with (length (mDevices hub)) by lia.
  apply poll_set_extend.
Qed.

Lemma close_device_poll_set (deviceName : string) (hub : EventHub) :
  Z.of_nat (length (mDevices hub)) = mFDCount hub ->
  let r := close_device deviceName hub in
  r = (-1, hub, []) \/
  exists i dev,
    (1 <= i < length (mDevices hub))%nat /\
    mDevices hub !! i = Some (Some dev) /\ path dev = deviceName /\
    r.1.1 = 0 /\ mDevices r.1.2 = delete i (mDevices hub) /\
    mFDCount r.1.2 = mFDCount hub - 1 /\
    mClosingDevices r.1.2 = dev :: mClosingDevices hub.
Proof.
  intros Hlen r. subst r.
  destruct (close_device_cases deviceName hub)
    as [->|(i & dev & Hi & Hilen & Hdev & Hpath & Hret & _ & Hdevs & Hcount & Hcl & _)];
    [by left|].
  right. exists (Z.to_nat i), dev.
  replace (Z.to_nat (mFDCount hub - 1)) with (length (mDevices hub) - 1)%nat in Hdevs by lia.
  replace (Z.to_nat (mFDCount hub - i - 1))
    with (length (mDevices hub) - Z.to_nat i - 1)%nat in Hdevs by lia.
  rewrite memmove_down_delete in Hdevs by done.
  split; [lia|done].
Qed.

Lemma memmove_down_length {A} (i count : nat) (a : list A) :
  (S i + count <= length a)%nat -> length (memmove_down i count a) = length a.
Proof.
  intros Hle. unfold memmove_down.
  rewrite !length_app, !length_take, !length_drop. lia.
Qed.

Lemma close_device_mFDs_length (deviceName : string) (hub : EventHub) :
  mFDCount hub <= Z.of_nat (length (mFDs hub)) ->
  length (mFDs (close_device deviceName hub).1.2) = length (mFDs hub).
Proof.
  intros Hle. unfold close_device.
  destruct (find_device_by_path _ _ _) as [[i dev]|] eqn:Hfind; [|done].
  apply find_device_by_path_Some in Hfind as (Hi & Hdev & _).
  apply lookup_lt_Some in Hdev. rewrite length_drop, length_take in Hdev.
  assert (length (memmove_down (Z.to_nat i) (Z.to_nat (mFDCount hub - i - 1)) (mFDs hub))
          = length (mFDs hub)) by (apply memmove_down_length; lia).
  by destruct (id dev =? mFirstKeyboardId hub).
Qed.

Lemma open_device_stores_pollfd (deviceName : string) (fx : Fixture) (hub : EventHub) :
  (open_device deviceName fx hub).1.1 = 0 ->
  mFDs (open_device deviceName fx hub).1.2 =
    <[Z.to_nat (mFDCount hub) := {| fd := open_O_RDWR fx; events := POLLIN |}]>
      (resize (S (Z.to_nat (mFDCount hub)))
              {| fd := open_O_RDWR fx; events := POLLIN |} (mFDs hub)).
Proof.
  destruct (open_device_cases deviceName fx hub) as [[c Hc]|(table & Hgrow & [Hc|[Hc|Hc]])];
    rewrite Hc; clear Hc; try done.
  destruct (probe_device _ _ _) as [[[dev|] h] c] eqn:Hprobe; [|done].
  apply probe_device_frame in Hprobe as (_ & _ & Hfds & _); simpl in *; done.
Qed.

Lemma poll_shape_step (hub hub' : EventHub) :
  step hub hub' -> poll_shape hub -> poll_shape hub'.
Proof.
  intros Hstep (Hlen & Hcells & Hfds). destruct Hstep; undelete; try done.
  - split; [done|]. split; [|simpl; lia].
    intros [|[|j]] d; simpl; try done. by intros [= <-].
  - destruct (open_device_poll_set deviceName fx hub Hlen)
      as [(_ & Hdevs & Hc)|(dev & Hret & Hdevs & Hc & _)].
    + destruct (open_device_mFDs deviceName fx hub) as [Hf|Hf];
        unfold poll_shape; rewrite Hdevs, Hc, Hf; [done|].
      split; [done|]. split; [done|].
      rewrite length_insert, length_resize. lia.
    + pose proof (open_device_stores_pollfd deviceName fx hub Hret) as Hf.
      unfold poll_shape; rewrite Hdevs, Hc, Hf.
      split; [rewrite length_app; simpl; lia|]. split;
        [|rewrite length_insert, length_resize; lia].
      intros j d [Hj|[Hj Hd]]%lookup_app_Some; [by apply Hcells|].
      apply list_lookup_singleton_Some in Hd as [_ <-]. split; [done|lia].
  - pose proof (close_device_mFDs_length deviceName hub Hfds) as Hf.
    destruct (close_device_poll_set deviceName hub Hlen)
      as [->|(i & dev & Hi & Hdev & _ & _ & Hdevs & Hc & _)]; [done|].
    unfold poll_shape. rewrite Hdevs, Hc, Hf.
    split; [rewrite length_delete by eauto; lia|]. split; [|lia].
    intros j d. destruct (decide (j < i)%nat) as [Hlt|Hge].
    + rewrite list_lookup_delete_lt by done. apply Hcells.
    + rewrite list_lookup_delete_ge by lia. intros Hd.
      apply Hcells in Hd. split; [intros Hn; apply Hd in Hn; lia|lia].
Qed.

Lemma close_device_mDangling (deviceName : string) (hub : EventHub) :
  mDangling (close_device deviceName hub).1.2 = mDangling hub.
Proof.
  unfold close_device. destruct (find_device_by_path _ _ _) as [[i dev]|]; [|done].
  by destruct (id dev =? mFirstKeyboardId hub).
Qed.

(** Once the hub holds a pointer to freed memory it holds it for good. *)
Lemma step_mDangling (hub hub' : EventHub) :
  step hub hub' -> mDangling hub = true -> mDangling hub' = true.
Proof.
  intros Hstep Hd. destruct Hstep; undelete; simpl; try done.
  - destruct (open_device_mDangling deviceName fx hub) as [->|(_ & -> & _)]; done.
  - by rewrite close_device_mDangling.
Qed.

(** The shape of the poll set is kept as long as every member points to
    live memory. *)
Lemma poll_shape_defined (hub : EventHub) :
  reachable hub -> mDangling hub = false -> poll_shape hub.
Proof.
  induction 1 as [|hub hub' _ IH Hstep]; intros Hd.
  - split; [done|]. split; [by intros [|j] d|done].
  - eapply poll_shape_step; [done|]. apply IH.
    destruct (mDangling hub) eqn:Hd0; [|done].
    by rewrite (step_mDangling _ _ Hstep Hd0) in Hd.
Qed.

(** X14.  In every reachable registry that holds no pointer to freed
    memory, the arrays that [poll] and the loop of [getEvent] walk have the
    shape the code relies on: [mDevices] has [mFDCount] cells, only the cell
    0 of the inotify watch is null, and [mFDs] has a cell for every index
    below [mFDCount].  (A registry in which one of the two [realloc]s of
    [open_device] failed after the other had moved its block, or in which
    [getEvent] deleted a record that was still on the opening list, is left
    out: there the arrays or the list are not defined.) *)
Theorem reachable_poll_shape (hub : EventHub) :
  reachable hub -> mDangling hub = false -> poll_shape hub.
Proof. apply poll_shape_defined. Qed.

(** Every device of the poll set of a reachable registry was put there by
    a successful [open_device]. *)
Lemma poll_device_opened (hub : EventHub) (j : nat) (dev : device_t) :
  reachable hub -> mDevices hub !! j = Some (Some dev) ->
  exists deviceName fx h h' calls,
    open_device deviceName fx h = (0, h', calls) /\
    mOpeningDevices h' = dev :: mOpeningDevices h.
Proof.
  intros Hreach. revert j dev.
  induction Hreach as [|hub hub' Hreach IH Hstep]; [by intros [|j] dev|].
  pose proof (reachable_poll_set_ok hub Hreach) as [Hlen _].
  intros j d. destruct Hstep; undelete; try apply IH.
  - by destruct j as [|[|?]].
  - destruct (open_device deviceName fx hub) as [[ret h] c] eqn:Hopen.
    pose proof (open_device_poll_set deviceName fx hub Hlen) as Hcases.
    rewrite Hopen in Hcases. simpl in *.
    destruct Hcases as [(_ & -> & _)|(dev & -> & -> & _ & Hopening)]; [apply IH|].
    intros [Hj|[Hj Hd]]%lookup_app_Some; [by eapply IH|].
    apply list_lookup_singleton_Some in Hd as [_ [= <-]].
    by exists deviceName, fx, hub, h, c.
  - destruct (close_device_poll_set deviceName hub Hlen)
      as [->|(i & dev & _ & _ & _ & _ & -> & _)]; [apply IH|].
    intros (j0 & _ & Hj0 & _)%lookup_delete_Some. by eapply IH.
Qed.

Lemma poll_device_id (hub : EventHub) (j : nat) (dev : device_t) :
  reachable hub -> mDevices hub !! j = Some (Some dev) -> id dev <> 0.
Proof.
  intros Hreach Hj.
  destruct (poll_device_opened hub j dev Hreach Hj)
    as (deviceName & fx & h & h' & calls & Hopen & Hopening).
  destruct (open_device_new_record _ _ _ _ _ Hopen) as (dev' & Hopening' & _ & _ & _ & Hid & _).
  rewrite Hopening in Hopening'. by injection Hopening' as <-.
Qed.

(** ** The first keyboard is a keyboard of the poll set *)

(** [probe_device] changes [mFirstKeyboardId] only to the identifier of the
    keyboard it keeps. *)
Lemma probe_device_designates (fx : Fixture) (dev : device_t) (hub : EventHub) :
  let r := probe_device fx dev hub in
  mFirstKeyboardId r.1.2 = mFirstKeyboardId hub \/
  exists dev', r.1.1 = Some dev' /\ mFirstKeyboardId r.1.2 = id dev' /\
               is_keyboard dev' = true.
Proof.
  unfold probe_device.
  destruct (_ && negb (new_keyBitmask fx)); [by left|].
  unfold setup_keyboard.
  match goal with |- context [if is_keyboard ?d then _ else _] =>
    destruct (is_keyboard d) eqn:Hk; set (d2 := d) in * end.
  - match goal with |- context [designate_first_keyboard ?k ?d ?h] =>
      pose proof (designate_first_keyboard_cases k d h) as Hcases;
      destruct (designate_first_keyboard k d h) as [h' c]; set (d3 := d) in * end.
    pose proof (classify_keys_is_keyboard d3) as Hck.
    pose proof (classify_keys_fields d3) as (Hid & _).
    assert (Hk3 : is_keyboard d3 = true) by exact Hk.
    rewrite Hk3 in Hck. pose proof (is_keyboard_classes _ Hck) as Hne.
    apply Z.eqb_neq in Hne. rewrite Hne. simpl in *.
    destruct Hcases as [[Hsame _]|[(_ & Hnew & _)|(_ & _ & _ & Hnew & _)]];
      [by left| |]; right; exists (classify_keys d3); rewrite Hid, Hnew; done.
  - left. by destruct (classes d2 =? 0).
Qed.

Lemma open_device_designates (deviceName : string) (fx : Fixture) (hub : EventHub) :
  let r := open_device deviceName fx hub in
  mFirstKeyboardId r.1.2 = mFirstKeyboardId hub \/
  exists dev, r.1.1 = 0 /\ mOpeningDevices r.1.2 = dev :: mOpeningDevices hub /\
              mFirstKeyboardId r.1.2 = id dev /\ is_keyboard dev = true.
Proof.
  destruct (open_device_cases deviceName fx hub) as [[c Hc]|(table & Hgrow & [Hc|[Hc|Hc]])];
    rewrite Hc; clear Hc; simpl; auto.
  match goal with |- context [probe_device fx ?d ?h] =>
    pose proof (probe_device_designates fx d h) as Hcases;
    pose proof (probe_device_frame fx d h) as Hframe;
    destruct (probe_device fx d h) as [[[dev|] h'] c'] end; simpl in *.
  - destruct (Hframe _ _ _ eq_refl) as (_ & _ & _ & _ & Hopening & _).
    destruct Hcases as [Hsame|(dev' & [= <-] & Hnew & Hk)]; [by left|].
    right. exists dev. by rewrite Hopening.
  - destruct Hcases as [Hsame|(dev' & [=] & _)]. by left.
Qed.

Lemma close_device_designation (deviceName : string) (hub : EventHub) :
  let r := close_device deviceName hub in
  r.1.1 = 0 ->
  exists dev,
    mClosingDevices r.1.2 = dev :: mClosingDevices hub /\
    mFirstKeyboardId r.1.2 =
      if id dev =? mFirstKeyboardId hub then 0 else mFirstKeyboardId hub.
Proof.
  unfold close_device.
  destruct (find_device_by_path _ _ _) as [[i dev]|]; [|done].
  intros _. exists dev. by destruct (id dev =? mFirstKeyboardId hub).
Qed.

Lemma first_keyboard_ok_step (hub hub' : EventHub) :
  reachable hub -> step hub hub' -> first_keyboard_ok hub -> first_keyboard_ok hub'.
Proof.
  intros Hreach Hstep Hok.
  pose proof (reachable_poll_set_ok hub Hreach) as [Hlen _].
  destruct Hstep; undelete; try done.
  - intros Hne. simpl in Hne.
    destruct (Hok Hne) as (j & dev & Hj & _).
    apply lookup_lt_Some in Hj. lia.
  - pose proof (open_device_designates deviceName fx hub) as Hcases.
    pose proof (open_device_poll_set deviceName fx hub Hlen) as Hdevs.
    simpl in *. intros Hne.
    destruct Hcases as [Hsame|(dev & Hret & Hopening & Hnew & Hk)].
    + rewrite Hsame in *. destruct (Hok Hne) as (j & d & Hj & Hid & Hk).
      exists j, d. split; [|done].
      destruct Hdevs as [(_ & -> & _)|(dev & _ & -> & _)]; [done|].
      by apply lookup_app_l_Some.
    + destruct Hdevs as [(Hret' & _)|(dev' & _ & Hdevs & _ & Hopening')]; [congruence|].
      rewrite Hopening in Hopening'. injection Hopening' as <-.
      exists (length (mDevices hub)), dev. split; [|done].
      rewrite Hdevs. by apply list_lookup_middle.
  - pose proof (close_device_poll_set deviceName hub Hlen) as Hdevs.
    simpl in *. intros Hne.
    destruct Hdevs as [Heq|(i & dev & Hi & Hdev & _ & Hret & Hdevs & _ & Hcl)].
    + rewrite Heq in *. exact (Hok Hne).
    + destruct (close_device_designation deviceName hub Hret) as (dev' & Hcl' & Hfirst).
      rewrite Hcl in Hcl'. injection Hcl' as <-.
      rewrite Hfirst in *.
      destruct (Z.eqb_spec (id dev) (mFirstKeyboardId hub)) as [Heq|Hneq]; [done|].
      destruct (Hok Hne) as (j & d & Hj & Hid & Hk).
      assert (Hji : j <> i).
      { intros ->. rewrite Hdev in Hj. by injection Hj as ->. }
      rewrite Hdevs.
      destruct (decide (j < i)%nat) as [Hlt|Hge].
      * exists j, d. by rewrite list_lookup_delete_lt.
      * exists (pred j), d. rewrite list_lookup_delete_ge by lia.
        replace (S (pred j)) with j by lia. done.
Qed.

Lemma reachable_first_keyboard_ok (hub : EventHub) :
  reachable hub -> first_keyboard_ok hub.
Proof.
  induction 1 as [|hub hub' Hreach IH Hstep]; [by intros Hne|].
  by eapply first_keyboard_ok_step.
Qed.

(** X15.  The device that stands for the first keyboard.  In a reachable
    registry of at most 0x10000 slots, the identifier 0 finds no device when
    no first keyboard is designated; when one is, it finds the record whose
    identifier is [mFirstKeyboardId], and that record is a keyboard of the
    poll set. *)
Theorem getDevice_0 (hub : EventHub) :
  reachable hub -> mNumDevicesById hub <= 0x10000 ->
  (mFirstKeyboardId hub = 0 -> getDevice hub 0 = None) /\
  (mFirstKeyboardId hub <> 0 ->
   exists j dev,
     getDevice hub 0 = Some dev /\ mDevices hub !! j = Some (Some dev) /\
     id dev = mFirstKeyboardId hub /\ is_keyboard dev = true /\
     getDevice hub (id dev) = Some dev).
Proof.
  intros Hreach Hbound. split.
  - intros Hzero. destruct (getDevice hub 0) as [dev|] eqn:Hget; [|done].
    exfalso.
    destruct (getDevice_slot hub 0 dev Hget) as [i Hslot].
    destruct (reachable_records_ok hub Hreach _ _ Hslot) as (_ & Hid & _).
    revert Hget. unfold getDevice. rewrite Hzero. simpl.
    destruct (_ || _); [done|].
    destruct (mDevicesById hub !! _) as [[[d|] s]|]; try done.
    destruct (Z.eqb_spec (id d) 0) as [Hd|]; [|done]. intros [= ->]. done.
  - intros Hne.
    destruct (reachable_first_keyboard_ok hub Hreach Hne) as (j & dev & Hj & Hid & Hk).
    destruct (reachable_poll_set_ok hub Hreach) as [_ Hslots].
    destruct (Hslots Hbound _ _ Hj) as [Hslot _].
    assert (Hget : getDevice hub (id dev) = Some dev).
    { apply getDevice_Some_slot; [by rewrite Hid|done]. }
    exists j, dev. split; [|done].
    unfold getDevice in *. simpl. rewrite <- Hid. 
    destruct (Z.eqb_spec (id dev) 0) as [Hz|_]; [congruence|]. done.
Qed.

(** ** What [getEvent] reports *)

(** X16.  A device that [close_device] closes is reported by the next
    [getEvent], before anything is polled and before any pending addition,
    as DEVICE_REMOVED under the identifier of its record.  The identifier is
    never 0, not even for the first keyboard, whose other events carry 0:
    [close_device] has withdrawn the designation by then. *)
Theorem closed_device_reported (deviceName : string) (hub : EventHub)
    (inotify_fd : Z) (entries : option (list DirEvent))
    (answer : PollAnswer) (answers : list PollAnswer) :
  reachable hub -> mOpened hub = true ->
  (close_device deviceName hub).1.1 = 0 ->
  let hub' := (close_device deviceName hub).1.2 in
  let r := getEvent inotify_fd entries (answer :: answers) hub' in
  exists dev,
    mClosingDevices hub' = dev :: mClosingDevices hub /\
    path dev = deviceName /\ id dev <> 0 /\
    r.1.1 = Some {| outDeviceId := id dev; outType := DEVICE_REMOVED;
                    outScancode := 0; outKeycode := 0; outFlags := 0;
                    outValue := 0; outWhen := 0 |} /\
    r.2 = [] /\
    mClosingDevices r.1.2 = mClosingDevices hub.
Proof.
  intros Hreach Hopened Hret hub' r. subst r.
  pose proof (reachable_poll_set_ok hub Hreach) as [Hlen _].
  destruct (close_device_poll_set deviceName hub Hlen)
    as [Heq|(i & dev & _ & Hdev & Hpath & _ & _ & _ & Hcl)];
    [rewrite Heq in Hret; discriminate|].
  destruct (close_device_designation deviceName hub Hret) as (dev' & Hcl' & Hfirst).
  rewrite Hcl in Hcl'. injection Hcl' as <-.
  pose proof (poll_device_id hub i dev Hreach Hdev) as Hid.
  destruct (close_device_frame deviceName hub) as (_ & Hop & _).
  fold hub' in Hcl, Hfirst, Hop.
  exists dev. split; [done|]. split; [done|]. split; [done|].
  unfold getEvent. rewrite Hop, Hopened. simpl.
  unfold getEvent_turn. rewrite Hcl.
  unfold first_keyboard_as_0. rewrite Hfirst.
  destruct (delete_device_eq dev (set_mClosingDevices (mClosingDevices hub) hub'))
    as [-> | ->];
    (destruct (Z.eqb_spec (id dev) (mFirstKeyboardId hub)) as [Heq|Hneq];
     [destruct (Z.eqb_spec (id dev) 0); done
     |destruct (Z.eqb_spec (id dev) (mFirstKeyboardId hub)); done]).
Qed.

Lemma poll_device_resolves (hub : EventHub) (j : nat) (dev : device_t) :
  reachable hub -> mNumDevicesById hub <= 0x10000 ->
  mDevices hub !! j = Some (Some dev) ->
  getDevice hub (first_keyboard_as_0 hub (id dev)) = Some dev.
Proof.
  intros Hreach Hbound Hj.
  destruct (reachable_poll_set_ok hub Hreach) as [_ Hslots].
  destruct (Hslots Hbound _ _ Hj) as [Hslot _].
  pose proof (poll_device_id hub j dev Hreach Hj) as Hid.
  assert (Hget : getDevice hub (id dev) = Some dev)
    by by apply getDevice_Some_slot.
  unfold first_keyboard_as_0.
  destruct (Z.eqb_spec (id dev) (mFirstKeyboardId hub)) as [Heq|Hneq]; [|done].
  unfold getDevice in *. simpl. rewrite <- Heq.
  by destruct (Z.eqb_spec (id dev) 0).
Qed.

(** X17.  The device identifier of an event resolves to the device that
    sent it.  When a client's [getEvent] returns an event other than an
    addition or a removal, in a registry of at most 0x10000 slots that
    holds no pointer to freed memory, the event was read at an index [i] of
    an answer of [poll], the first index of that answer whose descriptor
    was readable and yielded a whole [input_event]; it is that
    [input_event] translated for the record [dev] in the cell [i] of
    [mDevices]; and [getDevice] on the event's [outDeviceId] finds that very
    record.  The identifier is 0 exactly when the record is the first
    keyboard. *)
Theorem event_device_resolves (inotify_fd : Z) (entries : option (list DirEvent))
    (answers : list PollAnswer) (hub hub' : EventHub) (ev : RawEvent)
    (calls : list SysCall) :
  in_use hub ->
  getEvent inotify_fd entries answers hub = (Some ev, hub', calls) ->
  mNumDevicesById hub' <= 0x10000 -> mDangling hub' = false ->
  outType ev <> DEVICE_ADDED -> outType ev <> DEVICE_REMOVED ->
  exists answer i revents iev dev,
    answer ∈ answers /\
    (1 <= i < Z.to_nat (mFDCount hub'))%nat /\
    poll_ready answer !! i = Some (revents, Some iev) /\
    Z.land revents POLLIN <> 0 /\
    (forall j r e, (1 <= j < i)%nat -> poll_ready answer !! j = Some (r, e) ->
       Z.land r POLLIN = 0 \/ e = None) /\
    mDevices hub' !! i = Some (Some dev) /\
    ev = translate_event hub' dev iev /\
    getDevice hub' (outDeviceId ev) = Some dev /\
    (outDeviceId ev = 0 <-> id dev = mFirstKeyboardId hub').
Proof.
  intros Huse Hget Hbound Hdefined Hadd Hrem.
  assert (Hreach : reachable hub').
  { pose proof (in_use_getEvent hub inotify_fd entries answers Huse) as Huse'.
    rewrite Hget in Huse'. by apply in_use_session. }
  destruct (poll_shape_defined hub' Hreach Hdefined) as (_ & Hcells & _).
  assert (Hloop : exists hub0 calls0, getEvent_loop answers hub0 = (Some ev, hub', calls0)).
  { unfold getEvent in Hget. destruct (mOpened hub); [eauto|].
    destruct (openPlatformInput _ _ _) as [[ok h] c].
    destruct (getEvent_loop answers _) as [[e h'] c'] eqn:Hloop.
    injection Hget as -> -> <-. eauto. }
  destruct Hloop as (hub0 & calls0 & Hloop).
  apply getEvent_loop_turn in Hloop as (answer & hubT & callsT & Hin & Hturn).
  destruct (getEvent_turn_raw _ _ _ _ _ Hturn Hadd Hrem)
    as (i & revents & iev & dev & Hr & Hd & Hi & -> & Hpollin & Hfirst).
  exists answer, i, revents, iev, dev.
  split; [done|]. split; [done|]. split; [done|]. split; [done|]. split.
  { intros j r e Hj Hrj. destruct (Hfirst j r e Hj Hrj) as [?|[?|Hnull]]; auto.
    apply Hcells in Hnull. destruct Hnull as [Hnull _]. specialize (Hnull eq_refl). lia. }
  split; [done|]. split; [done|].
  pose proof (translate_event_fields hub' dev iev) as (_ & _ & _ & -> & _).
  split; [by eapply poll_device_resolves|].
  pose proof (poll_device_id hub' i dev Hreach Hd) as Hid.
  unfold first_keyboard_as_0.
  destruct (Z.eqb_spec (id dev) (mFirstKeyboardId hub')); split; done.
Qed.

(** ** Reads of the capability bitmasks *)

Lemma test_bit_is_Some (bit : Z) (array : list Z) :
  0 <= bit < 8 * Z.of_nat (length array) -> is_Some (test_bit bit array).
Proof.
  intros Hbit. unfold test_bit.
  destruct (Z.ltb_spec bit 0) as [|_]; [lia|].
  rewrite Z.quot_div_nonneg by lia.
  assert (Hlt : (Z.to_nat (bit / 8) < length array)%nat).
  { assert (bit / 8 < Z.of_nat (length array)) by (apply Z.div_lt_upper_bound; lia).
    pose proof (Z.div_pos bit 8). lia. }
  apply lookup_lt_is_Some_2 in Hlt as [b ->]. by eexists.
Qed.

(** A code from 0 to KEY_MAX, REL_MAX, ABS_MAX or SW_MAX lies within the
    [(MAX+7)/8] bytes declared for its bitmask. *)
Lemma bit_set_in_range (max_code bit : Z) (answer : option (list Z)) :
  In max_code [KEY_MAX; REL_MAX; ABS_MAX; SW_MAX] ->
  0 <= bit <= max_code ->
  is_Some (test_bit bit (ioctl_buffer (bitmask_size max_code) answer)).
Proof.
  intros Hmax Hbit. apply test_bit_is_Some. rewrite ioctl_buffer_length.
  simpl in Hmax. destruct Hmax as [<-|[<-|[<-|[<-|[]]]]].
  - change (Z.of_nat (bitmask_size KEY_MAX)) with 64. unfold KEY_MAX in Hbit. lia.
  - change (Z.of_nat (bitmask_size REL_MAX)) with 2. unfold REL_MAX in Hbit. lia.
  - change (Z.of_nat (bitmask_size ABS_MAX)) with 8. unfold ABS_MAX in Hbit. lia.
  - change (Z.of_nat (bitmask_size SW_MAX)) with 2. unfold SW_MAX in Hbit. lia.
Qed.

(** X18.  Every [test_bit] of [open_device] reads inside the buffer it
    is applied to, whatever the ioctls answered: the four button codes in
    the key bitmask, REL_X and REL_Y in the relative bitmask, the five axis
    codes in the absolute bitmask and every switch the loop over SW_MAX
    visits in the switch bitmask. *)
Theorem open_device_tests_in_range (fx : Fixture) :
  let key_bitmask := ioctl_buffer (bitmask_size KEY_MAX) (ioctl_EVIOCGBIT_KEY fx) in
  let rel_bitmask := ioctl_buffer (bitmask_size REL_MAX) (ioctl_EVIOCGBIT_REL fx) in
  let abs_bitmask := ioctl_buffer (bitmask_size ABS_MAX) (ioctl_EVIOCGBIT_ABS fx) in
  let sw_bitmask := ioctl_buffer (bitmask_size SW_MAX) (ioctl_EVIOCGBIT_SW fx) in
  Forall (fun bit => is_Some (test_bit bit key_bitmask))
         [BTN_MOUSE; BTN_LEFT; BTN_RIGHT; BTN_TOUCH] /\
  Forall (fun bit => is_Some (test_bit bit rel_bitmask)) [REL_X; REL_Y] /\
  Forall (fun bit => is_Some (test_bit bit abs_bitmask))
         [ABS_MT_TOUCH_MAJOR; ABS_MT_POSITION_X; ABS_MT_POSITION_Y; ABS_X; ABS_Y] /\
  Forall (fun bit => is_Some (test_bit bit sw_bitmask)) (seqZ 0 SW_MAX).
Proof.
  intros key_bitmask rel_bitmask abs_bitmask sw_bitmask.
  split; [|split; [|split]].
  - repeat constructor; apply bit_set_in_range;
      (by left) || (split; vm_compute; discriminate).
  - repeat constructor; apply bit_set_in_range;
      (by right; left) || (split; vm_compute; discriminate).
  - repeat constructor; apply bit_set_in_range;
      (by right; right; left) || (split; vm_compute; discriminate).
  - apply Forall_forall. intros i Hi. apply elem_of_seqZ in Hi.
    apply bit_set_in_range; [by right; right; right; left|lia].
Qed.

(** The key bitmask cached in a record that [open_device] registers is the
    whole buffer of the EVIOCGBIT(EV_KEY) call. *)
Lemma open_device_keyBitmask (deviceName : string) (fx : Fixture)
    (hub hub' : EventHub) (calls : list SysCall) (dev : device_t) (bitmask : list Z) :
  open_device deviceName fx hub = (0, hub', calls) ->
  mOpeningDevices hub' = dev :: mOpeningDevices hub ->
  keyBitmask dev = Some bitmask ->
  bitmask = ioctl_buffer (bitmask_size KEY_MAX) (ioctl_EVIOCGBIT_KEY fx).
Proof.
  intros Hopen Hopening Hbm.
  destruct (open_device_cases deviceName fx hub) as [[c Hc]|(table & Hgrow & [Hc|[Hc|Hc]])];
    try congruence.
  rewrite Hc in Hopen. clear Hc.
  destruct (probe_device _ _ _) as [[[dev'|] h] c] eqn:Hprobe; [|congruence].
  injection Hopen as <- <-.
  pose proof (probe_device_frame _ _ _ _ _ _ Hprobe) as (_ & _ & _ & _ & Hop & _).
  apply probe_device_kept in Hprobe as (_ & _ & _ & _ & _ & Hkb & Hnkb); [|reflexivity].
  unfold register_device in Hopening. simpl in Hopening. injection Hopening as ->.
  destruct (is_keyboard dev) eqn:Hk.
  - rewrite (Hkb eq_refl) in Hbm. by injection Hbm as <-.
  - destruct (Hnkb eq_refl) as [Hnone _]. congruence.
Qed.

(** X19.  The key bitmask of every device of a reachable registry has the
    [(KEY_MAX+7)/8] bytes of the buffer it was copied from, so the range
    check of [hasKeycode] keeps each of its [test_bit] calls inside the
    bitmask. *)
Theorem keyBitmask_in_range (hub : EventHub) (j : nat) (dev : device_t)
    (bitmask : list Z) :
  reachable hub ->
  mDevices hub !! j = Some (Some dev) -> keyBitmask dev = Some bitmask ->
  length bitmask = bitmask_size KEY_MAX /\
  forall sc,
    (sc >=? 0) && (sc <=? KEY_MAX) = true ->
    is_Some (test_bit sc bitmask) /\
    (bit_set sc bitmask = true <-> exists v, test_bit sc bitmask = Some v /\ v <> 0).
Proof.
  intros Hreach Hj Hbm.
  destruct (poll_device_opened hub j dev Hreach Hj)
    as (deviceName & fx & h & h' & calls & Hopen & Hopening).
  pose proof (open_device_keyBitmask _ _ _ _ _ _ _ Hopen Hopening Hbm) as ->.
  split; [apply ioctl_buffer_length|].
  intros sc [Hlo Hhi]%andb_true_iff.
  assert (Hsome : is_Some (test_bit sc
            (ioctl_buffer (bitmask_size KEY_MAX) (ioctl_EVIOCGBIT_KEY fx)))).
  { apply test_bit_is_Some. rewrite ioctl_buffer_length.
    change (Z.of_nat (bitmask_size KEY_MAX)) with 64. unfold KEY_MAX in Hhi. lia. }
  split; [done|]. destruct Hsome as [v Hv]. unfold bit_set. rewrite Hv. split.
  - intros Hset. exists v. split; [done|]. by apply negb_true_iff, Z.eqb_neq in Hset.
  - intros (v' & [= <-] & Hne). by apply negb_true_iff, Z.eqb_neq.
Qed.

(** ** [hasKeys] *)

Lemma hasKeys_devices_flag (keyCode : Z) (devs : list (option device_t))
    (scanCodes : list Z) (flag : Z) :
  hasKeys_devices keyCode devs scanCodes = inr flag -> flag = 0 \/ flag = 1.
Proof.
  revert scanCodes. induction devs as [|[dev|] devs IH]; intros scanCodes; simpl.
  - intros [= <-]. by left.
  - destruct (_ =? 0); [|apply IH].
    destruct (test_scancodes _ _) as [fault|[|]]; [done| |apply IH].
    intros [= <-]. by right.
  - apply IH.
Qed.

(** X20.  When [hasKeys] comes back it has written one flag for each key
    code it was given, and each flag is 0 or 1. *)
Theorem hasKeys_flags (hub : EventHub) (keyCodes flags : list Z) :
  hasKeys hub keyCodes = inr flags ->
  length flags = length keyCodes /\ Forall (fun flag => flag = 0 \/ flag = 1) flags.
Proof.
  unfold hasKeys. generalize (take (Z.to_nat (mFDCount hub)) (mDevices hub)) as devs.
  intros devs. revert flags.
  induction keyCodes as [|keyCode rest IH]; intros flags; simpl.
  - intros [= <-]. by split.
  - destruct (hasKeys_devices keyCode devs []) as [fault|flag] eqn:Hflag; [done|].
    destruct (hasKeys_codes devs rest) as [fault|flags'] eqn:Hflags; [done|].
    intros [= <-]. destruct (IH flags' eq_refl) as [Hlen Hall].
    split; [simpl; by rewrite Hlen|].
    constructor; [by eapply hasKeys_devices_flag|done].
Qed.

Lemma hasKeys_devices_no_keyboard (keyCode : Z) (devs : list (option device_t)) :
  Forall (fun d => forall dev, d = Some dev ->
                     keyBitmask dev = None /\ layoutMap dev = klm_new) devs ->
  hasKeys_devices keyCode devs [] = inr 0.
Proof.
  intros Hall.
  induction Hall as [|[dev|] devs Hd _ IH]; simpl; [done| |apply IH].
  destruct (Hd dev eq_refl) as [Hbm Hlm].
  rewrite Hbm, Hlm, (klm_new_findScancodes keyCode). simpl.
  by destruct (_ =? 0).
Qed.

(** X21.  While no device of the poll set is a keyboard, [hasKeys] answers
    0 for every key code and reads no key bitmask: the devices hold the
    empty layout map their constructor made, which finds no scan code. *)
Theorem hasKeys_no_keyboard (hub : EventHub) (keyCodes : list Z) :
  reachable hub ->
  (forall j dev, mDevices hub !! j = Some (Some dev) -> is_keyboard dev = false) ->
  hasKeys hub keyCodes = inr (replicate (length keyCodes) 0).
Proof.
  intros Hreach Hnone. unfold hasKeys.
  assert (Hall : Forall (fun d => forall dev, d = Some dev ->
                           keyBitmask dev = None /\ layoutMap dev = klm_new)
                        (take (Z.to_nat (mFDCount hub)) (mDevices hub))).
  { apply Forall_take, Forall_lookup. intros j d Hj dev ->.
    pose proof (reachable_keyboard_data hub Hreach) as Hkd.
    rewrite Forall_lookup in Hkd.
    destruct (Hkd j _ Hj dev eq_refl) as [_ Hnk]. apply Hnk. by eapply Hnone. }
  induction keyCodes as [|keyCode rest IH]; simpl; [done|].
  by rewrite (hasKeys_devices_no_keyboard _ _ Hall), IH.
Qed.

(** ** The result of [close_device] *)

Lemma find_device_by_path_None (deviceName : string) (devs : list (option device_t))
    (k : Z) :
  find_device_by_path deviceName devs k = None <->
  forall i dev, devs !! i = Some (Some dev) -> path dev <> deviceName.
Proof.
  revert k. induction devs as [|[d|] devs IH]; intros k; simpl.
  - split; [by intros _ i dev|done].
  - destruct (String.eqb_spec (path d) deviceName) as [Heq|Hne].
    + split; [done|]. intros Hall. by destruct (Hall 0%nat d eq_refl).
    + rewrite IH. split.
      * intros Hall [|i] dev; simpl; [by intros [= <-]|apply Hall].
      * intros Hall i dev. apply (Hall (S i)).
  - rewrite IH. split.
    + intros Hall [|i] dev; simpl; [done|apply Hall].
    + intros Hall i dev. apply (Hall (S i)).
Qed.

Lemma find_device_by_path_first (deviceName : string) (devs : list (option device_t))
    (k i : Z) (dev : device_t) :
  find_device_by_path deviceName devs k = Some (i, dev) ->
  forall j d, (j < Z.to_nat (i - k))%nat -> devs !! j = Some (Some d) ->
              path d <> deviceName.
Proof.
  revert k. induction devs as [|[d0|] devs IH]; intros k; simpl; [done| |].
  - destruct (String.eqb_spec (path d0) deviceName) as [Heq|Hne].
    + intros [= <- <-] j d Hj. lia.
    + intros Hfind [|j] d Hj; simpl; [by intros [= <-]|].
      pose proof (find_device_by_path_Some _ _ _ _ _ Hfind) as (Hi & _).
      apply (IH _ Hfind). lia.
  - intros Hfind [|j] d Hj; simpl; [done|].
    pose proof (find_device_by_path_Some _ _ _ _ _ Hfind) as (Hi & _).
    apply (IH _ Hfind). lia.
Qed.

(** X22.  [close_device] returns 0 or -1.  It returns -1, having changed
    nothing and called nothing, exactly when no device at an index from 1 to
    [mFDCount - 1] of the poll set has the path; otherwise it closes the
    device of the lowest such index, and the first system call it issues
    closes the descriptor stored at that index of [mFDs]. *)
Theorem close_device_result (deviceName : string) (hub : EventHub) :
  let r := close_device deviceName hub in
  (r = (-1, hub, []) /\
   forall j dev, (1 <= j < Z.to_nat (mFDCount hub))%nat ->
     mDevices hub !! j = Some (Some dev) -> path dev <> deviceName) \/
  (exists i dev calls,
     (1 <= i < Z.to_nat (mFDCount hub))%nat /\
     mDevices hub !! i = Some (Some dev) /\ path dev = deviceName /\
     (forall j d, (1 <= j < i)%nat ->
        mDevices hub !! j = Some (Some d) -> path d <> deviceName) /\
     r.1.1 = 0 /\
     mClosingDevices r.1.2 = dev :: mClosingDevices hub /\
     mFDCount r.1.2 = mFDCount hub - 1 /\
     r.2 = sys_close (default (-1) (fd <$> mFDs hub !! i)) :: calls).
Proof.
  intros r. subst r. unfold close_device.
  set (devs := drop 1 (take (Z.to_nat (mFDCount hub)) (mDevices hub))).
  assert (Hdevs : forall j, (1 <= j)%nat ->
            devs !! (j - 1)%nat =
            if decide (j < Z.to_nat (mFDCount hub))%nat then mDevices hub !! j else None).
  { intros j Hj. unfold devs. rewrite lookup_drop.
    replace (1 + (j - 1))%nat with j by lia.
    case_decide; [by rewrite lookup_take_lt|by rewrite lookup_take_ge by lia]. }
  destruct (find_device_by_path deviceName devs 1) as [[i dev]|] eqn:Hfind.
  - right.
    pose proof (find_device_by_path_first _ _ _ _ _ Hfind) as Hfirst.
    apply find_device_by_path_Some in Hfind as (Hi & Hdev & Hpath).
    replace (Z.to_nat (i - 1)) with (Z.to_nat i - 1)%nat in * by lia.
    rewrite Hdevs in Hdev by lia.
    destruct (decide (Z.to_nat i < Z.to_nat (mFDCount hub))%nat) as [Hlt|]; [|done].
    exists (Z.to_nat i), dev.
    exists (if id dev =? mFirstKeyboardId hub
            then [sys_property_set Keyboard0 None;
                  sys_property_set (KeyboardId (id dev)) None]
            else [sys_property_set (KeyboardId (id dev)) None]).
    split; [lia|]. split; [done|]. split; [done|]. split.
    + intros j d Hj Hd. apply (Hfirst (j - 1)%nat d); [lia|].
      rewrite Hdevs by lia. by rewrite decide_True by lia.
    + by destruct (id dev =? mFirstKeyboardId hub).
  - left. split; [done|]. intros j dev Hj Hd.
    apply (proj1 (find_device_by_path_None _ _ _) Hfind (j - 1)%nat dev).
    rewrite Hdevs by lia. by rewrite decide_True by lia.
Qed.

(** X23.  A device that [open_device] registers is announced by the next
    [getEvent] once no removal is pending: before anything is polled it
    returns DEVICE_ADDED, with 0 as the device identifier exactly when the
    new device is the first keyboard, and takes the record off the opening
    list. *)
Theorem opened_device_reported (deviceName : string) (fx : Fixture)
    (hub hub' : EventHub) (calls : list SysCall)
    (inotify_fd : Z) (entries : option (list DirEvent))
    (answer : PollAnswer) (answers : list PollAnswer) :
  mOpened hub = true -> mClosingDevices hub = [] ->
  open_device deviceName fx hub = (0, hub', calls) ->
  let r := getEvent inotify_fd entries (answer :: answers) hub' in
  exists dev,
    mOpeningDevices hub' = dev :: mOpeningDevices hub /\
    path dev = deviceName /\ id dev <> 0 /\
    r.1.1 = Some {| outDeviceId := if id dev =? mFirstKeyboardId hub' then 0 else id dev;
                    outType := DEVICE_ADDED;
                    outScancode := 0; outKeycode := 0; outFlags := 0;
                    outValue := 0; outWhen := 0 |} /\
    r.2 = [] /\
    mOpeningDevices r.1.2 = mOpeningDevices hub.
Proof.
  intros Hopened Hclosing Hopen r. subst r.
  destruct (open_device_new_record _ _ _ _ _ Hopen)
    as (dev & Hopening & Hpath & _ & _ & Hid & _).
  destruct (open_device_frame deviceName fx hub) as (_ & Hop & _ & Hcl).
  rewrite Hopen in Hop, Hcl. simpl in Hop, Hcl.
  exists dev. split; [done|]. split; [done|]. split; [done|].
  unfold getEvent. rewrite Hop, Hopened. simpl.
  unfold getEvent_turn. rewrite Hcl, Hclosing, Hopening. done.
Qed.

(** The slots after a successful [open_device]. *)
Lemma open_device_slots (deviceName : string) (fx : Fixture)
    (hub hub' : EventHub) (calls : list SysCall) :
  open_device deviceName fx hub = (0, hub', calls) ->
  let devid := Z.to_nat (first_free_slot (mDevicesById hub) 0) in
  exists dev,
    mOpeningDevices hub' = dev :: mOpeningDevices hub /\
    slot_device hub devid = None /\
    (forall i, slot_device hub' i =
               if decide (i = devid) then Some dev else slot_device hub i) /\
    mNumDevicesById hub' <= mNumDevicesById hub + 1 /\
    (mNumDevicesById hub < 0x10000 -> Z.to_nat (Z.land (id dev) ID_MASK) = devid).
Proof.
  intros Hopen devid. subst devid.
  pose proof (first_free_slot_range (mDevicesById hub) 0) as Hrange.
  destruct (open_device_state deviceName fx hub)
    as [(Hret & _)|(table & e & Hgrow & He & Hnone & _ &
          [(Hret & _)|(dev & _ & Hid & _ & Htab & _ & _ & Hopening)])];
    rewrite Hopen in *; simpl in *; try discriminate.
  exists dev. split; [done|]. split.
  { by rewrite <- (grow_table_slot_device _ _ _ _ _ Hgrow), He. }
  split.
  { intros i. unfold slot_device at 1. rewrite Htab. case_decide as Hi.
    - subst i. rewrite list_lookup_insert_eq
        by (rewrite bump_seq_length; by eapply lookup_lt_Some). done.
    - rewrite list_lookup_insert_ne by done.
      by rewrite bump_seq_slot_device, (grow_table_slot_device _ _ _ _ _ Hgrow). }
  split.
  { unfold mNumDevicesById. rewrite Htab, length_insert, bump_seq_length.
    assert (length table <= S (length (mDevicesById hub)))%nat; [|lia].
    revert Hgrow. unfold grow_table. repeat case_match; intros [= <-]; [|lia].
    rewrite length_app. simpl. lia. }
  intros Hbound. rewrite Hid, new_id_slot; [done|].
  unfold mNumDevicesById in Hbound. lia.
Qed.

(** X24.  Opening a device and closing it again restores the poll set and
    the identity table, not the pending lists.  In a reachable registry of
    fewer than 0x10000 slots in which no open device has the path, a
    successful [open_device] followed by [close_device] on the same path
    returns 0 and leaves [mDevices], [mFDCount] and the record of every slot
    as they were before the two calls.  The record is the head of the
    closing list and, no [getEvent] having run in between, still the head
    of the opening list: its one [next] link now leads to the closing list
    of before, so the opening list has lost the additions that were
    pending before the two calls.  The identifier of the record, which
    found it in between, no longer does. *)
Theorem open_close_restores (deviceName : string) (fx : Fixture)
    (hub hub' : EventHub) (calls : list SysCall) :
  reachable hub -> 0 < mFDCount hub -> mNumDevicesById hub < 0x10000 ->
  (forall j d, mDevices hub !! j = Some (Some d) -> path d <> deviceName) ->
  open_device deviceName fx hub = (0, hub', calls) ->
  let r := close_device deviceName hub' in
  r.1.1 = 0 /\
  mDevices r.1.2 = mDevices hub /\ mFDCount r.1.2 = mFDCount hub /\
  (forall i, slot_device r.1.2 i = slot_device hub i) /\
  exists dev,
    mOpeningDevices hub' = dev :: mOpeningDevices hub /\
    mClosingDevices r.1.2 = dev :: mClosingDevices hub /\
    mOpeningDevices r.1.2 = dev :: mClosingDevices hub /\
    getDevice hub' (id dev) = Some dev /\
    getDevice r.1.2 (id dev) = None.
Proof.
  intros Hreach Hpos Hbound Hfresh Hopen r. subst r.
  assert (Hreach' : reachable hub').
  { pose proof (reachable_step hub _ Hreach (step_open_device hub deviceName fx Hpos))
      as Hr. by rewrite Hopen in Hr. }
  pose proof (reachable_poll_set_ok hub Hreach) as [Hlen _].
  pose proof (reachable_poll_set_ok hub' Hreach') as [Hlen' _].
  pose proof (open_device_poll_set deviceName fx hub Hlen) as Hcases.
  rewrite Hopen in Hcases. simpl in Hcases.
  destruct Hcases as [(? & _)|(dev & _ & Hdevs & Hcount & Hopening)]; [done|].
  destruct (open_device_slots deviceName fx hub hub' calls Hopen)
    as (dev0 & Hopening0 & Hfree & Hslots & Hnum & Hsame).
  rewrite Hopening in Hopening0. injection Hopening0 as <-.
  specialize (Hsame Hbound).
  assert (Hbound' : mNumDevicesById hub' <= 0x10000) by lia.
  destruct (close_device_poll_set deviceName hub' Hlen')
    as [Heq|(i & dev' & Hi & Hdev' & Hpath' & Hret & Hdevs' & Hcount' & Hcl)].
  { exfalso.
    destruct (open_device_new_record _ _ _ _ _ Hopen) as (dev0 & Hopening0 & Hpath & _).
    rewrite Hopening in Hopening0. injection Hopening0 as <-.
    assert (Hfind : find_device_by_path deviceName
              (drop 1 (take (Z.to_nat (mFDCount hub')) (mDevices hub'))) 1 = None).
    { revert Heq. unfold close_device.
      destruct (find_device_by_path _ _ _) as [[k d]|]; [|done].
      by destruct (id d =? mFirstKeyboardId hub'). }
    apply (proj1 (find_device_by_path_None _ _ _) Hfind
             (length (mDevices hub) - 1)%nat dev); [|done].
    rewrite lookup_drop, lookup_take_lt by lia.
    replace (1 + (length (mDevices hub) - 1))%nat with (length (mDevices hub)) by lia.
    rewrite Hdevs. by apply list_lookup_middle. }
  assert (Hi' : i = length (mDevices hub)).
  { rewrite Hdevs in Hdev', Hi. rewrite length_app in Hi. simpl in Hi.
    destruct (decide (i < length (mDevices hub))%nat) as [Hlt|]; [|lia].
    rewrite lookup_app_l in Hdev' by done. by destruct (Hfresh _ _ Hdev'). }
  subst i.
  assert (dev' = dev) as ->.
  { rewrite Hdevs, list_lookup_middle in Hdev' by done. by injection Hdev' as <-. }
  destruct (open_device_frame deviceName fx hub) as (_ & _ & _ & Hcl0).
  rewrite Hopen in Hcl0. simpl in Hcl0. rewrite Hcl0 in Hcl.
  destruct (close_device_slot_device deviceName hub' dev (mClosingDevices hub)
              Hreach' Hbound' Hret Hcl) as [Hslot Hslots'].
  destruct (reachable_records_ok hub' Hreach' _ _ Hslot) as (_ & Hid & _).
  split; [done|]. split.
  { rewrite Hdevs', Hdevs. clear.
    induction (mDevices hub) as [|x l IH]; simpl; [done|]. by rewrite IH. }
  split; [lia|]. split.
  { intros i. rewrite Hslots', Hslots, Hsame.
    destruct (decide (i = Z.to_nat (first_free_slot (mDevicesById hub) 0)))
      as [->|]; [by rewrite Hfree|done]. }
  exists dev. split; [done|]. split; [done|]. split; [|split].
  - destruct (close_device_cases deviceName hub')
      as [Hnone|(i' & dev' & _ & _ & _ & _ & _ & _ & _ & _ & Hcl' & Hop')];
      [rewrite Hnone in Hret; discriminate|].
    rewrite Hcl, Hcl0 in Hcl'. injection Hcl' as <-.
    rewrite Hop', Hopening, Hcl0. simpl. by rewrite Z.eqb_refl.
  - by apply getDevice_Some_slot.
  - apply getDevice_stale; [done|].
    by apply (closed_id_stale hub' deviceName dev (mClosingDevices hub)).
Qed.

(** ** A device that is given up keeps its switches *)

Lemma claim_switch_length (sw_bitmask : list Z) (device_id : Z) (switches : list Z)
    (i : Z) :
  length (claim_switch sw_bitmask device_id switches i) = length switches.
Proof.
  unfold claim_switch. repeat case_match; try done. by rewrite length_insert.
Qed.

Lemma claim_switch_foldl_length (sw_bitmask : list Z) (device_id : Z)
    (l : list Z) (switches : list Z) :
  length (foldl (claim_switch sw_bitmask device_id) switches l) = length switches.
Proof.
  revert switches. induction l as [|i l IH]; intros switches; simpl; [done|].
  by rewrite IH, claim_switch_length.
Qed.

Lemma claim_switches_length (answer : option (list Z)) (device_id : Z)
    (switches : list Z) :
  length (claim_switches answer device_id switches) = length switches.
Proof.
  unfold claim_switches. destruct answer; [apply claim_switch_foldl_length|done].
Qed.

Lemma release_switches_length (device_id : Z) (switches : list Z) :
  length (release_switches device_id switches) = length switches.
Proof.
  unfold release_switches. generalize (seqZ 0 EV_SW). intros l. revert switches.
  induction l as [|j l IH]; intros switches; simpl; [done|].
  rewrite IH. unfold release_switch. repeat case_match; try done.
  by rewrite length_insert.
Qed.

Lemma reachable_mSwitches_length (hub : EventHub) :
  reachable hub -> length (mSwitches hub) = Z.to_nat (SW_MAX + 1).
Proof.
  induction 1 as [|hub hub' _ IH Hstep]; [done|].
  destruct Hstep; undelete; try done.
  - destruct (open_device_mSwitches deviceName fx hub) as [->|[device_id ->]];
      [done|by rewrite claim_switches_length].
  - unfold close_device. destruct (find_device_by_path _ _ _) as [[i dev]|]; [|done].
    destruct (id dev =? mFirstKeyboardId hub); simpl;
      by rewrite release_switches_length.
Qed.

Lemma claim_switch_foldl_other (sw_bitmask : list Z) (device_id : Z)
    (l : list Z) (switches : list Z) (k : Z) :
  0 <= k -> Forall (fun i => 0 <= i /\ i <> k) l ->
  switch_cell (foldl (claim_switch sw_bitmask device_id) switches l) k
  = switch_cell switches k.
Proof.
  intros Hk Hall. revert switches.
  induction Hall as [|i l [Hi Hne] _ IH]; intros switches; simpl; [done|].
  rewrite IH. apply claim_switch_other; auto.
Qed.

Lemma bit_set_failed (size : nat) (bit : Z) :
  bit_set bit (ioctl_buffer size None) = false.
Proof.
  unfold bit_set, test_bit. destruct (bit <? 0); [done|].
  destruct (ioctl_buffer size None !! _) as [b|] eqn:Hb; [|done].
  apply ioctl_buffer_failed in Hb as ->. reflexivity.
Qed.

Lemma seqZ_split (n k : Z) :
  0 <= k < n -> seqZ 0 n = seqZ 0 k ++ k :: seqZ (k + 1) (n - k - 1).
Proof.
  intros Hk. replace n with (k + (n - k)) at 1 by lia.
  rewrite seqZ_app by lia. f_equal. rewrite seqZ_cons by lia.
  replace (0 + k) with k by lia. replace (Z.succ k) with (k + 1) by lia.
  by replace (Z.pred (n - k)) with (n - k - 1) by lia.
Qed.

(** The loop of lines 773-785 gives a free cell to the device that reports
    its switch. *)
Lemma claim_switches_claims (answer : option (list Z)) (device_id : Z)
    (switches : list Z) (k : Z) :
  0 <= k < SW_MAX -> (Z.to_nat k < length switches)%nat ->
  bit_set k (ioctl_buffer (bitmask_size SW_MAX) answer) = true ->
  switch_cell switches k = 0 ->
  switch_cell (claim_switches answer device_id switches) k = device_id.
Proof.
  intros Hk Hlen Hbit Hfree. unfold claim_switches.
  destruct answer as [bytes|]; [|by rewrite bit_set_failed in Hbit].
  set (bm := ioctl_buffer (bitmask_size SW_MAX) (Some bytes)) in *.
  rewrite (seqZ_split SW_MAX k Hk), foldl_app. simpl.
  rewrite claim_switch_foldl_other.
  2: lia.
  2: { apply Forall_forall. intros i Hi. apply elem_of_seqZ in Hi. lia. }
  set (sw1 := foldl (claim_switch bm device_id) switches (seqZ 0 k)).
  assert (Hfree1 : switch_cell sw1 k = 0).
  { unfold sw1. rewrite claim_switch_foldl_other; [done|lia|].
    apply Forall_forall. intros i Hi. apply elem_of_seqZ in Hi. lia. }
  assert (Hlen1 : (Z.to_nat k < length sw1)%nat)
    by (unfold sw1; by rewrite claim_switch_foldl_length).
  unfold claim_switch. rewrite Hbit.
  apply lookup_lt_is_Some_2 in Hlen1 as [v Hv].
  unfold switch_cell in Hfree1 |- *. rewrite Hv in Hfree1 |- *. simpl in Hfree1.
  subst v. rewrite list_lookup_insert_eq by (by eapply lookup_lt_Some). done.
Qed.

(** The identifier [open_device] gives the record it is about to probe:
    never 0, and naming the free slot while the slots fit [ID_MASK]. *)
Lemma new_id_nonzero (devid v : Z) : 0 <= devid -> Z.lor devid (next_seq v) <> 0.
Proof.
  intros Hd Hz. apply Z.lor_eq_0_iff in Hz as [_ Hz]. by apply next_seq_nonzero in Hz.
Qed.

(** X26.  A device that [open_device] gives up for want of a class keeps
    the switches it has claimed.  When such a device reports a switch whose
    cell is free, the call returns -1 and the cell holds the identifier of
    the record that was deleted: [getDevice] does not find it,
    [getSwitchState] answers -1 for the switch, and no device opened later
    gets the cell. *)
Theorem dropped_device_keeps_claim (deviceName : string) (fx : Fixture)
    (hub : EventHub) (k : Z) :
  reachable hub -> mNumDevicesById hub < 0x10000 ->
  ~ reports_key_below fx BTN_MISC -> no_other_class fx hub -> probed fx hub ->
  0 <= k < SW_MAX ->
  bit_set k (ioctl_buffer (bitmask_size SW_MAX) (ioctl_EVIOCGBIT_SW fx)) = true ->
  switch_cell (mSwitches hub) k = 0 ->
  let r := open_device deviceName fx hub in
  r.1.1 = -1 /\
  exists device_id,
    device_id <> 0 /\
    switch_cell (mSwitches r.1.2) k = device_id /\
    getDevice r.1.2 device_id = None /\
    (forall kernel, getSwitchState kernel r.1.2 k = Some (-1)) /\
    forall deviceName' fx',
      switch_cell (mSwitches (open_device deviceName' fx' r.1.2).1.2) k = device_id.
Proof.
  intros Hreach Hbound Hnokey (Hptr & Htouch & Hsw & Hcell)
    (Hfd & Hver & Hid & Hexcl & Hra & Hrf & Hrd & Hnew) Hk Hbit Hfree r.
  pose proof (reachable_mSwitches_length hub Hreach) as Hlen.
  pose proof (first_free_slot_range (mDevicesById hub) 0) as Hrange.
  unfold reports_key_below in Hnokey. rewrite <- classify_keyboard_bits in Hnokey.
  assert (Hck : classify_keyboard (ioctl_EVIOCGBIT_KEY fx)
            (ioctl_buffer (bitmask_size KEY_MAX) (ioctl_EVIOCGBIT_KEY fx)) = 0).
  { destruct (classify_keyboard_values (ioctl_EVIOCGBIT_KEY fx)
      (ioctl_buffer (bitmask_size KEY_MAX) (ioctl_EVIOCGBIT_KEY fx))) as [|Hkb];
      [done|]. exfalso. apply Hnokey. by rewrite Hkb. }
  destruct (grow_table_probed fx (first_free_slot (mDevicesById hub) 0) hub Hra)
    as [table Hgrow].
  destruct (grow_table_lookup fx hub table Hgrow) as (e & He & Hnone & Hseq).
  pose proof (bump_seq_lookup _ table e He) as Hb.
  set (devid := first_free_slot (mDevicesById hub) 0) in *.
  set (device_id := Z.lor devid (next_seq (seq e))).
  assert (Hrun : r = (-1,
            set_mSwitches (claim_switches (ioctl_EVIOCGBIT_SW fx) device_id (mSwitches hub))
              (store_pollfd (open_O_RDWR fx)
                 (set_mDevicesById (bump_seq devid table) hub)),
            [sys_close (open_O_RDWR fx)])).
  { subst r. unfold open_device. fold devid.
    destruct (Z.ltb_spec (open_O_RDWR fx) 0) as [|_]; [lia|].
    rewrite Hver, Hid, Hexcl, Hgrow, Hrf, Hrd, Hnew. simpl.
    unfold probe_device. rewrite Hck, Hptr, Htouch. simpl.
    unfold slot_seq. rewrite Hb. simpl. fold device_id.
    rewrite claim_switches_other, Hcell by (done || (unfold SW_HEADPHONE_INSERT; lia)).
    reflexivity. }
  rewrite Hrun. simpl. split; [done|].
  assert (Hclaimed : switch_cell
            (claim_switches (ioctl_EVIOCGBIT_SW fx) device_id (mSwitches hub)) k
            = device_id).
  { apply claim_switches_claims; try done. rewrite Hlen. unfold SW_MAX in *. lia. }
  assert (Hne : device_id <> 0) by (apply new_id_nonzero; lia).
  assert (Hgone : getDevice
            (set_mSwitches (claim_switches (ioctl_EVIOCGBIT_SW fx) device_id (mSwitches hub))
               (store_pollfd (open_O_RDWR fx)
                  (set_mDevicesById (bump_seq devid table) hub))) device_id = None).
  { match goal with |- ?g = None => destruct g as [dev|] eqn:Hget; [|done] end.
    exfalso. apply getDevice_Some_slot in Hget as [Hslot _]; [|done].
    unfold slot_device in Hslot. simpl in Hslot.
    unfold device_id in Hslot.
    rewrite new_id_slot in Hslot by (unfold mNumDevicesById in Hbound; lia).
    rewrite Hb in Hslot. simpl in Hslot. congruence. }
  exists device_id. split; [done|]. split; [done|]. split; [done|]. split.
  - intros kernel. unfold getSwitchState.
    destruct (Z.geb_spec k 0) as [_|]; [|lia].
    destruct (Z.leb_spec k SW_MAX) as [_|]; [|lia]. simpl.
    rewrite Hclaimed. destruct (Z.eqb_spec device_id 0) as [|_]; [done|].
    unfold getSwitchState_of. by rewrite Hgone.
  - intros deviceName' fx'.
    match goal with |- context [open_device deviceName' fx' ?h] =>
      destruct (open_device_mSwitches deviceName' fx' h) as [Hsame|[id' Hsame]] end;
      simpl in Hsame |- *; rewrite Hsame; [done|].
    destruct (claim_switches_cell (ioctl_EVIOCGBIT_SW fx') id'
                (claim_switches (ioctl_EVIOCGBIT_SW fx) device_id (mSwitches hub)) k)
      as [Hkept|[Hzero _]]; [lia| |congruence].
    by rewrite Hkept.
Qed.

(** ** The accessors of the first keyboard *)

Lemma getDevice_no_first_keyboard (hub : EventHub) :
  reachable hub -> mFirstKeyboardId hub = 0 -> getDevice hub 0 = None.
Proof.
  intros Hreach Hzero. destruct (getDevice hub 0) as [dev|] eqn:Hget; [|done].
  exfalso.
  destruct (getDevice_slot hub 0 dev Hget) as [i Hslot].
  destruct (reachable_records_ok hub Hreach _ _ Hslot) as (_ & Hid & _).
  revert Hget. unfold getDevice. rewrite Hzero. simpl.
  destruct (_ || _); [done|].
  destruct (mDevicesById hub !! _) as [[[d|] s]|]; try done.
  destruct (Z.eqb_spec (id d) 0) as [Hd|]; [|done]. intros [= ->]. done.
Qed.

(** X27.  While no first keyboard is designated, the accessors that stand
    for it find no device: [getScancodeState(code)] and
    [getKeycodeState(code)] return -1 without asking the kernel, and
    [scancodeToKeycode] on the device 0 returns NAME_NOT_FOUND with the key
    code and the flags set to 0. *)
Theorem no_first_keyboard_accessors (kernel : Kernel) (hub : EventHub)
    (code : Z) :
  reachable hub -> mFirstKeyboardId hub = 0 ->
  getScancodeState kernel hub code = Some (-1) /\
  getKeycodeState kernel hub code = Some (-1) /\
  scancodeToKeycode hub 0 code = (NAME_NOT_FOUND, (0, 0)).
Proof.
  intros Hreach Hzero.
  pose proof (getDevice_no_first_keyboard hub Hreach Hzero) as Hnone.
  unfold getScancodeState, getScancodeState_of, getKeycodeState, getKeycodeState_of,
    scancodeToKeycode.
  rewrite Hzero, Hnone. simpl. split; [done|]. split; [done|].
  by destruct (mHaveFirstKeyboard hub).
Qed.

(** ** When the designation of the first keyboard changes *)

(** What [probe_device] does to a designation other than 0. *)
Lemma probe_device_takes_designation (fx : Fixture) (dev : device_t) (hub : EventHub) :
  classes dev = 0 -> mFirstKeyboardId hub <> 0 ->
  let r := probe_device fx dev hub in
  if negb (classify_keyboard (ioctl_EVIOCGBIT_KEY fx)
             (ioctl_buffer (bitmask_size KEY_MAX) (ioctl_EVIOCGBIT_KEY fx)) =? 0)
     && new_keyBitmask fx
     && (negb (mHaveFirstKeyboard hub) && access_keylayout fx
         && strstr (name dev) "-keypad")
  then (exists dev', r.1.1 = Some dev' /\ id dev' = id dev /\ is_keyboard dev' = true) /\
       mFirstKeyboardId r.1.2 = id dev /\ mHaveFirstKeyboard r.1.2 = true
  else mFirstKeyboardId r.1.2 = mFirstKeyboardId hub /\
       mHaveFirstKeyboard r.1.2 = mHaveFirstKeyboard hub.
Proof.
  intros Hc Hset. unfold probe_device.
  set (key_bitmask := ioctl_buffer (bitmask_size KEY_MAX) (ioctl_EVIOCGBIT_KEY fx)).
  set (ck := classify_keyboard (ioctl_EVIOCGBIT_KEY fx) key_bitmask).
  assert (Hk0 : is_keyboard (add_class ck dev) = negb (ck =? 0)).
  { unfold is_keyboard, add_class. simpl. rewrite Hc. simpl.
    unfold ck, classify_keyboard. repeat case_match; reflexivity. }
  rewrite Hk0.
  destruct (negb (ck =? 0)) eqn:Hkb; simpl.
  2: { unfold setup_keyboard.
       match goal with |- context [if is_keyboard ?d then _ else _] =>
         assert (Hk : is_keyboard d = false); [|rewrite Hk] end.
       { case_match; simpl;
           rewrite ?is_keyboard_add_class
             by (reflexivity || apply classify_touch_not_keyboard
                 || apply classify_pointer_not_keyboard);
           unfold is_keyboard; simpl; rewrite Hc;
           unfold is_keyboard, add_class in Hk0; simpl in Hk0;
           rewrite Hc in Hk0; exact Hk0. }
       match goal with |- context [if classes ?d =? 0 then _ else _] =>
         destruct (classes d =? 0) end; done. }
  destruct (new_keyBitmask fx); simpl; [|done].
  unfold setup_keyboard.
  match goal with |- context [if is_keyboard ?d then _ else _] =>
    assert (Hd : is_keyboard d = true /\ id d = id dev /\ name d = name dev);
    [|destruct Hd as (Hk & Hid & Hname); rewrite Hk; set (d2 := d) in *] end.
  { case_match; simpl;
      rewrite ?is_keyboard_add_class
        by (reflexivity || apply classify_touch_not_keyboard
            || apply classify_pointer_not_keyboard);
      (split; [|done]);
      unfold is_keyboard; simpl; rewrite Hc;
      unfold is_keyboard, add_class in Hk0; simpl in Hk0;
      rewrite Hc in Hk0; exact Hk0. }
  unfold designate_first_keyboard. simpl. rewrite Hname.
  match goal with |- context [classify_keys ?d] =>
    pose proof (classify_keys_is_keyboard d) as Hck;
    pose proof (classify_keys_fields d) as (Hid3 & _); set (d3 := d) in * end.
  assert (Hk3 : is_keyboard d3 = true) by exact Hk.
  rewrite Hk3 in Hck. pose proof (is_keyboard_classes _ Hck) as Hne.
  apply Z.eqb_neq in Hne.
  destruct (mHaveFirstKeyboard hub) eqn:Hhave; simpl.
  - apply Z.eqb_neq in Hset. rewrite Hset. rewrite Hne. simpl. done.
  - rewrite negb_involutive.
    destruct (access_keylayout fx); simpl.
    + destruct (strstr (name dev) "-keypad"); simpl.
      * rewrite Hne. simpl. split; [|done].
        exists (classify_keys d3). rewrite Hid3. done.
      * apply Z.eqb_neq in Hset. rewrite Hset. rewrite Hne. simpl. done.
    + apply Z.eqb_neq in Hset. rewrite Hset. rewrite Hne. simpl. done.
Qed.

(** What [open_device] does to a designation other than 0. *)
Lemma open_device_takes_designation (deviceName : string) (fx : Fixture)
    (hub : EventHub) :
  mFirstKeyboardId hub <> 0 ->
  let r := open_device deviceName fx hub in
  if found_keyboard fx hub && keypad_rule fx hub
  then r.1.1 = 0 /\ mHaveFirstKeyboard r.1.2 = true /\
       exists dev, mOpeningDevices r.1.2 = dev :: mOpeningDevices hub /\
                   mFirstKeyboardId r.1.2 = id dev /\ is_keyboard dev = true
  else mFirstKeyboardId r.1.2 = mFirstKeyboardId hub /\
       mHaveFirstKeyboard r.1.2 = mHaveFirstKeyboard hub.
Proof.
  intros Hset. unfold open_device, found_keyboard, reaches_probing, keypad_rule.
  destruct (Z.ltb_spec (open_O_RDWR fx) 0) as [Hneg|Hfd];
    destruct (Z.leb_spec 0 (open_O_RDWR fx)) as [Hfd'|Hneg']; try lia; simpl; [done|].
  destruct (ioctl_EVIOCGVERSION fx); simpl; [|done].
  destruct (ioctl_EVIOCGID fx); simpl; [|done].
  destruct (existsb _ _); simpl; [done|].
  destruct (grow_table _ _ _) as [table|] eqn:Hgrow; simpl.
  2: { done. }
  destruct (realloc_mFDs fx); simpl.
  2: { unfold realloc_failed. by destruct (_ || _). }
  destruct (realloc_mDevices fx); simpl.
  2: { unfold realloc_failed. by destruct (_ || _). }
  destruct (new_device_t fx); simpl; [|done].
  match goal with |- context [probe_device fx ?d ?h] =>
    pose proof (probe_device_takes_designation fx d h eq_refl Hset) as Hprobe;
    pose proof (probe_device_frame fx d h) as Hframe;
    destruct (probe_device fx d h) as [[[dev|] h'] c'] end; simpl in *.
  - destruct (Hframe _ _ _ eq_refl) as (_ & _ & _ & _ & Hopening & _).
    simpl in Hopening.
    destruct (_ && _ && _); [|done].
    destruct Hprobe as ((dev' & [= <-] & Hid & Hk) & Hfirst & Hhave).
    split; [done|]. split; [done|]. exists dev. rewrite Hopening, Hfirst, Hid. done.
  - destruct (_ && _ && _); [|done].
    by destruct Hprobe as ((dev' & [=] & _) & _).
Qed.

(** C6 (amended).  While a designation other than 0 stands, [open_device]
    changes it in one case only: the device is set up as a keyboard (it is
    probed, reports a key below BTN_MISC and has its key bitmask cached),
    [mHaveFirstKeyboard] is not set, the device has a layout file of its own
    and its name contains -keypad.  Then the call succeeds, the designation
    passes to the record it registers and [mHaveFirstKeyboard] is set; the
    new designation differs from the old one whenever the device designated
    before is still open (in a registry of fewer than 0x10000 slots).  In
    every other case, and so for every device that is not a keyboard, or
    has no layout file of its own, or has no -keypad in its name, and for
    every device at all once [mHaveFirstKeyboard] is set (which the -keypad
    rule does), designation and flag are kept.  [close_device] changes the
    designation only when it closes the designated device, and then clears
    it. *)
Theorem first_keyboard_sticky (hub : EventHub) :
  mFirstKeyboardId hub <> 0 ->
  (forall deviceName fx,
     let r := open_device deviceName fx hub in
     (found_keyboard fx hub && keypad_rule fx hub = true ->
      r.1.1 = 0 /\ mHaveFirstKeyboard r.1.2 = true /\
      (exists dev, mOpeningDevices r.1.2 = dev :: mOpeningDevices hub /\
                   mFirstKeyboardId r.1.2 = id dev /\ is_keyboard dev = true) /\
      (mNumDevicesById hub < 0x10000 ->
       getDevice hub (mFirstKeyboardId hub) <> None ->
       mFirstKeyboardId r.1.2 <> mFirstKeyboardId hub)) /\
     (found_keyboard fx hub && keypad_rule fx hub = false ->
      mFirstKeyboardId r.1.2 = mFirstKeyboardId hub /\
      mHaveFirstKeyboard r.1.2 = mHaveFirstKeyboard hub) /\
     (mHaveFirstKeyboard hub = true \/ access_keylayout fx = false \/
      strstr (default EmptyString (ioctl_EVIOCGNAME fx)) "-keypad" = false \/
      ~ reports_key_below fx BTN_MISC ->
      mFirstKeyboardId r.1.2 = mFirstKeyboardId hub /\
      mHaveFirstKeyboard r.1.2 = mHaveFirstKeyboard hub)) /\
  (forall deviceName,
     mFirstKeyboardId (close_device deviceName hub).1.2 = mFirstKeyboardId hub \/
     exists dev rest,
       (close_device deviceName hub).1.1 = 0 /\
       mClosingDevices (close_device deviceName hub).1.2 = dev :: rest /\
       id dev = mFirstKeyboardId hub /\
       mFirstKeyboardId (close_device deviceName hub).1.2 = 0).
Proof.
  intros Hset. split; [|intros deviceName; apply close_device_first_keyboard].
  intros deviceName fx r. subst r.
  pose proof (open_device_takes_designation deviceName fx hub Hset) as Hcases.
  simpl in Hcases.
  assert (Hkept : found_keyboard fx hub && keypad_rule fx hub = false ->
            mFirstKeyboardId (open_device deviceName fx hub).1.2 = mFirstKeyboardId hub /\
            mHaveFirstKeyboard (open_device deviceName fx hub).1.2
            = mHaveFirstKeyboard hub).
  { intros Hrule. by rewrite Hrule in Hcases. }
  split; [|split; [exact Hkept|]].
  - intros Hrule. rewrite Hrule in Hcases.
    destruct Hcases as (Hret & Hhave & dev & Hopening & Hfirst & Hk).
    split; [done|]. split; [done|]. split; [by exists dev|].
    intros Hbound Hopen Heq.
    destruct (open_device deviceName fx hub) as [[ret hub'] calls] eqn:Hrun.
    simpl in *. subst ret.
    destruct (open_device_slots deviceName fx hub hub' calls Hrun)
      as (dev0 & Hopening0 & Hfree & _ & _ & Hslot).
    rewrite Hopening in Hopening0. injection Hopening0 as <-.
    specialize (Hslot Hbound).
    destruct (getDevice hub (mFirstKeyboardId hub)) as [d0|] eqn:Hget; [|done].
    apply getDevice_Some in Hget as (_ & (e & He & Hd0) & _); [|done].
    rewrite <- Heq, Hfirst, Hslot in He.
    unfold slot_device in Hfree. rewrite He in Hfree. simpl in Hfree. congruence.
  - intros Hrule. apply Hkept.
    unfold found_keyboard, keypad_rule.
    destruct Hrule as [->|[->|[->|Hnokey]]];
      rewrite ?andb_false_r; try done.
    unfold reports_key_below in Hnokey. rewrite <- classify_keyboard_bits in Hnokey.
    destruct (Z.eqb_spec (classify_keyboard (ioctl_EVIOCGBIT_KEY fx)
                (ioctl_buffer (bitmask_size KEY_MAX) (ioctl_EVIOCGBIT_KEY fx))) 0)
      as [_|Hne]; [|done].
    simpl. by rewrite !andb_false_r.
Qed.

(** ** How long a closed identifier stays stale *)

Lemma next_seq_moves (v : Z) : next_seq v <> v.
Proof.
  intros Heq. apply (next_seq_changes v); [|done].
  rewrite <- Heq. apply canonical_next_seq.
Qed.

Lemma slot_seq_bump (devid c : Z) (table : list device_ent) :
  slot_seq c (bump_seq devid table) =
  if decide (Z.to_nat c = Z.to_nat devid)
  then match table !! Z.to_nat devid with
       | Some e => next_seq (seq e)
       | None => 0
       end
  else slot_seq c table.
Proof.
  unfold slot_seq, bump_seq.
  destruct (table !! Z.to_nat devid) as [e|] eqn:He.
  - case_decide as Hc.
    + rewrite Hc, list_lookup_insert_eq by (by eapply lookup_lt_Some). done.
    + by rewrite list_lookup_insert_ne.
  - case_decide as Hc; [|done]. by rewrite Hc, He.
Qed.

Lemma slot_seq_grow (fx : Fixture) (devid c : Z) (hub : EventHub)
    (table : list device_ent) :
  grow_table fx devid hub = Some table ->
  slot_seq c table = slot_seq c (mDevicesById hub).
Proof.
  unfold grow_table, slot_seq.
  destruct (_ >=? _); [|by intros [= <-]].
  destruct (realloc_mDevicesById fx); [|done]. intros [= <-].
  destruct (decide (Z.to_nat c < length (mDevicesById hub))%nat) as [Hlt|Hge].
  - by rewrite lookup_app_l.
  - rewrite lookup_app_r, (lookup_ge_None_2 (mDevicesById hub)) by lia.
    by destruct (Z.to_nat c - length (mDevicesById hub))%nat as [|[|]].
Qed.

Lemma slot_seq_clear (index c : Z) (ents : list device_ent) :
  slot_seq c (clear_slot index ents) = slot_seq c ents.
Proof.
  unfold slot_seq. rewrite clear_slot_lookup.
  case_decide; [|done]. by destruct (ents !! Z.to_nat c).
Qed.

(** A change of the registry keeps the counter of a slot or advances it;
    and a free slot whose counter is kept stays free. *)
Lemma step_slot_seq (hub hub' : EventHub) (c : Z) :
  step hub hub' ->
  (slot_seq c (mDevicesById hub') = slot_seq c (mDevicesById hub) /\
   (slot_device hub (Z.to_nat c) = None -> slot_device hub' (Z.to_nat c) = None)) \/
  slot_seq c (mDevicesById hub') = next_seq (slot_seq c (mDevicesById hub)).
Proof.
  destruct 1; undelete; simpl; auto.
  - destruct (open_device_state deviceName fx hub)
      as [(_ & Htab & _)|(table & e & Hgrow & He & Hnone & Hseq &
            [(_ & Htab & _)|(dev & _ & _ & _ & Htab & _)])].
    + left. unfold slot_device. by rewrite Htab.
    + unfold slot_device. rewrite Htab, slot_seq_bump.
      case_decide as Hc.
      * right. rewrite He, Hseq. unfold slot_seq. by rewrite Hc.
      * left. split; [by eapply slot_seq_grow|].
        rewrite bump_seq_slot_device, (grow_table_slot_device _ _ _ _ _ Hgrow). done.
    + unfold slot_device. rewrite Htab.
      destruct (decide (Z.to_nat c = Z.to_nat (first_free_slot (mDevicesById hub) 0)))
        as [Hc|Hc].
      * right. unfold slot_seq at 1.
        rewrite Hc, list_lookup_insert_eq
          by (rewrite bump_seq_length; by eapply lookup_lt_Some).
        simpl. rewrite Hseq. unfold slot_seq. by rewrite Hc.
      * left. unfold slot_seq at 1. rewrite list_lookup_insert_ne by done.
        fold (slot_seq c (bump_seq (first_free_slot (mDevicesById hub) 0) table)).
        rewrite slot_seq_bump, decide_False by done.
        split; [by eapply slot_seq_grow|].
        rewrite bump_seq_slot_device, (grow_table_slot_device _ _ _ _ _ Hgrow). done.
  - left. destruct (close_device_cases deviceName hub)
      as [->|(i & dev & _ & _ & _ & _ & _ & Htab & _)]; [done|].
    unfold slot_device. rewrite Htab, slot_seq_clear. split; [done|].
    rewrite clear_slot_lookup. case_decide; [|done].
    by destruct (mDevicesById hub !! Z.to_nat c).
Qed.

Lemma advances_steps (c : Z) (n : nat) (hub hub' : EventHub) :
  advances c n hub hub' -> steps hub hub'.
Proof.
  induction 1; [apply steps_refl| |]; by eapply steps_step.
Qed.

(** Every run advances the counter some number of times. *)
Lemma steps_advances (c : Z) (hub hub' : EventHub) :
  steps hub hub' -> exists n, advances c n hub hub'.
Proof.
  induction 1 as [hub|hub hub' hub'' _ [n IH] Hstep].
  - exists 0%nat. apply advances_refl.
  - destruct (step_slot_seq hub' hub'' c Hstep) as [[Hkeep _]|Hnext].
    + exists n. by eapply advances_keep.
    + exists (S n). by eapply advances_next.
Qed.

(** The counter of a slot after a run, and the slot itself as long as the
    counter has not moved. *)
Lemma advances_slot_seq (c : Z) (n : nat) (hub hub' : EventHub) :
  advances c n hub hub' ->
  slot_device hub (Z.to_nat c) = None ->
  slot_seq c (mDevicesById hub') = Nat.iter n next_seq (slot_seq c (mDevicesById hub)) /\
  (n = 0%nat -> slot_device hub' (Z.to_nat c) = None).
Proof.
  intros Hadv Hfree.
  induction Hadv as [hub|n hub hub' hub'' _ IH Hstep Hkeep|n hub hub' hub'' _ IH Hstep Hnext].
  - done.
  - destruct (IH Hfree) as [Hseq Hnone]. split; [congruence|].
    intros Hn. specialize (Hnone Hn).
    destruct (step_slot_seq hub' hub'' c Hstep) as [[_ Hstay]|Hnext]; [auto|].
    rewrite Hkeep in Hnext. symmetry in Hnext. by apply next_seq_moves in Hnext.
  - destruct (IH Hfree) as [Hseq _]. split; [|done].
    rewrite Hnext, Hseq. done.
Qed.

Lemma shiftl_16_inj (a b : Z) : Z.shiftl a SEQ_SHIFT = Z.shiftl b SEQ_SHIFT -> a = b.
Proof. unfold SEQ_SHIFT. rewrite !Z.shiftl_mul_pow2 by lia. lia. Qed.

(** Lines 659-662 on a counter [k] other than 0: the next counter is
    [k mod 0x7FFF + 1]. *)
Lemma next_seq_cycle (k : Z) :
  1 <= k <= 0x7fff ->
  next_seq (Z.shiftl k SEQ_SHIFT) = Z.shiftl (k mod 0x7fff + 1) SEQ_SHIFT.
Proof.
  intros Hk. rewrite next_seq_shifted by lia. f_equal.
  destruct (Z.eq_dec k 0x7fff) as [->|Hne]; [reflexivity|].
  rewrite land_7fff_small, Z.mod_small by lia.
  destruct (Z.eqb_spec (k + 1) 0); [lia|done].
Qed.

Lemma iter_next_seq (k : Z) (n : nat) :
  1 <= k <= 0x7fff ->
  Nat.iter n next_seq (Z.shiftl k SEQ_SHIFT) =
  Z.shiftl ((k - 1 + Z.of_nat n) mod 0x7fff + 1) SEQ_SHIFT.
Proof.
  intros Hk. induction n as [|n IH].
  - simpl. rewrite Z.add_0_r, Z.mod_small by lia. f_equal. lia.
  - simpl Nat.iter. rewrite IH.
    pose proof (Z.mod_pos_bound (k - 1 + Z.of_nat n) 0x7fff) as Hm.
    rewrite next_seq_cycle by lia. f_equal. f_equal.
    replace (k - 1 + Z.of_nat (S n)) with ((k - 1 + Z.of_nat n) + 1) by lia.
    rewrite <- (Z.add_mod_idemp_l (k - 1 + Z.of_nat n) 1) by lia.
    set (m := (k - 1 + Z.of_nat n) mod 32767) in *.
    destruct (Z.eq_dec m 0x7ffe) as [->|Hne]; [reflexivity|].
    rewrite !Z.mod_small by lia. done.
Qed.

(** The counter of a slot is back at its value after 0x7FFF advances and
    not before. *)
Lemma next_seq_period (v : Z) (n : nat) :
  canonical_seq v -> 0 < Z.of_nat n < 0x7fff -> Nat.iter n next_seq v <> v.
Proof.
  intros (s & Hs & ->) Hn.
  destruct (Z.eq_dec s 0) as [->|Hne].
  - destruct n as [|n]; [lia|]. simpl. rewrite Z.shiftl_0_l. apply next_seq_nonzero.
  - rewrite iter_next_seq by lia. intros Heq%shiftl_16_inj.
    destruct (Z_lt_ge_dec (s - 1 + Z.of_nat n) 0x7fff) as [Hlt|Hge].
    + rewrite Z.mod_small in Heq by lia. lia.
    + replace (s - 1 + Z.of_nat n) with ((s - 1 + Z.of_nat n - 0x7fff) + 1 * 0x7fff)
        in Heq by lia.
      rewrite Z_mod_plus_full, Z.mod_small in Heq by lia. lia.
Qed.

(** The identifier of a device that [close_device] has closed is stale from
    then on, whatever the registry goes through, until the counter of its
    slot has been advanced 0x7FFF times. *)
Lemma closed_id_stays_stale (hub hub' : EventHub) (deviceName : string)
    (dev : device_t) (rest : list device_t) (n : nat) :
  reachable hub -> mNumDevicesById hub <= 0x10000 ->
  (close_device deviceName hub).1.1 = 0 ->
  mClosingDevices (close_device deviceName hub).1.2 = dev :: rest ->
  advances (Z.land (id dev) ID_MASK) n (close_device deviceName hub).1.2 hub' ->
  Z.of_nat n < 0x7fff ->
  stale hub' (id dev).
Proof.
  intros Hreach Hbound Hret Hclosing Hadv Hn.
  pose proof (reachable_table_ok hub Hreach) as Htable.
  destruct (reachable_poll_set_ok hub Hreach) as [_ Hslots].
  destruct (close_device_cases deviceName hub)
    as [Hnone|(i & dev0 & Hi & _ & Hdev & _ & _ & Htab & _ & _ & Hcl & _)];
    [rewrite Hnone in Hret; discriminate|].
  rewrite Hcl in Hclosing. injection Hclosing as -> _.
  assert (Hreach1 : reachable (close_device deviceName hub).1.2).
  { eapply reachable_step; [done|]. apply step_close_device. lia. }
  set (hub1 := (close_device deviceName hub).1.2) in *.
  set (c := Z.land (id dev) ID_MASK) in *.
  pose proof (slot_index_range (id dev)) as Hc. fold c in Hc.
  destruct (Hslots Hbound _ _ Hdev) as [Hslot _]. fold c in Hslot.
  unfold slot_device in Hslot.
  destruct (mDevicesById hub !! Z.to_nat c) as [e0|] eqn:He0; [|done].
  simpl in Hslot.
  destruct (Htable _ _ He0) as [Hcanon Hid0]. specialize (Hid0 dev Hslot).
  rewrite Z2Nat.id in Hid0 by lia.
  assert (Hcleared : mDevicesById hub1 !! Z.to_nat c
                     = Some {| device := None; seq := seq e0 |}).
  { rewrite Htab, clear_slot_lookup, decide_True, He0 by done. done. }
  assert (Hfree : slot_device hub1 (Z.to_nat c) = None)
    by (unfold slot_device; by rewrite Hcleared).
  assert (Hseq1 : slot_seq c (mDevicesById hub1) = seq e0)
    by (unfold slot_seq; by rewrite Hcleared).
  destruct (advances_slot_seq c n hub1 hub' Hadv Hfree) as [Hseq Hstill].
  rewrite Hseq1 in Hseq.
  assert (Hreach' : reachable hub').
  { eapply steps_reachable; [exact Hreach1|]. by eapply advances_steps. }
  pose proof (reachable_table_ok hub' Hreach') as Htable'.
  apply stale_slot_device. fold c. intros d Hd Heq.
  destruct n as [|n]; [by rewrite Hstill in Hd|].
  unfold slot_device in Hd.
  destruct (mDevicesById hub' !! Z.to_nat c) as [e'|] eqn:He'; [|done].
  simpl in Hd. destruct (Htable' _ _ He') as [Hcanon' Hid']. specialize (Hid' d Hd).
  rewrite Z2Nat.id in Hid' by lia.
  assert (Hback : seq e' = seq e0).
  { apply (lor_seq_inj c); [lia|done|done|]. congruence. }
  unfold slot_seq in Hseq. rewrite He' in Hseq.
  apply (next_seq_period (seq e0) (S n)); [done|lia|]. congruence.
Qed.

(** C1 (amended).  For every identifier other than 0, [getDevice] returns a
    record exactly when the slot [id & 0xFFFF] is in range, the slot is
    occupied and the record stored there carries exactly the requested
    identifier.  Consequently, for every such identifier whose slot holds no
    record with that identifier, [getDevice] returns null and
    [getDeviceName], [getDeviceClasses], [getAbsoluteInfo],
    [getSwitchState], [getScancodeState] and [getKeycodeState] return their
    not-found value, while [scancodeToKeycode] answers from the layout map
    of the first keyboard when there is one, and NAME_NOT_FOUND otherwise.
    In a reachable registry of at most 0x10000 slots, the identifier of a
    device that [close_device] closes is such an identifier from then on:
    through every later change of the registry, and so through every
    reassignment of its slot, as long as the sequence counter of the slot
    has been advanced fewer than 0x7FFF times since the close; and every
    run of the registry advances the counter some number of times. *)
Theorem getDevice_exact_and_stale (hub : EventHub) (deviceId : Z) :
  deviceId <> 0 ->
  (forall dev,
     getDevice hub deviceId = Some dev <->
     Z.land deviceId ID_MASK < mNumDevicesById hub /\
     (exists e, mDevicesById hub !! Z.to_nat (Z.land deviceId ID_MASK) = Some e /\
                device e = Some dev) /\
     id dev = deviceId) /\
  (stale hub deviceId ->
   getDevice hub deviceId = None /\
   getDeviceName hub deviceId = EmptyString /\
   getDeviceClasses hub deviceId = 0 /\
   (forall k axis, getAbsoluteInfo k hub deviceId axis = Some (-1, None)) /\
   (forall k sw, getSwitchState_of k hub deviceId sw = Some (-1)) /\
   (forall k code, getScancodeState_of k hub deviceId code = Some (-1)) /\
   (forall k code, getKeycodeState_of k hub deviceId code = Some (-1)) /\
   (forall scancode,
      scancodeToKeycode hub deviceId scancode =
      if mHaveFirstKeyboard hub then
        match map_scancode (getDevice hub (mFirstKeyboardId hub)) scancode with
        | Some out => (NO_ERROR, out)
        | None => (NAME_NOT_FOUND, (0, 0))
        end
      else (NAME_NOT_FOUND, (0, 0)))) /\
  (reachable hub -> mNumDevicesById hub <= 0x10000 ->
   forall deviceName dev rest,
     (close_device deviceName hub).1.1 = 0 ->
     mClosingDevices (close_device deviceName hub).1.2 = dev :: rest ->
     id dev = deviceId ->
     (forall hub',
        steps (close_device deviceName hub).1.2 hub' ->
        exists n, advances (Z.land deviceId ID_MASK) n
                           (close_device deviceName hub).1.2 hub') /\
     (forall n hub',
        advances (Z.land deviceId ID_MASK) n (close_device deviceName hub).1.2 hub' ->
        Z.of_nat n < 0x7fff ->
        stale hub' deviceId /\
        getDevice hub' deviceId = None /\
        getDeviceName hub' deviceId = EmptyString /\
        getDeviceClasses hub' deviceId = 0 /\
        (forall k axis, getAbsoluteInfo k hub' deviceId axis = Some (-1, None)) /\
        (forall k sw, getSwitchState_of k hub' deviceId sw = Some (-1)) /\
        (forall k code, getScancodeState_of k hub' deviceId code = Some (-1)) /\
        (forall k code, getKeycodeState_of k hub' deviceId code = Some (-1)))).
Proof.
  intros Hne.
  assert (Hstale : forall h,
    stale h deviceId ->
    getDevice h deviceId = None /\
    getDeviceName h deviceId = EmptyString /\
    getDeviceClasses h deviceId = 0 /\
    (forall k axis, getAbsoluteInfo k h deviceId axis = Some (-1, None)) /\
    (forall k sw, getSwitchState_of k h deviceId sw = Some (-1)) /\
    (forall k code, getScancodeState_of k h deviceId code = Some (-1)) /\
    (forall k code, getKeycodeState_of k h deviceId code = Some (-1)) /\
    (forall scancode,
       scancodeToKeycode h deviceId scancode =
       if mHaveFirstKeyboard h then
         match map_scancode (getDevice h (mFirstKeyboardId h)) scancode with
         | Some out => (NO_ERROR, out)
         | None => (NAME_NOT_FOUND, (0, 0))
         end
       else (NAME_NOT_FOUND, (0, 0)))).
  { intros h Hst. pose proof (getDevice_stale h deviceId Hne Hst) as Hg.
    unfold getDeviceName, getDeviceClasses, getAbsoluteInfo, getSwitchState_of,
      getScancodeState_of, getKeycodeState_of, scancodeToKeycode.
    rewrite Hg. repeat split; reflexivity. }
  split; [|split].
  - intros dev. by apply getDevice_Some.
  - apply Hstale.
  - intros Hreach Hbound deviceName dev rest Hret Hclosing <-. split.
    + intros hub' Hsteps. by apply steps_advances.
    + intros n hub' Hadv Hn.
      assert (Hst : stale hub' (id dev)) by by eapply closed_id_stays_stale.
      destruct (Hstale hub' Hst) as (Hg & Hname & Hcl & Habs & Hsw & Hsc & Hkc & _).
      done.
Qed.

End Properties.

(** * The properties on the example devices *)

(** C1, as stated, fails.  The touchscreen 0x10001 was open, has been closed
    and its slot holds the new record 0x20001; lookup of the stale
    identifier returns null, and yet [scancodeToKeycode], handed the stale
    identifier, returns NO_ERROR with the key code of the first keyboard. *)
Lemma stale_id_scancodeToKeycode :
  name <$> getDevice keypad_and_touch 0x10001 = Some "touch"%string /\
  (close_device "/dev/input/event1" keypad_and_touch).1.1 = 0 /\
  path <$> getDevice touch_replaced 0x20001 = Some "/dev/input/event2"%string /\
  getDevice touch_replaced 0x10001 = None /\
  scancodeToKeycode touch_replaced 0x10001 30 = (NO_ERROR, (29, 0)) /\
  (scancodeToKeycode touch_replaced 0x10001 30).1 <> NAME_NOT_FOUND.
Proof. vm_compute. repeat split; congruence. Qed.

(** After 0x7FFF reassignments the counter of a slot has gone round: the
    identifier of the first device of the slot is the identifier of the
    device that holds the slot now. *)
Example sequence_goes_round :
  let first := after (open_device "/dev/input/event0" (touchscreen 20) hub0) in
  let last := Pos.iter (replug "/dev/input/event0" (touchscreen 20)) first 0x7fff in
  id <$> getDevice first 0x10000 = Some 0x10000 /\
  id <$> getDevice last 0x10000 = Some 0x10000.
Proof. vm_compute. split; reflexivity. Qed.

(** The example registries are reachable. *)
Lemma reachable_hub0 : reachable hub0.
Proof.
  unfold hub0.
  eapply reachable_step; [eapply reachable_step; [apply reachable_new|]|].
  - apply (step_openPlatformInput EventHub_new 3). reflexivity.
  - apply step_opened. reflexivity.
Qed.

Lemma reachable_keypad_and_touch : reachable keypad_and_touch.
Proof.
  unfold keypad_and_touch, after.
  eapply reachable_step; [eapply reachable_step; [apply reachable_hub0|]|].
  - apply step_open_device. reflexivity.
  - apply step_open_device. reflexivity.
Qed.

(** The amended C1 on the touchscreen 0x10001: the registry is reachable, the
    device is closed and its slot reassigned, which advances the counter of
    the slot once, and its identifier is stale for [getDevice] and for the
    accessors. *)
Lemma getDevice_exact_and_stale_witness :
  (0x10001 <> 0 /\
   reachable keypad_and_touch /\ mNumDevicesById keypad_and_touch <= 0x10000 /\
   (close_device "/dev/input/event1" keypad_and_touch).1.1 = 0 /\
   id <$> mClosingDevices (close_device "/dev/input/event1" keypad_and_touch).1.2
   = [0x10001]) /\
  advances (Z.land 0x10001 ID_MASK) 1
    (close_device "/dev/input/event1" keypad_and_touch).1.2 touch_replaced /\
  Z.of_nat 1 < 0x7fff /\
  stale touch_replaced 0x10001 /\
  getDevice touch_replaced 0x10001 = None /\
  getDeviceName touch_replaced 0x10001 = EmptyString /\
  getSwitchState_of silent_kernel touch_replaced 0x10001 SW_HEADPHONE_INSERT = Some (-1).
Proof.
  assert (Hne : 0x10001 <> 0) by lia.
  assert (Hbound : mNumDevicesById keypad_and_touch <= 0x10000)
    by (vm_compute; discriminate).
  assert (Hret : (close_device "/dev/input/event1" keypad_and_touch).1.1 = 0)
    by (vm_compute; reflexivity).
  destruct (mClosingDevices (close_device "/dev/input/event1" keypad_and_touch).1.2)
    as [|dev rest] eqn:Hclosing; [vm_compute in Hclosing; discriminate|].
  assert (Hid : id dev = 0x10001 /\ rest = []).
  { vm_compute in Hclosing. injection Hclosing as <- <-. split; reflexivity. }
  destruct Hid as [Hid ->].
  assert (Hrun : (open_device "/dev/input/event2" (touchscreen 21)
                    (close_device "/dev/input/event1" keypad_and_touch).1.2).1.2
                 = touch_replaced) by (vm_compute; reflexivity).
  assert (Hadv : advances (Z.land 0x10001 ID_MASK) 1
                   (close_device "/dev/input/event1" keypad_and_touch).1.2
                   touch_replaced).
  { rewrite <- Hrun.
    eapply advances_next; [apply advances_refl| |vm_compute; reflexivity].
    apply step_open_device. vm_compute. reflexivity. }
  assert (Hn : Z.of_nat 1 < 0x7fff) by lia.
  destruct (getDevice_exact_and_stale keypad_and_touch 0x10001 Hne)
    as (_ & _ & Hclosed).
  destruct (Hclosed reachable_keypad_and_touch Hbound
              "/dev/input/event1"%string dev [] Hret Hclosing Hid)
    as [_ Hstays].
  destruct (Hstays 1%nat touch_replaced Hadv Hn)
    as (Hst & Hget & Hname & _ & _ & Hsw & _).
  split.
  { split; [exact Hne|]. split; [exact reachable_keypad_and_touch|].
    split; [exact Hbound|]. split; [exact Hret|]. simpl. by rewrite Hid. }
  split; [exact Hadv|]. split; [exact Hn|]. split; [exact Hst|].
  split; [exact Hget|]. split; [exact Hname|]. apply Hsw.
Defined.

(** C2 on a slot whose counter is 0x7FFF: the next record of the slot
    carries the counter 1. *)
Lemma open_device_sequence_witness :
  let r := open_device "/dev/input/event0" usb_keyboard last_sequence in
  (0 <= 0x7fff <= 0x7fff /\
   slot_seq (first_free_slot (mDevicesById last_sequence) 0) (mDevicesById last_sequence)
   = Z.shiftl 0x7fff SEQ_SHIFT /\
   mNumDevicesById last_sequence < 2 ^ 31 /\
   r = (0, r.1.2, r.2)) /\
  next_seq (Z.shiftl 0x7fff SEQ_SHIFT) = Z.shiftl 1 SEQ_SHIFT /\
  exists dev,
    mDevicesById r.1.2 !! 0%nat = Some {| device := Some dev; seq := 0x10000 |} /\
    id dev = 0x10000.
Proof.
  intros r.
  assert (H1 : 0 <= 0x7fff <= 0x7fff) by lia.
  assert (H2 : slot_seq (first_free_slot (mDevicesById last_sequence) 0)
                 (mDevicesById last_sequence) = Z.shiftl 0x7fff SEQ_SHIFT)
    by reflexivity.
  assert (H3 : mNumDevicesById last_sequence < 2 ^ 31) by (vm_compute; reflexivity).
  assert (H4 : open_device "/dev/input/event0" usb_keyboard last_sequence
               = (0, r.1.2, r.2)) by (vm_compute; reflexivity).
  split; [repeat split; try assumption; lia|].
  destruct (open_device_sequence "/dev/input/event0" usb_keyboard last_sequence
              r.1.2 r.2 0x7fff H1 H2 H3 H4)
    as (_ & _ & Hnext & dev & Hslot & Hid & _).
  split; [exact Hnext|]. exists dev. split; [exact Hslot | exact Hid].
Defined.
(** C3 on a keyboard, which is classified KEYBOARD, and on a gamepad, whose
    only key is BTN_GAMEPAD and which is closed and given up. *)
Lemma open_device_keyboard_witness :
  (open_device "/dev/input/event0" usb_keyboard hub0 =
     (0, usb_keyboard_first,
      [sys_property_set (KeyboardId 0x10000) (Some "usb keyboard"%string)]) /\
   reports_key_below usb_keyboard BTN_MISC /\
   (is_keyboard <$> getDevice usb_keyboard_first 0x10000) = Some true) /\
  (~ reports_key_below gamepad BTN_MISC /\ no_other_class gamepad hub0 /\
   probed gamepad hub0) /\
  exists hub',
    open_device "/dev/input/event0" gamepad hub0 = (-1, hub', [sys_close 15]) /\
    mDevices hub' = mDevices hub0 /\ mFDCount hub' = mFDCount hub0.
Proof.
  assert (Hopen : open_device "/dev/input/event0" usb_keyboard hub0 =
    (0, usb_keyboard_first,
     [sys_property_set (KeyboardId 0x10000) (Some "usb keyboard"%string)]))
    by (vm_compute; reflexivity).
  assert (Hkey : reports_key_below usb_keyboard BTN_MISC).
  { exists 16. split; [unfold BTN_MISC; lia | vm_compute; reflexivity]. }
  assert (Hnokey : ~ reports_key_below gamepad BTN_MISC).
  { unfold reports_key_below. rewrite <- classify_keyboard_bits.
    vm_compute. intros Hne. by apply Hne. }
  assert (Hother : no_other_class gamepad hub0) by (vm_compute; repeat split; reflexivity).
  assert (Hprobed : probed gamepad hub0)
    by (vm_compute; repeat split; reflexivity || discriminate).
  destruct (open_device_keyboard "/dev/input/event0" usb_keyboard hub0) as [Hiff _].
  destruct (open_device_keyboard "/dev/input/event0" gamepad hub0) as [_ Hdrop].
  destruct (Hdrop Hnokey Hother Hprobed) as (hub' & Hret & Hdevs & Hcount & _).
  split; [|split; [done|]].
  - split; [exact Hopen|]. split; [exact Hkey|]. vm_compute. reflexivity.
  - exists hub'. split; [exact Hret|]. split; [exact Hdevs | exact Hcount].
Defined.

(** C4 on the usb keyboard: a press of the key 30, which the layout maps to
    the key code 29, and a press of the key 31, which the layout does not
    map and which is delivered with key code 0 and flags 0. *)
Lemma getEvent_raw_event_witness :
  let r := getEvent 3 None [key_press_answer] keyboard_reported in
  (r.1.1 =
     Some {| outDeviceId := 0; outType := EV_KEY; outScancode := 30;
             outKeycode := 29; outFlags := 0; outValue := 1;
             outWhen := 100000007000 |}) /\
  (exists answer i revents iev dev,
     answer ∈ [key_press_answer] /\
     poll_ready answer !! i = Some (revents, Some iev) /\
     mDevices r.1.2 !! i = Some (Some dev)) /\
  (mOpened keyboard_reported = true /\
   mClosingDevices keyboard_reported = [] /\
   mOpeningDevices keyboard_reported = [] /\
   0 < poll_result unmapped_key_press_answer /\
   poll_ready unmapped_key_press_answer !! 1%nat = Some (POLLIN, Some unmapped_key_press) /\
   type unmapped_key_press = EV_KEY /\
   list_map qwerty (code unmapped_key_press) = (NAME_NOT_FOUND, (0, 0))) /\
  exists ev,
    getEvent 3 None [unmapped_key_press_answer] keyboard_reported
    = (Some ev, keyboard_reported, []) /\
    outType ev = EV_KEY /\ outScancode ev = 31 /\ outValue ev = 1 /\
    outKeycode ev = 0 /\ outFlags ev = 0.
Proof.
  intros r.
  assert (Hrun : getEvent 3 None [key_press_answer] keyboard_reported =
    (Some {| outDeviceId := 0; outType := EV_KEY; outScancode := 30;
             outKeycode := 29; outFlags := 0; outValue := 1;
             outWhen := 100000007000 |}, r.1.2, r.2)) by (vm_compute; reflexivity).
  split; [vm_compute; reflexivity|].
  destruct (getEvent_raw_event 3 None [key_press_answer] keyboard_reported)
    as [Hread _].
  destruct (getEvent_raw_event 3 None [] keyboard_reported) as [_ Hdeliver].
  split.
  { destruct (Hread r.1.2 _ r.2 Hrun)
      as (answer & i & revents & iev & dev & Hin & Hready & Hdev & _).
    - vm_compute. discriminate.
    - vm_compute. discriminate.
    - exists answer, i, revents, iev, dev. split; [exact Hin|]. split; assumption. }
  assert (Hopened : mOpened keyboard_reported = true) by (vm_compute; reflexivity).
  assert (Hcl : mClosingDevices keyboard_reported = []) by (vm_compute; reflexivity).
  assert (Hop : mOpeningDevices keyboard_reported = []) by (vm_compute; reflexivity).
  assert (Hpoll : 0 < poll_result unmapped_key_press_answer) by (vm_compute; reflexivity).
  assert (Hi : (1 <= 1 < Z.to_nat (mFDCount keyboard_reported))%nat)
    by (vm_compute; split; repeat constructor).
  assert (Hr : poll_ready unmapped_key_press_answer !! 1%nat
               = Some (POLLIN, Some unmapped_key_press)) by reflexivity.
  assert (Hin : Z.land POLLIN POLLIN <> 0) by (vm_compute; discriminate).
  assert (Hty : type unmapped_key_press = EV_KEY) by reflexivity.
  assert (Hmiss : list_map qwerty (code unmapped_key_press) = (NAME_NOT_FOUND, (0, 0)))
    by (vm_compute; reflexivity).
  destruct (mDevices keyboard_reported !! 1%nat) as [[dev|]|] eqn:Hdev;
    [|vm_compute in Hdev; discriminate|vm_compute in Hdev; discriminate].
  assert (Hmap : layoutMap dev = qwerty).
  { vm_compute in Hdev. injection Hdev as <-. reflexivity. }
  assert (Hfirst : forall j (r0 : Z) (e : option input_event),
            (1 <= j < 1)%nat ->
            poll_ready unmapped_key_press_answer !! j = Some (r0, e) ->
            Z.land r0 POLLIN = 0 \/ e = None) by (intros j r0 e Hj; lia).
  destruct (Hdeliver unmapped_key_press_answer 1%nat POLLIN unmapped_key_press dev
              Hopened Hcl Hop Hpoll Hi Hr Hin Hdev Hfirst)
    as (ev & Hget & _ & Htype & Hscan & Hval & _ & Hfail & _).
  split; [repeat split; assumption|].
  exists ev. split; [exact Hget|]. split; [exact Htype|].
  split; [exact Hscan|]. split; [exact Hval|].
  apply Hfail; [exact Hty|].
  rewrite Hmap. vm_compute. discriminate.
Defined.

(** C5 at the failing input.  Both devices report SW_HEADPHONE_INSERT; the
    cell of the switch is claimed by the first (0x10000) and stays so, and
    the second (0x10001) is marked HEADSET all the same; so is a
    touchscreen that reports no switch at all. *)
Theorem second_headset_marked_HEADSET :
  switch_cell (mSwitches two_headsets) SW_HEADPHONE_INSERT = 0x10000 /\
  getDeviceClasses two_headsets 0x10000 = CLASS_HEADSET /\
  getDeviceClasses two_headsets 0x10001 = CLASS_HEADSET /\
  getDeviceClasses
    (after (open_device "/dev/input/event2" (touchscreen 20) two_headsets)) 0x10002
  = Z.lor CLASS_HEADSET (Z.lor CLASS_TOUCHSCREEN CLASS_TOUCHSCREEN_MT).
Proof. vm_compute. repeat split; reflexivity. Qed.

(** C6, as stated, fails.  The usb keyboard is designated by the fallback;
    the keypad found next takes the designation while the usb keyboard is
    still open. *)
Lemma keypad_takes_designation :
  mFirstKeyboardId usb_keyboard_first = 0x10000 /\
  mFirstKeyboardId keypad_second = 0x10001 /\
  name <$> getDevice keypad_second 0x10000 = Some "usb keyboard"%string /\
  mFirstKeyboardId
    (open_device "/dev/input/event1" omap_keypad usb_keyboard_first).1.2
  <> mFirstKeyboardId usb_keyboard_first.
Proof. vm_compute. repeat split; congruence. Qed.

(** The amended C6.  The keypad found after the usb keyboard is set up as a
    keyboard while [mHaveFirstKeyboard] is not set: it takes the
    designation, which differs from the one before.  Once the keypad is
    designated a second keypad does not take the designation, and neither
    does a touchscreen. *)
Lemma first_keyboard_sticky_witness :
  (mFirstKeyboardId usb_keyboard_first <> 0 /\
   found_keyboard omap_keypad usb_keyboard_first
   && keypad_rule omap_keypad usb_keyboard_first = true /\
   mNumDevicesById usb_keyboard_first < 0x10000 /\
   getDevice usb_keyboard_first (mFirstKeyboardId usb_keyboard_first) <> None) /\
  (open_device "/dev/input/event1" omap_keypad usb_keyboard_first).1.1 = 0 /\
  mFirstKeyboardId (open_device "/dev/input/event1" omap_keypad usb_keyboard_first).1.2
  <> mFirstKeyboardId usb_keyboard_first /\
  (mFirstKeyboardId keypad_second <> 0 /\
   mHaveFirstKeyboard keypad_second = true /\
   found_keyboard (touchscreen 20) keypad_second
   && keypad_rule (touchscreen 20) keypad_second = false) /\
  mFirstKeyboardId (open_device "/dev/input/event2" omap_keypad keypad_second).1.2
  = mFirstKeyboardId keypad_second /\
  mFirstKeyboardId (open_device "/dev/input/event2" (touchscreen 20) keypad_second).1.2
  = mFirstKeyboardId keypad_second.
Proof.
  assert (Hset0 : mFirstKeyboardId usb_keyboard_first <> 0) by (vm_compute; discriminate).
  assert (Hrule0 : found_keyboard omap_keypad usb_keyboard_first
                   && keypad_rule omap_keypad usb_keyboard_first = true)
    by (vm_compute; reflexivity).
  assert (Hbound0 : mNumDevicesById usb_keyboard_first < 0x10000)
    by (vm_compute; reflexivity).
  assert (Hopen0 : getDevice usb_keyboard_first (mFirstKeyboardId usb_keyboard_first)
                   <> None) by (vm_compute; discriminate).
  assert (Hset : mFirstKeyboardId keypad_second <> 0) by (vm_compute; discriminate).
  assert (Hhave : mHaveFirstKeyboard keypad_second = true) by (vm_compute; reflexivity).
  assert (Hrule : found_keyboard (touchscreen 20) keypad_second
                  && keypad_rule (touchscreen 20) keypad_second = false)
    by (vm_compute; reflexivity).
  destruct (first_keyboard_sticky usb_keyboard_first Hset0) as [Hopen_first _].
  destruct (Hopen_first "/dev/input/event1"%string omap_keypad) as (Htakes & _ & _).
  destruct (Htakes Hrule0) as (Hret & _ & _ & Hchanges).
  destruct (first_keyboard_sticky keypad_second Hset) as [Hopen _].
  destruct (Hopen "/dev/input/event2"%string omap_keypad) as (_ & _ & Hkept).
  destruct (Hkept (or_introl Hhave)) as [Hsame _].
  destruct (Hopen "/dev/input/event2"%string (touchscreen 20)) as (_ & Hkept' & _).
  destruct (Hkept' Hrule) as [Hsame' _].
  split; [repeat split; assumption|].
  split; [exact Hret|]. split; [exact (Hchanges Hbound0 Hopen0)|].
  split; [repeat split; assumption|].
  split; [exact Hsame|exact Hsame'].
Defined.

(** C7 at the failing input.  The headset 0x10000 claimed the switches 2 and
    6; [close_device] succeeds and clears the cell 2, and the cell 6 still
    holds the identifier of the closed device. *)
Theorem closed_device_keeps_switch :
  switch_cell (mSwitches one_headset) SW_HEADPHONE_INSERT = 0x10000 /\
  switch_cell (mSwitches one_headset) 6 = 0x10000 /\
  (close_device "/dev/input/event0" one_headset).1.1 = 0 /\
  id <$> mClosingDevices headset_unplugged = [0x10000] /\
  switch_cell (mSwitches headset_unplugged) SW_HEADPHONE_INSERT = 0 /\
  switch_cell (mSwitches headset_unplugged) 6 = 0x10000 /\
  6 <= SW_MAX.
Proof. vm_compute. repeat split; congruence. Qed.

(** C8 at the failing input.  The identity table is full and [realloc]
    fails: [open_device] returns -1 and leaves the registry as it was, and
    the descriptor 20 it opened is not closed. *)
Theorem table_oom_leaks_descriptor :
  open_O_RDWR no_memory_for_table = 20 /\
  open_device "/dev/input/event0" no_memory_for_table hub0 = (-1, hub0, []) /\
  sys_close 20 ∉ (open_device "/dev/input/event0" no_memory_for_table hub0).2.
Proof.
  split; [reflexivity|]. split; [vm_compute; reflexivity|].
  vm_compute. intros Hin. inversion Hin.
Qed.

(** C9 at the failing input.  After the first of three touchscreens is
    closed, the touchscreen 0x10001 sits at index 1 of the poll set with its
    descriptor 21, and the entry at [id_to_index], index 2, holds the
    descriptor 22 of the touchscreen 0x10002, whose own [id_to_index] is
    past the poll set. *)
Theorem poll_index_not_device_fd :
  mDevices first_touchscreen_gone !! 1%nat
  = Some (getDevice first_touchscreen_gone 0x10001) /\
  path <$> getDevice first_touchscreen_gone 0x10001 = Some "/dev/input/event1"%string /\
  fd <$> mFDs first_touchscreen_gone !! 1%nat = Some 21 /\
  id_to_index 0x10001 = 2 /\
  (getDevice first_touchscreen_gone 0x10001 ≫= device_fd first_touchscreen_gone)
  = Some 22 /\
  getAbsoluteInfo telltale_kernel first_touchscreen_gone 0x10001 ABS_X
  = Some (0, Some {| minimum := 22; maximum := 1023; fuzz := 0; flat := 0 |}) /\
  mFDCount first_touchscreen_gone = 3 /\
  id_to_index 0x10002 = 3.
Proof. vm_compute. repeat split; reflexivity. Qed.
(** [hasKeys] on a registry with a keyboard and a touchscreen, with the
    layout maps of [list_layout_map]. *)
Example hasKeys_keyboard_and_touchscreen :
  hasKeys (open_device "/dev/input/event1" (touchscreen 20)
             (open_device "/dev/input/event0" usb_keyboard
                (set_mDevices [None]
                   (set_mFDs [{| fd := 3; events := POLLIN |}]
                      (set_mFDCount 1 EventHub_new)))).1.2).1.2
          [kKeyCodeQ; kKeyCodeDpadUp] = inr [1; 0].
Proof. vm_compute. reflexivity. Qed.

(** * AudioHardwareStub *)

(** X25.  The microphone mute of the stub is a plain cell: after any
    sequence of the calls the header defines inline, [getMicMute] returns
    NO_ERROR and the state of the last [setMicMute] among them, or the state
    the object had before when there was none. *)
Theorem getMicMute_last_set (cs : list AudioHardwareStub.InlineCall)
    (hw : AudioHardwareStub.AudioHardwareStub) :
  AudioHardwareStub.getMicMute (AudioHardwareStub.calls cs hw) =
  (NO_ERROR,
   default (AudioHardwareStub.mMicMute hw) (AudioHardwareStub.last_setMicMute cs)).
Proof.
  unfold AudioHardwareStub.getMicMute, AudioHardwareStub.calls,
    AudioHardwareStub.last_setMicMute. f_equal.
  induction cs as [|c cs IH] using rev_ind; [done|].
  rewrite !foldl_app. simpl. destruct c; simpl; try exact IH; done.
Qed.

(** * The further properties on the example devices *)

(** X1 on the touchscreen, excluded by name before the usb keyboard is
    found. *)
Lemma excluded_device_rejected_witness :
  let hub' := (open_device "/dev/input/event0" usb_keyboard touch_excluded).1.2 in
  (steps (addExcludedDevice "touch" hub0) hub' /\ 0 <= open_O_RDWR (touchscreen 20)) /\
  open_device "/dev/input/event1" (touchscreen 20) hub' = (-1, hub', [sys_close 20]).
Proof.
  intros hub'.
  assert (Hsteps : steps (addExcludedDevice "touch" hub0) hub').
  { eapply steps_step; [apply steps_refl|].
    apply step_open_device. reflexivity. }
  assert (Hfd : 0 <= open_O_RDWR (touchscreen 20)) by (vm_compute; discriminate).
  split; [split; [exact Hsteps|exact Hfd]|].
  exact (excluded_device_rejected "touch" "/dev/input/event1" (touchscreen 20)
           hub0 hub' Hsteps Hfd eq_refl eq_refl eq_refl).
Defined.

(** X2 on the second headset: the cell of SW_HEADPHONE_INSERT, claimed by
    the first, is not taken over. *)
Lemma open_device_keeps_claims_witness :
  0 <= SW_HEADPHONE_INSERT /\
  switch_cell (mSwitches one_headset) SW_HEADPHONE_INSERT = 0x10000 /\
  switch_cell (mSwitches (open_device "/dev/input/event1" headset_b one_headset).1.2)
              SW_HEADPHONE_INSERT = 0x10000.
Proof.
  assert (Hk : 0 <= SW_HEADPHONE_INSERT) by (vm_compute; discriminate).
  assert (Hcell : switch_cell (mSwitches one_headset) SW_HEADPHONE_INSERT = 0x10000)
    by (vm_compute; reflexivity).
  split; [exact Hk|]. split; [exact Hcell|].
  destruct (open_device_keeps_claims "/dev/input/event1" headset_b one_headset
              SW_HEADPHONE_INSERT Hk) as [Hkept|[Hfree _]].
  - rewrite Hkept. exact Hcell.
  - rewrite Hcell in Hfree. discriminate.
Defined.

(** X3 on the touchscreen that comes after another one was closed: it
    takes the slot 1 of the closed one, not a new slot 2. *)
Lemma open_device_lowest_slot_witness :
  let hub := (close_device "/dev/input/event1" keypad_and_touch).1.2 in
  let r := open_device "/dev/input/event2" (touchscreen 21) hub in
  r = (0, r.1.2, r.2) /\
  exists devid dev,
    slot_device r.1.2 devid = Some dev /\ slot_device hub devid = None /\
    (forall i, (i < devid)%nat -> is_Some (slot_device hub i)) /\
    mNumDevicesById r.1.2 = 2.
Proof.
  intros hub r.
  assert (Hopen : open_device "/dev/input/event2" (touchscreen 21) hub
                  = (0, r.1.2, r.2)) by (vm_compute; reflexivity).
  split; [exact Hopen|].
  destruct (open_device_lowest_slot _ _ _ _ _ Hopen)
    as (devid & dev & _ & Hslot & Hfree & Hlow & _).
  exists devid, dev. split; [exact Hslot|]. split; [exact Hfree|].
  split; [exact Hlow|]. vm_compute. reflexivity.
Defined.

(** X4 on the gamepad, which is given up, and on the touchscreen for which
    [mFDs] is moved and [mDevices] cannot be grown. *)
Lemma open_device_failure_witness :
  (open_device "/dev/input/event0" gamepad keypad_and_touch).1.1 = -1 /\
  mFDCount (open_device "/dev/input/event0" gamepad keypad_and_touch).1.2
  = mFDCount keypad_and_touch /\
  mFirstKeyboardId (open_device "/dev/input/event0" gamepad keypad_and_touch).1.2
  = mFirstKeyboardId keypad_and_touch /\
  mDevices (open_device "/dev/input/event0" gamepad keypad_and_touch).1.2
  = mDevices keypad_and_touch /\
  (open_device "/dev/input/event1" no_memory_for_devices hub0).1.1 = -1 /\
  mFDCount (open_device "/dev/input/event1" no_memory_for_devices hub0).1.2
  = mFDCount hub0 /\
  mDangling hub0 = false /\
  mDangling (open_device "/dev/input/event1" no_memory_for_devices hub0).1.2 = true.
Proof.
  assert (Hret : (open_device "/dev/input/event0" gamepad keypad_and_touch).1.1 = -1)
    by (vm_compute; reflexivity).
  assert (Hdefined :
    mDangling (open_device "/dev/input/event0" gamepad keypad_and_touch).1.2 = false)
    by (vm_compute; reflexivity).
  assert (Hret' : (open_device "/dev/input/event1" no_memory_for_devices hub0).1.1 = -1)
    by (vm_compute; reflexivity).
  assert (Hbefore : mDangling hub0 = false) by (vm_compute; reflexivity).
  destruct (open_device_failure "/dev/input/event0" gamepad keypad_and_touch)
    as [_ Hkept].
  destruct (Hkept Hret) as (Hcount & _ & _ & Hfirst & _ & Hdevs).
  destruct (open_device_failure "/dev/input/event1" no_memory_for_devices hub0)
    as [_ Hkept'].
  destruct (Hkept' Hret') as (Hcount' & _ & _ & _ & _ & Harrays).
  split; [exact Hret|]. split; [exact Hcount|]. split; [exact Hfirst|].
  split.
  { destruct Hdevs as [[_ Hdevs]|[Hd _]]; [exact Hdevs|].
    rewrite Hdefined in Hd. discriminate Hd. }
  split; [exact Hret'|]. split; [exact Hcount'|]. split; [exact Hbefore|].
  destruct Harrays as [[Hd _]|[Hd _]]; [|exact Hd].
  rewrite Hbefore in Hd.
  assert (Hnow : mDangling (open_device "/dev/input/event1" no_memory_for_devices hub0).1.2
                 = true) by (vm_compute; reflexivity).
  rewrite Hnow in Hd. discriminate Hd.
Defined.

(** X5 on the keypad and the touchscreen, and on an identifier that names
    no device. *)
Lemma getDeviceClasses_0_witness :
  reachable keypad_and_touch /\
  getDevice keypad_and_touch 0x10002 = None /\
  getDeviceClasses keypad_and_touch 0x10002 = 0 /\
  getDevice keypad_and_touch 0x10001 <> None.
Proof.
  assert (Hnone : getDevice keypad_and_touch 0x10002 = None) by (vm_compute; reflexivity).
  assert (Hclasses : getDeviceClasses keypad_and_touch 0x10001 <> 0)
    by (vm_compute; discriminate).
  split; [exact reachable_keypad_and_touch|]. split; [exact Hnone|]. split.
  - apply (getDeviceClasses_0 keypad_and_touch 0x10002 reachable_keypad_and_touch).
    exact Hnone.
  - intros Hgone. apply Hclasses.
    apply (getDeviceClasses_0 keypad_and_touch 0x10001 reachable_keypad_and_touch).
    exact Hgone.
Defined.

(** X6 on the touchscreen found after the keypad. *)
Lemma open_device_getDevice_witness :
  let hub := (open_device "/dev/input/event0" omap_keypad hub0).1.2 in
  let r := open_device "/dev/input/event1" (touchscreen 20) hub in
  (r = (0, r.1.2, r.2) /\ mNumDevicesById hub < 0x10000) /\
  (exists dev,
     getDevice r.1.2 (id dev) = Some dev /\
     path dev = "/dev/input/event1"%string /\
     getDeviceName r.1.2 (id dev) = "touch"%string) /\
  name <$> getDevice r.1.2 0x10000 = Some "omap-keypad"%string.
Proof.
  intros hub r.
  assert (Hopen : open_device "/dev/input/event1" (touchscreen 20) hub
                  = (0, r.1.2, r.2)) by (vm_compute; reflexivity).
  assert (Hbound : mNumDevicesById hub < 0x10000) by (vm_compute; reflexivity).
  split; [split; [exact Hopen|exact Hbound]|].
  destruct (open_device_getDevice _ _ _ _ _ Hopen Hbound)
    as [(dev & _ & _ & Hget & Hpath & Hname) Hold].
  split; [exists dev; split; [exact Hget|split; [exact Hpath|exact Hname]]|].
  destruct (getDevice hub 0x10000) as [keypad|] eqn:Hkeypad;
    [|vm_compute in Hkeypad; discriminate].
  assert (Hnm : name keypad = "omap-keypad"%string)
    by (vm_compute in Hkeypad; injection Hkeypad as <-; reflexivity).
  rewrite (Hold 0x10000 keypad ltac:(discriminate) Hkeypad). simpl. by rewrite Hnm.
Defined.

(** X7 on the touchscreen of [keypad_and_touch]: once closed its
    identifier finds nothing, and the keypad is found as before. *)
Lemma close_device_getDevice_witness :
  (reachable keypad_and_touch /\ mNumDevicesById keypad_and_touch <= 0x10000 /\
   (close_device "/dev/input/event1" keypad_and_touch).1.1 = 0) /\
  getDevice (close_device "/dev/input/event1" keypad_and_touch).1.2 0x10001 = None /\
  getDevice (close_device "/dev/input/event1" keypad_and_touch).1.2 0x10000
  = getDevice keypad_and_touch 0x10000.
Proof.
  assert (Hbound : mNumDevicesById keypad_and_touch <= 0x10000)
    by (vm_compute; discriminate).
  assert (Hret : (close_device "/dev/input/event1" keypad_and_touch).1.1 = 0)
    by (vm_compute; reflexivity).
  destruct (mClosingDevices (close_device "/dev/input/event1" keypad_and_touch).1.2)
    as [|dev rest] eqn:Hclosing; [vm_compute in Hclosing; discriminate|].
  assert (Hid : id dev = 0x10001)
    by (vm_compute in Hclosing; injection Hclosing as <- _; reflexivity).
  destruct (close_device_getDevice "/dev/input/event1" keypad_and_touch dev rest
              reachable_keypad_and_touch Hbound Hret Hclosing)
    as (_ & _ & Hgone & Hothers).
  split; [split; [exact reachable_keypad_and_touch|split; [exact Hbound|exact Hret]]|].
  split.
  - rewrite <- Hid. exact Hgone.
  - apply Hothers; [discriminate|]. rewrite Hid. discriminate.
Defined.

(** X8 on the keypad and the touchscreen of [keypad_and_touch]. *)
Lemma open_devices_distinct_ids_witness :
  (reachable keypad_and_touch /\ mNumDevicesById keypad_and_touch <= 0x10000) /\
  exists keypad touch,
    mDevices keypad_and_touch !! 1%nat = Some (Some keypad) /\
    mDevices keypad_and_touch !! 2%nat = Some (Some touch) /\
    getDevice keypad_and_touch (id keypad) = Some keypad /\
    id keypad <> id touch.
Proof.
  assert (Hbound : mNumDevicesById keypad_and_touch <= 0x10000)
    by (vm_compute; discriminate).
  split; [split; [exact reachable_keypad_and_touch|exact Hbound]|].
  destruct (mDevices keypad_and_touch !! 1%nat) as [[keypad|]|] eqn:H1;
    try (vm_compute in H1; discriminate).
  destruct (mDevices keypad_and_touch !! 2%nat) as [[touch|]|] eqn:H2;
    try (vm_compute in H2; discriminate).
  destruct (open_devices_distinct_ids keypad_and_touch 1 2 keypad touch
              reachable_keypad_and_touch Hbound H1 H2) as (_ & Hget & Hinj).
  exists keypad, touch. split; [reflexivity|]. split; [reflexivity|].
  split; [exact Hget|]. intros Heq. apply Hinj in Heq. discriminate.
Defined.

(** X9 on a mouse, a trackball and a multi-touch screen. *)
Lemma open_device_pointer_touch_witness :
  let m := open_device "/dev/input/event0" mouse hub0 in
  let t := open_device "/dev/input/event0" trackball hub0 in
  let s := open_device "/dev/input/event0" (touchscreen 20) hub0 in
  (m = (0, m.1.2, m.2) /\ t = (0, t.1.2, t.2) /\ s = (0, s.1.2, s.2)) /\
  (exists dev, mOpeningDevices m.1.2 = [dev] /\
     has_class (classes dev) CLASS_MOUSE = true /\
     has_class (classes dev) CLASS_TRACKBALL = false) /\
  (exists dev, mOpeningDevices t.1.2 = [dev] /\
     has_class (classes dev) CLASS_MOUSE = false /\
     has_class (classes dev) CLASS_TRACKBALL = true) /\
  (exists dev, mOpeningDevices s.1.2 = [dev] /\
     has_class (classes dev) CLASS_TOUCHSCREEN_MT = true /\
     has_class (classes dev) CLASS_TOUCHSCREEN = true).
Proof.
  intros m t s.
  assert (Hm : open_device "/dev/input/event0" mouse hub0 = (0, m.1.2, m.2))
    by (vm_compute; reflexivity).
  assert (Ht : open_device "/dev/input/event0" trackball hub0 = (0, t.1.2, t.2))
    by (vm_compute; reflexivity).
  assert (Hs : open_device "/dev/input/event0" (touchscreen 20) hub0 = (0, s.1.2, s.2))
    by (vm_compute; reflexivity).
  split; [split; [exact Hm|split; [exact Ht|exact Hs]]|].
  destruct (open_device_pointer_touch _ _ _ _ _ Hm) as (dm & Hom & Hmm & Hmt & _).
  destruct (open_device_pointer_touch _ _ _ _ _ Ht) as (dt & Hot & Htm & Htt & _).
  destruct (open_device_pointer_touch _ _ _ _ _ Hs) as (ds & Hos & _ & _ & Hsm & Hss).
  split; [|split].
  - exists dm. split; [exact Hom|]. split.
    + rewrite Hmm. vm_compute. reflexivity.
    + rewrite Hmt. vm_compute. reflexivity.
  - exists dt. split; [exact Hot|]. split.
    + rewrite Htm. vm_compute. reflexivity.
    + rewrite Htt. vm_compute. reflexivity.
  - exists ds. split; [exact Hos|]. split.
    + rewrite Hsm. vm_compute. reflexivity.
    + rewrite Hss. vm_compute. reflexivity.
Defined.

(** X10 on the keypad, which has the key Q and only one of the five
    directional keys. *)
Lemma open_device_key_classes_witness :
  let r := open_device "/dev/input/event0" omap_keypad hub0 in
  r = (0, r.1.2, r.2) /\
  exists dev, mOpeningDevices r.1.2 = [dev] /\
    has_class (classes dev) CLASS_ALPHAKEY = true /\
    has_class (classes dev) CLASS_DPAD = false.
Proof.
  intros r.
  assert (Hopen : open_device "/dev/input/event0" omap_keypad hub0 = (0, r.1.2, r.2))
    by (vm_compute; reflexivity).
  split; [exact Hopen|].
  destruct (open_device_key_classes _ _ _ _ _ Hopen) as (dev & Hopening & Ha & Hd).
  exists dev. split; [exact Hopening|].
  assert (Hdev : mOpeningDevices r.1.2 = [dev]) by exact Hopening.
  assert (Hq : is_keyboard dev && hasKeycode dev kKeyCodeQ = true).
  { vm_compute in Hdev. injection Hdev as <-. vm_compute. reflexivity. }
  assert (Hdown : hasKeycode dev kKeyCodeDpadDown = false).
  { vm_compute in Hdev. injection Hdev as <-. vm_compute. reflexivity. }
  split; [rewrite Ha; exact Hq|].
  rewrite Hd, Hdown. by destruct (is_keyboard dev), (hasKeycode dev kKeyCodeDpadUp).
Defined.

(** X11 on the keypad of [keypad_and_touch]. *)
Lemma getDeviceClasses_consistent_witness :
  reachable keypad_and_touch /\
  getDeviceClasses keypad_and_touch 0x10000 = Z.lor CLASS_KEYBOARD CLASS_ALPHAKEY /\
  0 <= getDeviceClasses keypad_and_touch 0x10000 < 0x100 /\
  has_class (getDeviceClasses keypad_and_touch 0x10000) CLASS_KEYBOARD = true.
Proof.
  assert (Hc : getDeviceClasses keypad_and_touch 0x10000
               = Z.lor CLASS_KEYBOARD CLASS_ALPHAKEY) by (vm_compute; reflexivity).
  destruct (getDeviceClasses_consistent keypad_and_touch 0x10000
              reachable_keypad_and_touch) as (Hrange & _ & _ & Halpha & _).
  split; [exact reachable_keypad_and_touch|]. split; [exact Hc|].
  split; [exact Hrange|]. apply Halpha. rewrite Hc. reflexivity.
Defined.

(** A device that is found and removed again within one read of the
    inotify descriptor, before [getEvent] has reported it.  [close_device]
    pushes the record on the closing list while the opening list still
    leads to it; the next turn of the loop reports the removal and deletes
    the record; the opening list is left leading to the deleted record. *)
Example device_found_and_lost :
  let r := getEvent 3 None [found_and_lost; key_press_answer] both_reported in
  mOpeningDevices both_reported = [] /\ mClosingDevices both_reported = [] /\
  mDangling both_reported = false /\
  r.1.1 = Some {| outDeviceId := 0x10002; outType := DEVICE_REMOVED;
                  outScancode := 0; outKeycode := 0; outFlags := 0;
                  outValue := 0; outWhen := 0 |} /\
  id <$> mOpeningDevices r.1.2 = [0x10002] /\ mClosingDevices r.1.2 = [] /\
  mDangling r.1.2 = true.
Proof. vm_compute. repeat split; reflexivity. Qed.

(** X12 on the registry a client has after its first [getEvent], which
    found the usb keyboard and a touchscreen in /dev/input, and on the
    registry of [device_found_and_lost]. *)
Lemma in_use_reachable_witness :
  let hub := (getEvent 3 (Some boot_dir) [key_press_answer] EventHub_new).1.2 in
  let lost := (getEvent 3 None [found_and_lost; key_press_answer]
                 (getEvent 3 None [key_press_answer] hub).1.2).1.2 in
  in_use hub /\ reachable hub /\ mFDCount hub = 3 /\
  in_use lost /\ reachable lost /\ mDangling lost = true.
Proof.
  intros hub lost.
  assert (Huse : in_use hub).
  { apply (in_use_getEvent EventHub_new 3 (Some boot_dir) [key_press_answer]).
    apply in_use_new. }
  assert (Hlost : in_use lost).
  { apply (in_use_getEvent _ 3 None [found_and_lost; key_press_answer]).
    apply (in_use_getEvent hub 3 None [key_press_answer]). exact Huse. }
  split; [exact Huse|]. split; [exact (in_use_reachable hub Huse)|].
  split; [vm_compute; reflexivity|].
  split; [exact Hlost|]. split; [exact (in_use_reachable lost Hlost)|].
  vm_compute. reflexivity.
Defined.

(** X13 on a new hub, whose first [getEvent] cannot even open /dev/input. *)
Lemma errorCheck_in_use_witness :
  in_use EventHub_new /\
  errorCheck EventHub_new = NO_INIT /\
  errorCheck (getEvent 3 None [] EventHub_new).1.2 = NO_ERROR.
Proof.
  destruct (errorCheck_in_use EventHub_new in_use_new) as [Hnow Hafter].
  split; [exact in_use_new|]. split; [exact Hnow|]. apply Hafter.
Defined.

(** X14 on the keypad and the touchscreen. *)
Lemma reachable_poll_shape_witness :
  reachable keypad_and_touch /\ mDangling keypad_and_touch = false /\
  poll_shape keypad_and_touch /\ mFDCount keypad_and_touch = 3.
Proof.
  assert (Hdefined : mDangling keypad_and_touch = false) by (vm_compute; reflexivity).
  split; [exact reachable_keypad_and_touch|]. split; [exact Hdefined|].
  split; [exact (reachable_poll_shape keypad_and_touch reachable_keypad_and_touch
                   Hdefined)|].
  vm_compute. reflexivity.
Defined.

(** X15 on the keypad and the touchscreen, where the keypad is the first
    keyboard, and on the registry before any device is found. *)
Lemma getDevice_0_witness :
  (reachable keypad_and_touch /\ mNumDevicesById keypad_and_touch <= 0x10000 /\
   mFirstKeyboardId keypad_and_touch <> 0 /\
   reachable hub0 /\ mNumDevicesById hub0 <= 0x10000 /\ mFirstKeyboardId hub0 = 0) /\
  (exists dev, getDevice keypad_and_touch 0 = Some dev /\ is_keyboard dev = true) /\
  getDevice hub0 0 = None.
Proof.
  assert (Hbound : mNumDevicesById keypad_and_touch <= 0x10000)
    by (vm_compute; discriminate).
  assert (Hfirst : mFirstKeyboardId keypad_and_touch <> 0) by (vm_compute; discriminate).
  assert (Hbound0 : mNumDevicesById hub0 <= 0x10000) by (vm_compute; discriminate).
  assert (Hfirst0 : mFirstKeyboardId hub0 = 0) by reflexivity.
  split; [repeat split; assumption || exact reachable_keypad_and_touch
                        || exact reachable_hub0|].
  destruct (getDevice_0 keypad_and_touch reachable_keypad_and_touch Hbound)
    as [_ Hsome].
  destruct (getDevice_0 hub0 reachable_hub0 Hbound0) as [Hnone _].
  destruct (Hsome Hfirst) as (j & dev & Hget & _ & _ & Hk & _).
  split; [exists dev; split; [exact Hget|exact Hk]|]. exact (Hnone Hfirst0).
Defined.

(** X16 on the keypad of [keypad_and_touch], the first keyboard: its
    removal is reported under 0x10000, not under 0. *)
Lemma closed_device_reported_witness :
  let hub' := (close_device "/dev/input/event0" keypad_and_touch).1.2 in
  let r := getEvent 3 None [key_press_answer] hub' in
  (reachable keypad_and_touch /\ mOpened keypad_and_touch = true /\
   (close_device "/dev/input/event0" keypad_and_touch).1.1 = 0 /\
   mFirstKeyboardId keypad_and_touch = 0x10000) /\
  r.1.1 = Some {| outDeviceId := 0x10000; outType := DEVICE_REMOVED;
                  outScancode := 0; outKeycode := 0; outFlags := 0;
                  outValue := 0; outWhen := 0 |}.
Proof.
  intros hub' r.
  assert (Hopened : mOpened keypad_and_touch = true) by (vm_compute; reflexivity).
  assert (Hret : (close_device "/dev/input/event0" keypad_and_touch).1.1 = 0)
    by (vm_compute; reflexivity).
  assert (Hfirst : mFirstKeyboardId keypad_and_touch = 0x10000)
    by (vm_compute; reflexivity).
  split; [split; [exact reachable_keypad_and_touch|split; [exact Hopened|
          split; [exact Hret|exact Hfirst]]]|].
  destruct (closed_device_reported "/dev/input/event0" keypad_and_touch 3 None
              key_press_answer [] reachable_keypad_and_touch Hopened Hret)
    as (dev & Hcl & _ & _ & Hev & _).
  assert (Hid : id dev = 0x10000)
    by (vm_compute in Hcl; injection Hcl as <-; reflexivity).
  rewrite Hid in Hev. exact Hev.
Defined.

(** X17 on the third [getEvent] of a client: the key press was read at an
    index of the answer of [poll], it carries the identifier 0, and that
    identifier finds the record in the cell of that index, the usb
    keyboard. *)
Lemma event_device_resolves_witness :
  let h1 := (getEvent 3 (Some boot_dir) [key_press_answer] EventHub_new).1.2 in
  let h2 := (getEvent 3 None [key_press_answer] h1).1.2 in
  let r := getEvent 3 None [key_press_answer] h2 in
  (in_use h2 /\
   r.1.1 = Some {| outDeviceId := 0; outType := EV_KEY; outScancode := 30;
                   outKeycode := 29; outFlags := 0; outValue := 1;
                   outWhen := 100000007000 |} /\
   mNumDevicesById r.1.2 <= 0x10000 /\ mDangling r.1.2 = false) /\
  exists answer i revents iev dev,
    answer ∈ [key_press_answer] /\
    poll_ready answer !! i = Some (revents, Some iev) /\
    mDevices r.1.2 !! i = Some (Some dev) /\
    r.1.1 = Some (translate_event r.1.2 dev iev) /\
    getDevice r.1.2 0 = Some dev /\ id dev = mFirstKeyboardId r.1.2.
Proof.
  intros h1 h2 r.
  assert (Huse : in_use h2).
  { apply (in_use_getEvent h1 3 None [key_press_answer]).
    apply (in_use_getEvent EventHub_new 3 (Some boot_dir) [key_press_answer]).
    apply in_use_new. }
  assert (Hev : r.1.1 =
    Some {| outDeviceId := 0; outType := EV_KEY; outScancode := 30;
            outKeycode := 29; outFlags := 0; outValue := 1;
            outWhen := 100000007000 |}) by (vm_compute; reflexivity).
  assert (Hrun : getEvent 3 None [key_press_answer] h2 =
    (Some {| outDeviceId := 0; outType := EV_KEY; outScancode := 30;
             outKeycode := 29; outFlags := 0; outValue := 1;
             outWhen := 100000007000 |}, r.1.2, r.2)) by (vm_compute; reflexivity).
  assert (Hbound : mNumDevicesById r.1.2 <= 0x10000) by (vm_compute; discriminate).
  assert (Hdefined : mDangling r.1.2 = false) by (vm_compute; reflexivity).
  split; [split; [exact Huse|split; [exact Hev|split; [exact Hbound|exact Hdefined]]]|].
  destruct (event_device_resolves 3 None [key_press_answer] h2 r.1.2 _ r.2
              Huse Hrun Hbound Hdefined)
    as (answer & i & revents & iev & dev & Hin & _ & Hready & _ & _ & Hdev
        & Htranslated & Hget & Hzero).
  - vm_compute. discriminate.
  - vm_compute. discriminate.
  - exists answer, i, revents, iev, dev.
    split; [exact Hin|]. split; [exact Hready|]. split; [exact Hdev|].
    split; [rewrite Hev; f_equal; exact Htranslated|].
    split; [exact Hget|]. apply Hzero. reflexivity.
Defined.

(** X19 on the keypad of [keypad_and_touch] and its key 16. *)
Lemma keyBitmask_in_range_witness :
  reachable keypad_and_touch /\
  exists dev bitmask,
    mDevices keypad_and_touch !! 1%nat = Some (Some dev) /\
    keyBitmask dev = Some bitmask /\
    length bitmask = 64%nat /\ is_Some (test_bit 16 bitmask).
Proof.
  split; [exact reachable_keypad_and_touch|].
  destruct (mDevices keypad_and_touch !! 1%nat) as [[dev|]|] eqn:Hdev;
    try (vm_compute in Hdev; discriminate).
  destruct (keyBitmask dev) as [bitmask|] eqn:Hbm;
    [|vm_compute in Hdev; injection Hdev as <-; discriminate].
  destruct (keyBitmask_in_range keypad_and_touch 1 dev bitmask
              reachable_keypad_and_touch Hdev Hbm) as [Hlen Hin].
  exists dev, bitmask. split; [reflexivity|]. split; [exact Hbm|].
  split; [exact Hlen|]. apply (Hin 16). reflexivity.
Defined.

(** X20 on the keypad and the touchscreen: the keypad has the keys Q and
    DPAD_UP and no key for the code 7. *)
Lemma hasKeys_flags_witness :
  hasKeys keypad_and_touch [kKeyCodeQ; kKeyCodeDpadUp; 7] = inr [1; 1; 0] /\
  length [1; 1; 0] = length [kKeyCodeQ; kKeyCodeDpadUp; 7] /\
  Forall (fun flag => flag = 0 \/ flag = 1) [1; 1; 0].
Proof.
  assert (Hrun : hasKeys keypad_and_touch [kKeyCodeQ; kKeyCodeDpadUp; 7]
                 = inr [1; 1; 0]) by (vm_compute; reflexivity).
  split; [exact Hrun|].
  exact (hasKeys_flags keypad_and_touch [kKeyCodeQ; kKeyCodeDpadUp; 7] [1; 1; 0] Hrun).
Defined.

(** X21 on a registry whose only device is a touchscreen. *)
Lemma hasKeys_no_keyboard_witness :
  let hub := (open_device "/dev/input/event0" (touchscreen 20) hub0).1.2 in
  (reachable hub /\ mFDCount hub = 2) /\
  hasKeys hub [kKeyCodeQ; kKeyCodeDpadUp] = inr [0; 0].
Proof.
  intros hub.
  assert (Hreach : reachable hub).
  { eapply reachable_step; [apply reachable_hub0|].
    apply step_open_device. reflexivity. }
  assert (Hnone : forall j dev,
            mDevices hub !! j = Some (Some dev) -> is_keyboard dev = false).
  { intros [|[|[|j]]] dev Hj; vm_compute in Hj; try discriminate.
    injection Hj as <-. reflexivity. }
  split; [split; [exact Hreach|vm_compute; reflexivity]|].
  exact (hasKeys_no_keyboard hub [kKeyCodeQ; kKeyCodeDpadUp] Hreach Hnone).
Defined.

(** X23 on the usb keyboard, the first device found: it becomes the first
    keyboard and is announced as the device 0. *)
Lemma opened_device_reported_witness :
  let o := open_device "/dev/input/event0" usb_keyboard hub0 in
  let r := getEvent 3 None [key_press_answer] o.1.2 in
  (mOpened hub0 = true /\ mClosingDevices hub0 = [] /\ o = (0, o.1.2, o.2)) /\
  r.1.1 = Some {| outDeviceId := 0; outType := DEVICE_ADDED;
                  outScancode := 0; outKeycode := 0; outFlags := 0;
                  outValue := 0; outWhen := 0 |} /\
  mOpeningDevices r.1.2 = [].
Proof.
  intros o r.
  assert (Hopen : open_device "/dev/input/event0" usb_keyboard hub0 = (0, o.1.2, o.2))
    by (vm_compute; reflexivity).
  split; [split; [reflexivity|split; [reflexivity|exact Hopen]]|].
  destruct (opened_device_reported "/dev/input/event0" usb_keyboard hub0 o.1.2 o.2
              3 None key_press_answer [] eq_refl eq_refl Hopen)
    as (dev & Hopening & _ & _ & Hev & _ & Hrest).
  assert (Hfirst : (id dev =? mFirstKeyboardId o.1.2) = true)
    by (vm_compute in Hopening; injection Hopening as <-; vm_compute; reflexivity).
  rewrite Hfirst in Hev. split; [exact Hev|exact Hrest].
Defined.

(** X24 on a touchscreen that comes and goes while the keypad stays.  The
    keypad has not been reported yet: it is on the opening list before the
    two calls, and is no longer after them. *)
Lemma open_close_restores_witness :
  let hub := (open_device "/dev/input/event0" omap_keypad hub0).1.2 in
  let o := open_device "/dev/input/event1" (touchscreen 20) hub in
  let r := close_device "/dev/input/event1" o.1.2 in
  (reachable hub /\ 0 < mFDCount hub /\ mNumDevicesById hub < 0x10000 /\
   o = (0, o.1.2, o.2)) /\
  r.1.1 = 0 /\ mDevices r.1.2 = mDevices hub /\ mFDCount r.1.2 = mFDCount hub /\
  id <$> mOpeningDevices hub = [0x10000] /\
  id <$> mOpeningDevices o.1.2 = [0x10001; 0x10000] /\
  id <$> mClosingDevices r.1.2 = [0x10001] /\
  id <$> mOpeningDevices r.1.2 = [0x10001] /\
  mOpeningDevices r.1.2 = mClosingDevices r.1.2.
Proof.
  intros hub o r.
  assert (Hreach : reachable hub).
  { eapply reachable_step; [apply reachable_hub0|].
    apply step_open_device. reflexivity. }
  assert (Hpos : 0 < mFDCount hub) by (vm_compute; reflexivity).
  assert (Hbound : mNumDevicesById hub < 0x10000) by (vm_compute; reflexivity).
  assert (Hfresh : forall j d, mDevices hub !! j = Some (Some d) ->
                               path d <> "/dev/input/event1"%string).
  { intros [|[|[|j]]] d Hj; vm_compute in Hj; try discriminate.
    injection Hj as <-. vm_compute. discriminate. }
  assert (Hopen : open_device "/dev/input/event1" (touchscreen 20) hub
                  = (0, o.1.2, o.2)) by (vm_compute; reflexivity).
  split; [split; [exact Hreach|split; [exact Hpos|split; [exact Hbound|exact Hopen]]]|].
  destruct (open_close_restores "/dev/input/event1" (touchscreen 20) hub o.1.2 o.2
              Hreach Hpos Hbound Hfresh Hopen)
    as (Hret & Hdevs & Hcount & _ & dev & Hopening & Hclosing & Hrelinked & _).
  split; [exact Hret|]. split; [exact Hdevs|]. split; [exact Hcount|].
  split; [vm_compute; reflexivity|]. split; [vm_compute; reflexivity|].
  split; [vm_compute; reflexivity|]. split; [vm_compute; reflexivity|].
  exact (eq_trans Hrelinked (eq_sym Hclosing)).
Defined.

(** X26 on a device that reports the switch 6 only: it is given up, and the
    cell 6 holds the identifier 0x10000 of a record that does not exist. *)
Lemma dropped_device_keeps_claim_witness :
  let r := open_device "/dev/input/event0" lid_switch hub0 in
  (reachable hub0 /\ mNumDevicesById hub0 < 0x10000 /\
   ~ reports_key_below lid_switch BTN_MISC /\ no_other_class lid_switch hub0 /\
   probed lid_switch hub0 /\ 0 <= 6 < SW_MAX /\
   switch_cell (mSwitches hub0) 6 = 0) /\
  r.1.1 = -1 /\
  switch_cell (mSwitches r.1.2) 6 = 0x10000 /\
  getDevice r.1.2 0x10000 = None /\
  getSwitchState silent_kernel r.1.2 6 = Some (-1).
Proof.
  intros r.
  assert (Hbound : mNumDevicesById hub0 < 0x10000) by (vm_compute; reflexivity).
  assert (Hnokey : ~ reports_key_below lid_switch BTN_MISC).
  { unfold reports_key_below. rewrite <- classify_keyboard_bits.
    vm_compute. intros Hne. by apply Hne. }
  assert (Hother : no_other_class lid_switch hub0)
    by (vm_compute; repeat split; reflexivity).
  assert (Hprobed : probed lid_switch hub0)
    by (vm_compute; repeat split; reflexivity || discriminate).
  assert (Hk : 0 <= 6 < SW_MAX) by (vm_compute; split; [discriminate|reflexivity]).
  assert (Hbit : bit_set 6 (ioctl_buffer (bitmask_size SW_MAX)
                               (ioctl_EVIOCGBIT_SW lid_switch)) = true)
    by (vm_compute; reflexivity).
  assert (Hfree : switch_cell (mSwitches hub0) 6 = 0) by (vm_compute; reflexivity).
  split; [repeat split; try assumption; try exact reachable_hub0;
          try (vm_compute; discriminate); vm_compute; reflexivity|].
  destruct (dropped_device_keeps_claim "/dev/input/event0" lid_switch hub0 6
              reachable_hub0 Hbound Hnokey Hother Hprobed Hk Hbit Hfree)
    as (Hret & device_id & _ & Hcell & Hgone & Hstate & _).
  assert (Hid : device_id = 0x10000).
  { rewrite <- Hcell. vm_compute. reflexivity. }
  rewrite Hid in Hcell, Hgone.
  split; [exact Hret|]. split; [exact Hcell|]. split; [exact Hgone|].
  apply Hstate.
Defined.

(** X27 on the registry before any device is found. *)
Lemma no_first_keyboard_accessors_witness :
  (reachable hub0 /\ mFirstKeyboardId hub0 = 0) /\
  getScancodeState silent_kernel hub0 30 = Some (-1) /\
  getKeycodeState silent_kernel hub0 kKeyCodeQ = Some (-1) /\
  scancodeToKeycode hub0 0 30 = (NAME_NOT_FOUND, (0, 0)).
Proof.
  split; [split; [exact reachable_hub0|reflexivity]|].
  destruct (no_first_keyboard_accessors silent_kernel hub0 30 reachable_hub0 eq_refl)
    as (Hscan & _ & Hmap).
  destruct (no_first_keyboard_accessors silent_kernel hub0 kKeyCodeQ reachable_hub0
              eq_refl) as (_ & Hkey & _).
  split; [exact Hscan|]. split; [exact Hkey|exact Hmap].
Defined.
